(** * MFEM / Ginkgo bridge: a shallow embedding of [linalg/ginkgo.cpp]

    The development follows the source file top to bottom:

    - [gko]: the part of the Ginkgo backend the bridge talks to (executors,
      dense scalars, stopping-criterion factories, operator factories).  The
      numerical kernels are external and enter through the [Backend] class.
    - [GinkgoExecutor]: the two constructors that choose an executor.
    - [GinkgoIterativeSolver]: the base constructor, [update_stop_factory],
      [Mult], [SetOperator] and the constructors of the derived solvers.
    - [OperatorWrapper]: the plain and the scaled [apply_impl], and the
      public apply of the backend through which the scaled one is reached.
    - [GinkgoPreconditioner], [AMGPreconditioner], [MFEMPreconditioner].

    Conventions.  A C++ [double] is a real number ([R]): the properties below
    are about which value flows where, not about rounding.  A C++ [int] or
    [size_type] is a [Z], with casts written out.  A [std::shared_ptr] that
    may be empty is an [option].  A dense matrix of the backend carries the
    executor it lives on: its entries can be read in place on a host
    executor only, and a raw copy reads them in the memory of the executor
    the copy is issued from.  A member function is a computation in the
    monad [M S]: it threads the object's state and stops at the first
    [MFEM_ABORT], failed [MFEM_VERIFY], C++ exception or undefined read,
    keeping the state reached at that point. *)

From Stdlib Require Import ZArith List String Bool Lia.
From Stdlib Require Import Reals Lra.
Import ListNotations.

Local Open Scope string_scope.
Local Open Scope list_scope.
Local Open Scope Z_scope.

Set Implicit Arguments.
Local Set Warnings "-register-all".

(** ** Control flow: normal return, abort, exception *)

Inductive gko_error : Type :=
| BadDimension (operand : string) (rows cols : Z)
| DimensionMismatch
| NotSupported.

Inductive stop_reason : Type :=
| Aborted (msg : string)      (* MFEM_ABORT, failed MFEM_VERIFY, MFEM_GPU_CHECK:
                                 the report carrying [msg] that mfem_error
                                 sends to mfem::err is this outcome, it is not
                                 repeated in the streams of the state *)
| Thrown (e : gko_error)      (* C++ exception leaving the function *)
| UndefinedRead               (* read through an empty pointer or out of bounds *)
| OutOfFuel.                  (* the model's loop bound was too small *)

Inductive res (A : Type) : Type :=
| Val (a : A)
| Stop (why : stop_reason).

Arguments Val {A} a.
Arguments Stop {A} why.

Definition M (S A : Type) : Type := S -> S * res A.

Definition ret {S A} (a : A) : M S A := fun s => (s, Val a).

Definition bind {S A B} (c : M S A) (k : A -> M S B) : M S B :=
  fun s =>
    match c s with
    | (s', Val a) => k a s'
    | (s', Stop why) => (s', Stop why)
    end.

Definition get {S} : M S S := fun s => (s, Val s).
Definition put {S} (s : S) : M S unit := fun _ => (s, Val tt).
Definition modify {S} (f : S -> S) : M S unit := fun s => (f s, Val tt).
Definition stop {S A} (why : stop_reason) : M S A := fun s => (s, Stop why).

Declare Scope cpp_scope.
Delimit Scope cpp_scope with cpp.
Notation "x <- c ;; k" := (bind c (fun x => k))
  (at level 61, c at next level, right associativity) : cpp_scope.
Notation "c ;; k" := (bind c (fun _ => k))
  (at level 61, right associativity) : cpp_scope.
Local Open Scope cpp_scope.

Definition MFEM_ABORT {S A} (msg : string) : M S A := stop (Aborted msg).

Definition MFEM_VERIFY {S} (cond : bool) (msg : string) : M S unit :=
  if cond then ret tt else stop (Aborted msg).

Definition when {S} (cond : bool) (c : M S unit) : M S unit :=
  if cond then c else ret tt.

Definition is_some {A} (o : option A) : bool :=
  match o with Some _ => true | None => false end.

(** Dereferencing a smart pointer: an empty one has no object behind it. *)
Definition deref {S A} (p : option A) : M S A :=
  match p with Some a => ret a | None => stop UndefinedRead end.

(** ** MFEM side: vectors, operators, output streams *)

Definition Vector : Type := list R.

Definition Size (v : Vector) : Z := Z.of_nat (List.length v).

(** Modelled from the spec: [Vector::operator=(double)], [operator*=] and
    [Vector::Add] live in linalg/vector.cpp; the source comments at their
    call sites read "Scale x by beta" and "Scale tmp by alpha and add". *)
Definition Vector_assign (c : R) (y : Vector) : Vector := map (fun _ => c) y.

Definition Vector_scale (c : R) (y : Vector) : Vector :=
  map (fun yi => (yi * c)%R) y.

Fixpoint Vector_Add (a : R) (Va y : Vector) : Vector :=
  match y, Va with
  | yi :: y', vi :: Va' => (yi + a * vi)%R :: Vector_Add a Va' y'
  | _, _ => y
  end.

(** The three arrays of a compressed-row matrix, in caller memory. *)
Record SparseMatrix : Type := {
  GetI : list Z;
  GetJ : list Z;
  GetData : list R
}.

(** [mfem::Operator]: its shape, its action [y = Op(x)], and the
    compressed-row matrix behind it when its dynamic type is
    [SparseMatrix]. *)
Record Operator : Type := {
  Height : Z;
  Width : Z;
  Mult : Vector -> Vector;
  as_SparseMatrix : option SparseMatrix   (* dynamic_cast<const SparseMatrix*> *)
}.

(** [GetMemoryData().Capacity()] *)
Definition Capacity (A : SparseMatrix) : Z := Z.of_nat (List.length (GetData A)).

(** What is written to [mfem::out] and [mfem::err]. *)
Inductive message : Type :=
| Text (s : string)
| ConvergedIn (final_iter : Z) (final_res_norm : R)
| ResidualTrace.

Record Streams : Type := {
  mfem_out : list message;
  mfem_err : list message
}.

Definition no_output : Streams := {| mfem_out := []; mfem_err := [] |}.

Definition to_err (m : message) (io : Streams) : Streams :=
  {| mfem_out := mfem_out io; mfem_err := (mfem_err io ++ [m])%list |}.

Definition to_out (m : message) (io : Streams) : Streams :=
  {| mfem_out := (mfem_out io ++ [m])%list; mfem_err := mfem_err io |}.

(** ** The Ginkgo backend, as far as the bridge sees it *)

Module gko.

Inductive Executor : Type :=
| ReferenceExecutor
| OmpExecutor
| CudaExecutor (device_id : Z) (master : Executor)
| HipExecutor (device_id : Z) (master : Executor).

(** A host executor is its own master; a device executor names its host.
    The master of an executor is always a host executor: for a device
    executor whose [master] argument is itself a device executor it is that
    one's host. *)
Fixpoint get_master (e : Executor) : Executor :=
  match e with
  | ReferenceExecutor => ReferenceExecutor
  | OmpExecutor => OmpExecutor
  | CudaExecutor _ m => get_master m
  | HipExecutor _ m => get_master m
  end.

Fixpoint Executor_eqb (a b : Executor) : bool :=
  match a, b with
  | ReferenceExecutor, ReferenceExecutor => true
  | OmpExecutor, OmpExecutor => true
  | CudaExecutor i m, CudaExecutor j n => (i =? j) && Executor_eqb m n
  | HipExecutor i m, HipExecutor j n => (i =? j) && Executor_eqb m n
  | _, _ => false
  end.

(** [gko::matrix::Dense<double>]: an executor tag, a size, the values. *)
Record Dense : Type := {
  d_executor : Executor;
  d_rows : Z;
  d_cols : Z;
  d_values : list R
}.

(** [Dense::copy_from]: the destination takes the size and the values of
    the source and stays on its own executor. *)
Definition copy_from (dst_exec : Executor) (src : Dense) : Dense :=
  {| d_executor := dst_exec; d_rows := d_rows src; d_cols := d_cols src;
     d_values := d_values src |}.

(** [Dense::at(0, 0)]: a host-side accessor.  It dereferences the value
    array in host memory, so it has a defined result only for a matrix whose
    executor is a host executor and which has an entry (0,0). *)
Definition at_0_0 {S} (d : Dense) : M S R :=
  if Executor_eqb (d_executor d) (get_master (d_executor d))
  then
    match d_values d with
    | v :: _ => ret v
    | [] => stop UndefinedRead
    end
  else stop UndefinedRead.

(** The memory an executor allocates in: host memory for the two host
    executors, the memory of its device for a device executor. *)
Inductive memory_space : Type :=
| host_memory
| cuda_memory (device_id : Z)
| hip_memory (device_id : Z).

Definition get_mem_space (e : Executor) : memory_space :=
  match e with
  | ReferenceExecutor => host_memory
  | OmpExecutor => host_memory
  | CudaExecutor i _ => cuda_memory i
  | HipExecutor i _ => hip_memory i
  end.

Definition memory_space_eqb (a b : memory_space) : bool :=
  match a, b with
  | host_memory, host_memory => true
  | cuda_memory i, cuda_memory j => i =? j
  | hip_memory i, hip_memory j => i =? j
  | _, _ => false
  end.

(** [dst_exec->copy_from(src_exec, 1, src_ptr, &dst)] with [src_ptr] the
    value array of [d] and [dst_exec] a host executor: one element is read
    at [src_ptr] as an address in the memory of [src_exec].  The read is
    defined only when that is the memory the array lives in. *)
Definition copy_one_from {S} (src_exec : Executor) (d : Dense) : M S R :=
  if memory_space_eqb (get_mem_space src_exec) (get_mem_space (d_executor d))
  then
    match d_values d with
    | v :: _ => ret v
    | [] => stop UndefinedRead
    end
  else stop UndefinedRead.

(** [gko::as<Dense<double>>(p)] on a pointer that may be empty *)
Definition as_Dense {S} (p : option Dense) : M S Dense :=
  match p with
  | Some d => ret d
  | None => stop (Thrown NotSupported)
  end.

(** The two ways the bridge hands an MFEM vector to the backend. *)
Inductive Vec : Type :=
| DenseView (exec : Executor) (size : Z) (on_device : bool) (data : Vector)
| VectorWrapper (exec : Executor) (size : Z) (mfem_vec : Vector)
                (ownership : bool).

Inductive value_type : Type := vt_double | vt_float.

Inductive mode : Type := initial_resnorm | absolute.

Inductive storage_precision : Type :=
| keep | reduce1 | reduce2 | integer | ireduce1 | ireduce2.

(** What [T::build()] can be asked to build. *)
Inductive Kind : Type :=
| ResidualNorm | ImplicitResidualNorm | Iteration | Combined
| Cg (vt : value_type) | Bicgstab | Cgs | Fcg | Gmres | CbGmres | Ir
| Jacobi (vt : value_type)
| Ic_factorization (vt : value_type) | ParIc_factorization (vt : value_type)
| Ic_preconditioner
| AmgxPgm (vt : value_type)
| Multigrid.

(** A factory is the builder expression that made it:
    [T::build().with_a(..).with_b(..).on(executor)].  A linear operator is
    a compressed-row view, a wrapped MFEM operator, or what a factory
    generated for an operator. *)
Inductive Factory : Type :=
| Build (k : Kind) (params : list Param) (on : option Executor)
| build_smoother (vt : value_type) (inner : Factory) (iteration : Z)
                 (relaxation_factor : R)
with Param : Type :=
| with_reduction_factor (r : R)
| with_baseline (b : mode)
| with_max_iters (n : Z)
| with_criteria (cs : list (option Factory))
| with_krylov_dim (n : Z)
| with_storage_precision (p : storage_precision)
| with_generated_preconditioner (p : option LinOp)
| with_preconditioner (f : option Factory)
| with_solver (f : option Factory)
| with_max_block_size (n : Z)
| with_both_factors (b : bool)
| with_factorization_factory (f : Factory)
| with_deterministic (b : bool)
| with_skip_sorting (b : bool)
| with_min_coarse_rows (n : Z)
| with_pre_smoother (fs : list (option Factory))
| with_mg_level (fs : list (option Factory))
| with_level_selector (selector : Z -> Z)
| with_coarsest_solver (fs : list (option Factory))
| with_zero_guess (b : bool)
with LinOp : Type :=
| Csr (exec : Executor) (rows cols : Z) (on_device : bool) (nnz : Z)
      (values : list R) (col_idxs row_ptrs : list Z)
| OperatorWrapper (exec : option Executor) (size : Z) (wrapped_oper : Operator)
| Generated (factory : Factory) (system : LinOp).

(** [dynamic_cast<const OperatorWrapper*>(p.get())] as a condition *)
Definition is_OperatorWrapper (p : option LinOp) : bool :=
  match p with
  | Some (OperatorWrapper _ _ _) => true
  | _ => false
  end.

(** The numeric type a factory was instantiated at, where it has one. *)
Definition precision_of (f : Factory) : option value_type :=
  match f with
  | Build (Cg vt) _ _ => Some vt
  | Build (Jacobi vt) _ _ => Some vt
  | Build (Ic_factorization vt) _ _ => Some vt
  | Build (ParIc_factorization vt) _ _ => Some vt
  | Build (AmgxPgm vt) _ _ => Some vt
  | build_smoother vt _ _ _ => Some vt
  | _ => None
  end.

(** *** Reading a builder's parameters back

    The last setting of a parameter wins; an unset one has the default of
    the backend. *)
Fixpoint get_max_iters (ps : list Param) (default : Z) : Z :=
  match ps with
  | [] => default
  | with_max_iters n :: ps' => get_max_iters ps' n
  | _ :: ps' => get_max_iters ps' default
  end.

Fixpoint get_zero_guess (ps : list Param) (default : bool) : bool :=
  match ps with
  | [] => default
  | with_zero_guess b :: ps' => get_zero_guess ps' b
  | _ :: ps' => get_zero_guess ps' default
  end.

Fixpoint get_criteria (ps : list Param) (default : list (option Factory))
  : list (option Factory) :=
  match ps with
  | [] => default
  | with_criteria cs :: ps' => get_criteria ps' cs
  | _ :: ps' => get_criteria ps' default
  end.

Fixpoint get_pre_smoother (ps : list Param) (default : list (option Factory))
  : list (option Factory) :=
  match ps with
  | [] => default
  | with_pre_smoother fs :: ps' => get_pre_smoother ps' fs
  | _ :: ps' => get_pre_smoother ps' default
  end.

Fixpoint get_mg_level (ps : list Param) (default : list (option Factory))
  : list (option Factory) :=
  match ps with
  | [] => default
  | with_mg_level fs :: ps' => get_mg_level ps' fs
  | _ :: ps' => get_mg_level ps' default
  end.

Fixpoint get_level_selector (ps : list Param) (default : Z -> Z) : Z -> Z :=
  match ps with
  | [] => default
  | with_level_selector sel :: ps' => get_level_selector ps' sel
  | _ :: ps' => get_level_selector ps' default
  end.

Definition params_of (f : Factory) : list Param :=
  match f with
  | Build _ ps _ => ps
  | build_smoother _ _ _ _ => []
  end.

(** *** What a convergence logger holds after a solve *)
Record ConvergenceLog : Type := {
  get_num_iterations : Z;
  get_residual_norm : option Dense;
  get_implicit_sq_resnorm : option Dense;
  has_converged : bool
}.

Inductive Logger : Type :=
| ConvergenceLogger
| ResidualLogger.

End gko.

(** [static_cast<unsigned long>(i)] for a 64-bit [unsigned long]. *)
Definition to_unsigned_long (i : Z) : Z := i mod 2 ^ 64.

(** [static_cast<unsigned int>(i)] *)
Definition to_unsigned_int (i : Z) : Z := i mod 2 ^ 32.

(** The conversion of an integer to a 32-bit [int], as in the assignment of
    a [size_type] to an [int] member: the value modulo 2^32 in the range of
    [int]. *)
Definition to_int (i : Z) : Z := (i + 2 ^ 31) mod 2 ^ 32 - 2 ^ 31.

(** ** GinkgoExecutor *)

Module GinkgoExecutor.

Inductive ExecType : Type :=
| REFERENCE
| OMP
| CUDA
| HIP
| OtherExecType (code : Z).   (* a value outside the enumerators *)

(** The build configuration and what the device runtimes answer. *)
Record Runtime : Type := {
  MFEM_USE_CUDA : bool;
  MFEM_USE_HIP : bool;
  Cuda_get_num_devices : Z;
  Hip_get_num_devices : Z;
  cudaGetDevice : option Z;       (* [None]: the call reports an error *)
  hipGetDevice : option Z
}.

(** [mfem::Device], as far as [Allows] is asked. *)
Record Device : Type := {
  Allows_CUDA_MASK : bool;
  Allows_HIP_MASK : bool
}.

Record t : Type := {
  executor : option gko.Executor;
  io : Streams
}.

Definition fresh (io0 : Streams) : t := {| executor := None; io := io0 |}.

Definition set_executor (e : gko.Executor) : M t unit :=
  modify (fun this => {| executor := Some e; io := io this |}).

Definition print_err (s : string) : M t unit :=
  modify (fun this => {| executor := executor this;
                         io := to_err (Text s) (io this) |}).

(** [MFEM_GPU_CHECK(xxxGetDevice(&current_device))] *)
Definition MFEM_GPU_CHECK (answer : option Z) : M t Z :=
  match answer with
  | Some current_device => ret current_device
  | None => MFEM_ABORT "GPU error"
  end.

Definition create_cuda (rt : Runtime) : M t unit :=
  if MFEM_USE_CUDA rt then
    current_device <- MFEM_GPU_CHECK (cudaGetDevice rt) ;;
    set_executor (gko.CudaExecutor current_device gko.OmpExecutor)
  else ret tt.

Definition create_hip (rt : Runtime) : M t unit :=
  if MFEM_USE_HIP rt then
    current_device <- MFEM_GPU_CHECK (hipGetDevice rt) ;;
    set_executor (gko.HipExecutor current_device gko.OmpExecutor)
  else ret tt.

(** [GinkgoExecutor::GinkgoExecutor(ExecType exec_type)] *)
Definition from_ExecType (rt : Runtime) (exec_type : ExecType) : M t unit :=
  match exec_type with
  | REFERENCE => set_executor gko.ReferenceExecutor
  | OMP => set_executor gko.OmpExecutor
  | CUDA =>
      if 0 <? Cuda_get_num_devices rt then create_cuda rt
      else MFEM_ABORT
             "gko::CudaExecutor::get_num_devices() did not report any valid devices."
  | HIP =>
      if 0 <? Hip_get_num_devices rt then create_hip rt
      else print_err
             "gko::HipExecutor::get_num_devices() did not report any valid devices"
  | OtherExecType _ => print_err "Invalid ExecType specified"
  end.

(** [GinkgoExecutor::GinkgoExecutor(Device &mfem_device)] *)
Definition from_Device (rt : Runtime) (mfem_device : Device) : M t unit :=
  if Allows_CUDA_MASK mfem_device then
    if 0 <? Cuda_get_num_devices rt then create_cuda rt
    else MFEM_ABORT
           "gko::CudaExecutor::get_num_devices() did not report any valid devices."
  else if Allows_HIP_MASK mfem_device then
    if 0 <? Hip_get_num_devices rt then create_hip rt
    else MFEM_ABORT
           "gko::HipExecutor::get_num_devices() did not report any valid devices."
  else set_executor gko.OmpExecutor.

Definition GetExecutor (this : t) : option gko.Executor := executor this.

End GinkgoExecutor.

(** ** What the backend computes

    The kernels are Ginkgo's.  [solver_apply] is [solver->apply(b, x)] on a
    generated Krylov or stationary solver: it returns the last iterate and
    what the convergence logger attached to the stopping criteria recorded.
    [multigrid_cycle] is one cycle of a generated multigrid hierarchy,
    [linop_apply] the apply of any other generated operator, [residual] the
    residual norm of an iterate. *)
Class Backend : Type := {
  solver_apply : gko.LinOp -> gko.Vec -> gko.Vec -> Vector * gko.ConvergenceLog;
  multigrid_cycle : gko.Factory -> gko.LinOp -> Vector -> Vector -> Vector;
  linop_apply : gko.LinOp -> Vector -> Vector -> Vector;
  residual : gko.LinOp -> Vector -> Vector -> R
}.

(** *** Stopping criteria and the loop they control *)

Record Progress : Type := {
  num_iterations : Z;
  residual_norm : R;
  implicit_sq_resnorm : R;
  initial_residual_norm : R
}.

Definition Rle_bool (a b : R) : bool := if Rle_dec a b then true else false.

Fixpoint get_reduction_factor (ps : list gko.Param) (default : R) : R :=
  match ps with
  | [] => default
  | gko.with_reduction_factor r :: ps' => get_reduction_factor ps' r
  | _ :: ps' => get_reduction_factor ps' default
  end.

Fixpoint get_baseline (ps : list gko.Param) (default : gko.mode) : gko.mode :=
  match ps with
  | [] => default
  | gko.with_baseline b :: ps' => get_baseline ps' b
  | _ :: ps' => get_baseline ps' default
  end.

Definition baseline_value (b : gko.mode) (p : Progress) : R :=
  match b with
  | gko.initial_resnorm => initial_residual_norm p
  | gko.absolute => 1%R
  end.

(** Modelled from the spec: the three criteria of section 4.3 (stop when
    residual over baseline is at most the factor; stop at the iteration
    cap), the implicit one comparing the root of the tracked squared norm. *)
Definition check_one (c : option gko.Factory) (p : Progress) : bool :=
  match c with
  | Some (gko.Build gko.Iteration ps _) =>
      gko.get_max_iters ps 0 <=? num_iterations p
  | Some (gko.Build gko.ResidualNorm ps _) =>
      Rle_bool (residual_norm p)
               (get_reduction_factor ps 0 * baseline_value (get_baseline ps gko.initial_resnorm) p)
  | Some (gko.Build gko.ImplicitResidualNorm ps _) =>
      Rle_bool (sqrt (implicit_sq_resnorm p))
               (get_reduction_factor ps 0 * baseline_value (get_baseline ps gko.initial_resnorm) p)
  | _ => false
  end.

(** A combined criterion stops as soon as one of its members does. *)
Definition check (c : option gko.Factory) (p : Progress) : bool :=
  match c with
  | Some (gko.Build gko.Combined ps _) =>
      existsb (fun c' => check_one c' p) (gko.get_criteria ps [])
  | _ => check_one c p
  end.

(** The iteration loop of a backend solver: test the criterion, then step.
    [None] means the fuel ran out before the criterion stopped the loop. *)
Fixpoint iterate_until {X} (fuel : nat) (stops : Z -> X -> bool)
         (step : X -> X) (k : Z) (x : X) : option (Z * X) :=
  match fuel with
  | O => None
  | S fuel' =>
      if stops k x then Some (k, x)
      else iterate_until fuel' stops step (k + 1) (step x)
  end.

Definition lift {S A} (r : res A) : M S A := fun s => (s, r).

(** ** OperatorWrapper *)

Module OperatorWrapper.

Inductive Access : Type :=
| DirectAccess (operand : string)
| CopyToHost (operand : string) (from : gko.Executor).

(** The output operand [x] of an apply and the scalar reads made so far. *)
Record Operands : Type := {
  x : gko.Vec;
  accesses : list Access
}.

(** [gko::as<VectorWrapper>(v)]: only this type is accepted. *)
Definition as_VectorWrapper {S} (v : gko.Vec) : M S Vector :=
  match v with
  | gko.VectorWrapper _ _ mfem_vec _ => ret mfem_vec
  | gko.DenseView _ _ _ _ => stop (Thrown NotSupported)
  end.

(** Writing through [get_mfem_vec_ref()] of [x]. *)
Definition set_mfem_vec (v : Vector) : M Operands unit :=
  modify (fun s =>
    {| x := match x s with
            | gko.VectorWrapper e n _ own => gko.VectorWrapper e n v own
            | other => other
            end;
       accesses := accesses s |}).

Definition log_access (a : Access) : M Operands unit :=
  modify (fun s => {| x := x s; accesses := accesses s ++ [a] |}).

(** [OperatorWrapper::apply_impl(b, x)] *)
Definition apply_impl (wrapped_oper : Operator) (b : gko.Vec)
  : M Operands unit :=
  s <- get ;;
  mfem_b <- as_VectorWrapper b ;;
  _ <- as_VectorWrapper (x s) ;;
  set_mfem_vec (Mult wrapped_oper mfem_b).

(** A scalar operand of the scaled apply arrives as a [const gko::LinOp*]:
    a dense matrix of doubles, or a linear operator of another dynamic type,
    of which the hook uses the size and the executor only. *)
Inductive Scalar : Type :=
| DenseDouble (d : gko.Dense)
| OtherLinOp (exec : gko.Executor) (rows cols : Z).

Definition get_executor (alpha : Scalar) : gko.Executor :=
  match alpha with
  | DenseDouble d => gko.d_executor d
  | OtherLinOp exec _ _ => exec
  end.

(** [alpha->get_size()[0]] and [alpha->get_size()[1]] *)
Definition get_size_0 (alpha : Scalar) : Z :=
  match alpha with
  | DenseDouble d => gko.d_rows d
  | OtherLinOp _ rows _ => rows
  end.

Definition get_size_1 (alpha : Scalar) : Z :=
  match alpha with
  | DenseDouble d => gko.d_cols d
  | OtherLinOp _ _ cols => cols
  end.

(** [gko::as<gko::matrix::Dense<double>>(alpha)] *)
Definition as_Dense_double {S} (alpha : Scalar) : M S gko.Dense :=
  match alpha with
  | DenseDouble d => ret d
  | OtherLinOp _ _ _ => stop (Thrown NotSupported)
  end.

(** Reading one scalar operand of the scaled apply.  The branch is chosen
    by the executor of the operand; the copy of the other branch reads the
    operand's value array as memory of the executor of the wrapper. *)
Definition read_scalar (this_executor : option gko.Executor)
           (name : string) (alpha : Scalar) : M Operands R :=
  if gko.Executor_eqb (get_executor alpha)
                      (gko.get_master (get_executor alpha))
  then
    (* Access value directly *)
    alpha_d <- as_Dense_double alpha ;;
    log_access (DirectAccess name) ;;
    gko.at_0_0 alpha_d
  else
    (* Copy from device to host *)
    exec <- deref this_executor ;;
    alpha_d <- as_Dense_double alpha ;;
    log_access (CopyToHost name exec) ;;
    gko.copy_one_from exec alpha_d.

Definition check_scalar (name : string) (alpha : Scalar)
  : M Operands unit :=
  if (1 <? get_size_0 alpha) || (1 <? get_size_1 alpha)
  then stop (Thrown (BadDimension name (get_size_0 alpha) (get_size_1 alpha)))
  else ret tt.

(** [OperatorWrapper::apply_impl(alpha, b, beta, x)]:
    x = alpha * op (b) + beta * x *)
Definition apply_impl_scaled (this_executor : option gko.Executor)
           (wrapped_oper : Operator)
           (alpha : Scalar) (b : gko.Vec) (beta : Scalar)
  : M Operands unit :=
  s <- get ;;
  mfem_b <- as_VectorWrapper b ;;
  mfem_x <- as_VectorWrapper (x s) ;;
  check_scalar "alpha" alpha ;;
  check_scalar "beta" beta ;;
  alpha_f <- read_scalar this_executor "alpha" alpha ;;
  beta_f <- read_scalar this_executor "beta" beta ;;
  (* Scale x by beta *)
  let mfem_x := Vector_scale beta_f mfem_x in
  set_mfem_vec mfem_x ;;
  (* Multiply operator with b and store in tmp *)
  let mfem_tmp := Mult wrapped_oper mfem_b in
  (* Scale tmp by alpha and add *)
  set_mfem_vec (Vector_Add alpha_f mfem_tmp mfem_x).

(** The MFEM vector behind an operand after a call. *)
Definition mfem_vec_of (v : gko.Vec) : Vector :=
  match v with
  | gko.VectorWrapper _ _ mfem_vec _ => mfem_vec
  | gko.DenseView _ _ _ data => data
  end.

(** *** The public entry of the scaled apply

    [apply_impl] is the protected hook of [gko::LinOp]; a caller reaches it
    through the public [gko::LinOp::apply(alpha, b, beta, x)] of the backend,
    which the wrapper inherits.  That function checks the operands against
    the size of the operator, checks that [alpha] and [beta] are 1 x 1, and
    hands the hook temporary clones of the four operands on the executor of
    the operator. *)









End OperatorWrapper.

(** ** Applying a linear operator of the backend

    [LinOp::apply(b, x)]: a wrapped MFEM operator runs its own
    [apply_impl]; a generated multigrid starts from zero when built with
    [with_zero_guess(true)] and cycles until its criteria stop it; anything
    else is the backend's.  The result is the new content of [x]. *)
Section Apply.

Context {backend : Backend}.

Definition multigrid_apply (fuel : nat) (factory : gko.Factory)
           (system : gko.LinOp) (b x0 : Vector) : res Vector :=
  let ps := gko.params_of factory in
  let start := if gko.get_zero_guess ps false then Vector_assign 0 x0 else x0 in
  let progress k xk :=
    {| num_iterations := k;
       residual_norm := residual system b xk;
       implicit_sq_resnorm := (residual system b xk * residual system b xk)%R;
       initial_residual_norm := residual system b start |} in
  let stops k xk :=
    existsb (fun c => check c (progress k xk)) (gko.get_criteria ps []) in
  match iterate_until fuel stops (multigrid_cycle factory system b) 0 start with
  | Some (_, xk) => Val xk
  | None => Stop OutOfFuel
  end.

Definition LinOp_apply (fuel : nat) (op : gko.LinOp) (b x : gko.Vec)
  : res Vector :=
  match op with
  | gko.OperatorWrapper _ _ wrapped_oper =>
      match OperatorWrapper.apply_impl wrapped_oper b
              {| OperatorWrapper.x := x; OperatorWrapper.accesses := [] |} with
      | (s, Val _) => Val (OperatorWrapper.mfem_vec_of (OperatorWrapper.x s))
      | (_, Stop why) => Stop why
      end
  | gko.Generated (gko.Build gko.Multigrid _ _ as factory) system =>
      multigrid_apply fuel factory system
                      (OperatorWrapper.mfem_vec_of b)
                      (OperatorWrapper.mfem_vec_of x)
  | _ =>
      Val (linop_apply op (OperatorWrapper.mfem_vec_of b)
                       (OperatorWrapper.mfem_vec_of x))
  end.

End Apply.

(** ** GinkgoPreconditioner and the preconditioners built on it *)

Module GinkgoPreconditioner.

Record t : Type := {
  iterative_mode : bool;                       (* mfem::Solver *)
  executor : option gko.Executor;
  precond_gen : option gko.Factory;
  generated_precond : option gko.LinOp;
  has_generated_precond : bool
}.

(** [GinkgoPreconditioner::GinkgoPreconditioner(GinkgoExecutor &exec)] *)
Definition create (exec : GinkgoExecutor.t) : t :=
  {| iterative_mode := false;
     executor := GinkgoExecutor.GetExecutor exec;
     precond_gen := None;
     generated_precond := None;
     has_generated_precond := false |}.

Definition set_precond_gen (f : option gko.Factory) (this : t) : t :=
  {| iterative_mode := iterative_mode this; executor := executor this;
     precond_gen := f;
     generated_precond := generated_precond this;
     has_generated_precond := has_generated_precond this |}.

Definition set_generated_precond (p : option gko.LinOp) (this : t) : t :=
  {| iterative_mode := iterative_mode this; executor := executor this;
     precond_gen := precond_gen this;
     generated_precond := p;
     has_generated_precond := has_generated_precond this |}.

Definition set_has_generated_precond (b : bool) (this : t) : t :=
  {| iterative_mode := iterative_mode this; executor := executor this;
     precond_gen := precond_gen this;
     generated_precond := generated_precond this;
     has_generated_precond := b |}.

Definition set_iterative_mode (b : bool) (this : t) : t :=
  {| iterative_mode := b; executor := executor this;
     precond_gen := precond_gen this;
     generated_precond := generated_precond this;
     has_generated_precond := has_generated_precond this |}.

(** Modelled from the spec: the accessors of linalg/ginkgo.hpp behind the
    two binding modes of section 4.5. *)
Definition HasGeneratedPreconditioner (this : t) : bool :=
  has_generated_precond this.

Definition GetGeneratedPreconditioner (this : t) : option gko.LinOp :=
  generated_precond this.

Definition GetFactory (this : t) : option gko.Factory := precond_gen this.

(** [GinkgoPreconditioner::Mult(const Vector &x, Vector &y)]; the state is
    the content of [y]. *)
Definition Mult {backend : Backend} (fuel : nat) (this : t) (x : Vector)
  : M Vector unit :=
  MFEM_VERIFY (is_some (generated_precond this))
              "Preconditioner not initialized" ;;
  MFEM_VERIFY (is_some (executor this)) "executor is not initialized" ;;
  when (negb (iterative_mode this)) (modify (Vector_assign 0)) ;;
  exec <- deref (executor this) ;;
  let on_device := negb (gko.Executor_eqb exec (gko.get_master exec)) in
  y <- get ;;
  let gko_x := gko.DenseView exec (Size x) on_device x in
  let gko_y := gko.DenseView exec (Size y) on_device y in
  precond <- deref (generated_precond this) ;;
  y' <- lift (LinOp_apply fuel precond gko_x gko_y) ;;
  put y'.

(** [GinkgoPreconditioner::SetOperator(const Operator &op)].  The last step,
    [precond_gen->generate(gko_matrix)], is the library's: the model takes
    it to accept the matrix, and says nothing on the matrices a factory of
    the library refuses. *)
Definition SetOperator (op : Operator) : M t unit :=
  this <- get ;;
  when (has_generated_precond this)
       (modify (set_generated_precond None) ;;
        modify (set_has_generated_precond false)) ;;
  (* Only accept SparseMatrix for this type. *)
  let op_mat := as_SparseMatrix op in
  MFEM_VERIFY (is_some op_mat)
              "GinkgoPreconditioner::SetOperator : not a SparseMatrix!" ;;
  op_mat <- deref op_mat ;;
  exec <- deref (executor this) ;;
  let on_device := negb (gko.Executor_eqb exec (gko.get_master exec)) in
  let nnz := Capacity op_mat in
  let gko_matrix :=
    gko.Csr exec (Height op) (Width op) on_device nnz
            (GetData op_mat) (GetJ op_mat) (GetI op_mat) in
  gen <- deref (precond_gen this) ;;
  modify (set_generated_precond (Some (gko.Generated gen gko_matrix))) ;;
  modify (set_has_generated_precond true).

End GinkgoPreconditioner.

Module AMGPreconditioner.

Import gko.

Inductive SmootherType : Type := JACOBI | BLOCK_JACOBI | IC | PARIC | CG.

(** A small-integer argument converted to [size_type] at the call. *)
Definition size_type (i : Z) : Z := to_unsigned_long i.

Section Pieces.

Variable executor : option Executor.
Variable use_mixed_prec : bool.

Definition point_jacobi (vt : value_type) : Factory :=
  Build (Jacobi vt) [with_max_block_size (to_unsigned_int 1)] executor.

Definition block_jacobi (vt : value_type) : Factory :=
  Build (Jacobi vt) [] executor.

Definition ic_with (fact_factory : Factory) : Factory :=
  Build Ic_preconditioner [with_factorization_factory fact_factory] executor.

Definition ic (vt : value_type) : Factory :=
  ic_with (Build (Ic_factorization vt) [with_both_factors false] executor).

Definition paric (vt : value_type) : Factory :=
  ic_with (Build (ParIc_factorization vt) [with_both_factors false] executor).

Definition cg (vt : value_type) (its : Z) : Factory :=
  Build (Cg vt)
        [with_criteria
           [Some (Build Iteration [with_max_iters (size_type its)] executor)]]
        executor.

(** The first [switch]: the pair ([smoother_gen], [smoother_gen_s]) when
    control leaves it. *)
Definition smoother_gens (smoother : SmootherType) (pre_sweeps : Z)
  : option Factory * option Factory :=
  let smooth vt inner_solver :=
    build_smoother vt inner_solver (size_type pre_sweeps) (9 / 10)%R in
  match smoother with
  | JACOBI =>
      (Some (smooth vt_double (point_jacobi vt_double)),
       if use_mixed_prec
       then Some (smooth vt_float (point_jacobi vt_float)) else None)
  | BLOCK_JACOBI =>
      (Some (smooth vt_double (block_jacobi vt_double)),
       if use_mixed_prec
       then Some (smooth vt_float (block_jacobi vt_float)) else None)
  | IC =>
      (Some (smooth vt_double (ic vt_double)),
       if use_mixed_prec
       then Some (smooth vt_float (ic vt_float)) else None)
  | PARIC =>
      (Some (smooth vt_double (paric vt_double)),
       if use_mixed_prec
       then Some (smooth vt_float (paric vt_float)) else None)
  | CG =>
      let smoother_gen := Some (cg vt_double pre_sweeps) in
      (* the mixed-precision branch assigns [smoother_gen] again *)
      let smoother_gen :=
        if use_mixed_prec then Some (cg vt_float pre_sweeps)
        else smoother_gen in
      (smoother_gen, None)
  end.

(** The second [switch]: [coarse_solver_gen]. *)
Definition coarse_solver_gen (coarse_solver : SmootherType)
           (coarse_solve_its : Z) : option Factory :=
  let vt := if use_mixed_prec then vt_float else vt_double in
  let smooth inner_solver :=
    build_smoother vt inner_solver (size_type coarse_solve_its) (9 / 10)%R in
  match coarse_solver with
  | JACOBI => Some (smooth (point_jacobi vt))
  | BLOCK_JACOBI => Some (smooth (block_jacobi vt))
  | IC => Some (smooth (ic vt))
  | PARIC => Some (smooth (paric vt))
  | CG => Some (cg vt coarse_solve_its)
  end.

(** Top level (fine grid) will sort by default unless told otherwise. *)
Definition mg_top_level_gen (skip_sort : bool) : option Factory :=
  if skip_sort then
    if use_mixed_prec
    then Some (Build (AmgxPgm vt_double)
                     [with_deterministic true; with_skip_sorting true]
                     executor)
    else None
  else Some (Build (AmgxPgm vt_double) [with_deterministic true] executor).

(** Other levels should always skip sort. *)
Definition mg_level_gen : option Factory :=
  Some (Build (AmgxPgm vt_double)
              [with_deterministic true; with_skip_sorting true] executor).

(** Single precision levels (for mixed-precision) *)
Definition mg_level_gen_s : option Factory :=
  Some (Build (AmgxPgm vt_float)
              [with_deterministic true; with_skip_sorting true] executor).

End Pieces.

(** Choose first (double) for first level, then single for others *)
Definition selector (level : Z) : Z := if level =? 0 then 0 else 1.

(** [AMGPreconditioner::AMGPreconditioner] *)
Definition create (exec : GinkgoExecutor.t) (smoother : SmootherType)
           (pre_sweeps post_sweeps : Z) (coarse_solver : SmootherType)
           (coarse_solve_its : Z) (use_mixed_prec skip_sort : bool)
  : GinkgoPreconditioner.t :=
  let this := GinkgoPreconditioner.create exec in
  let executor := GinkgoPreconditioner.executor this in
  let '(smoother_gen, smoother_gen_s) :=
    smoother_gens executor use_mixed_prec smoother pre_sweeps in
  let coarse_solver_gen :=
    coarse_solver_gen executor use_mixed_prec coarse_solver coarse_solve_its in
  let mg_top_level_gen := mg_top_level_gen executor use_mixed_prec skip_sort in
  let one_cycle :=
    with_criteria [Some (Build Iteration [with_max_iters 1] executor)] in
  let precond_gen :=
    if use_mixed_prec then
      Build Multigrid
            [with_min_coarse_rows 64;
             with_pre_smoother [smoother_gen; smoother_gen_s];
             with_mg_level [mg_top_level_gen; mg_level_gen_s executor];
             with_level_selector selector;
             with_coarsest_solver [coarse_solver_gen];
             one_cycle;
             with_zero_guess true]
            executor
    else if skip_sort then
      (* Can use same mg_level for all levels *)
      Build Multigrid
            [with_min_coarse_rows 64;
             with_pre_smoother [smoother_gen];
             with_mg_level [mg_level_gen executor];
             with_coarsest_solver [coarse_solver_gen];
             one_cycle;
             with_zero_guess true]
            executor
    else
      Build Multigrid
            [with_min_coarse_rows 64;
             with_pre_smoother [smoother_gen];
             with_mg_level [mg_top_level_gen; mg_level_gen executor];
             with_level_selector selector;
             with_coarsest_solver [coarse_solver_gen];
             one_cycle;
             with_zero_guess true]
            executor in
  GinkgoPreconditioner.set_precond_gen (Some precond_gen) this.

(** *** The per-level specification of a generated hierarchy

    The multigrid asks its level selector for an index at each level and
    takes the coarsening factory and the smoother at that index; a
    single-entry list serves every level. *)
Definition pick (fs : list (option Factory)) (index : Z) : option Factory :=
  match fs with
  | [f] => f
  | _ => nth (Z.to_nat index) fs None
  end.

Definition level_index (precond_gen : Factory) (level : Z) : Z :=
  get_level_selector (params_of precond_gen) (fun _ => 0) level.

Definition level_smoother (precond_gen : Factory) (level : Z)
  : option Factory :=
  pick (get_pre_smoother (params_of precond_gen) [])
       (level_index precond_gen level).

Definition level_coarsening (precond_gen : Factory) (level : Z)
  : option Factory :=
  pick (get_mg_level (params_of precond_gen) [])
       (level_index precond_gen level).

Definition has_precision (vt : value_type) (f : option Factory) : bool :=
  match f with
  | Some f' =>
      match precision_of f', vt with
      | Some vt_double, vt_double => true
      | Some vt_float, vt_float => true
      | _, _ => false
      end
  | None => false
  end.

End AMGPreconditioner.

Module MFEMPreconditioner.

(** [MFEMPreconditioner::MFEMPreconditioner(exec, mfem_precond)] *)
Definition create (exec : GinkgoExecutor.t) (mfem_precond : Operator)
  : GinkgoPreconditioner.t :=
  let this := GinkgoPreconditioner.create exec in
  let this :=
    GinkgoPreconditioner.set_generated_precond
      (Some (gko.OperatorWrapper (GinkgoPreconditioner.executor this)
                                 (Height mfem_precond) mfem_precond))
      this in
  GinkgoPreconditioner.set_has_generated_precond true this.

End MFEMPreconditioner.

(** ** GinkgoIterativeSolver *)

Module GinkgoIterativeSolver.

Import gko.

Record t : Type := mk {
  iterative_mode : bool;   (* mfem::Solver *)
  executor : option Executor;
  print_level : Z;
  max_iter : Z;
  rel_tol : R;
  abs_tol : R;
  use_implicit_res_norm : bool;
  rel_criterion : option Factory;
  abs_criterion : option Factory;
  imp_rel_criterion : option Factory;
  imp_abs_criterion : option Factory;
  combined_factory : option Factory;
  combined_factory_loggers : list Logger;   (* attached to [combined_factory] *)
  solver_gen : option Factory;
  system_oper : option LinOp;
  solver : option LinOp;
  solver_loggers : list Logger;   (* attached to [solver] *)
  convergence_logger : option ConvergenceLog;
  residual_logger : option Vec;
  needs_wrapped_vecs : bool;
  sub_op_needs_wrapped_vecs : bool;
  final_iter : option Z;   (* [None]: not assigned yet *)
  converged : option Z;
  m : option Z   (* Krylov dimension (GMRES solvers) *)
}.

(** Assignment to one member; the others keep their value. *)
Definition set_print_level (new : Z) (this : t) : t :=
  let '(mk a' b' _ d' e' f' g' h' i' j' k' l' m' n' o' p' q' r' s' t' u' v'
           w' x') := this in
  mk a' b' new d' e' f' g' h' i' j' k' l' m' n' o' p' q' r' s' t' u' v' w'
     x'.
Definition set_max_iter (new : Z) (this : t) : t :=
  let '(mk a' b' c' _ e' f' g' h' i' j' k' l' m' n' o' p' q' r' s' t' u' v'
           w' x') := this in
  mk a' b' c' new e' f' g' h' i' j' k' l' m' n' o' p' q' r' s' t' u' v' w'
     x'.
Definition set_rel_tol (new : R) (this : t) : t :=
  let '(mk a' b' c' d' _ f' g' h' i' j' k' l' m' n' o' p' q' r' s' t' u' v'
           w' x') := this in
  mk a' b' c' d' new f' g' h' i' j' k' l' m' n' o' p' q' r' s' t' u' v' w'
     x'.
Definition set_abs_tol (new : R) (this : t) : t :=
  let '(mk a' b' c' d' e' _ g' h' i' j' k' l' m' n' o' p' q' r' s' t' u' v'
           w' x') := this in
  mk a' b' c' d' e' new g' h' i' j' k' l' m' n' o' p' q' r' s' t' u' v' w'
     x'.
Definition set_iterative_mode (new : bool) (this : t) : t :=
  let '(mk _ b' c' d' e' f' g' h' i' j' k' l' m' n' o' p' q' r' s' t' u' v'
           w' x') := this in
  mk new b' c' d' e' f' g' h' i' j' k' l' m' n' o' p' q' r' s' t' u' v' w'
     x'.
Definition set_rel_criterion (new : option Factory) (this : t) : t :=
  let '(mk a' b' c' d' e' f' g' _ i' j' k' l' m' n' o' p' q' r' s' t' u' v'
           w' x') := this in
  mk a' b' c' d' e' f' g' new i' j' k' l' m' n' o' p' q' r' s' t' u' v' w'
     x'.
Definition set_abs_criterion (new : option Factory) (this : t) : t :=
  let '(mk a' b' c' d' e' f' g' h' _ j' k' l' m' n' o' p' q' r' s' t' u' v'
           w' x') := this in
  mk a' b' c' d' e' f' g' h' new j' k' l' m' n' o' p' q' r' s' t' u' v' w'
     x'.
Definition set_imp_rel_criterion (new : option Factory) (this : t) : t :=
  let '(mk a' b' c' d' e' f' g' h' i' _ k' l' m' n' o' p' q' r' s' t' u' v'
           w' x') := this in
  mk a' b' c' d' e' f' g' h' i' new k' l' m' n' o' p' q' r' s' t' u' v' w'
     x'.
Definition set_imp_abs_criterion (new : option Factory) (this : t) : t :=
  let '(mk a' b' c' d' e' f' g' h' i' j' _ l' m' n' o' p' q' r' s' t' u' v'
           w' x') := this in
  mk a' b' c' d' e' f' g' h' i' j' new l' m' n' o' p' q' r' s' t' u' v' w'
     x'.
Definition set_combined_factory (new : option Factory) (this : t) : t :=
  let '(mk a' b' c' d' e' f' g' h' i' j' k' _ m' n' o' p' q' r' s' t' u' v'
           w' x') := this in
  mk a' b' c' d' e' f' g' h' i' j' k' new m' n' o' p' q' r' s' t' u' v' w'
     x'.
Definition set_combined_factory_loggers (new : list Logger) (this : t) : t :=
  let '(mk a' b' c' d' e' f' g' h' i' j' k' l' _ n' o' p' q' r' s' t' u' v'
           w' x') := this in
  mk a' b' c' d' e' f' g' h' i' j' k' l' new n' o' p' q' r' s' t' u' v' w'
     x'.
Definition set_solver_gen (new : option Factory) (this : t) : t :=
  let '(mk a' b' c' d' e' f' g' h' i' j' k' l' m' _ o' p' q' r' s' t' u' v'
           w' x') := this in
  mk a' b' c' d' e' f' g' h' i' j' k' l' m' new o' p' q' r' s' t' u' v' w'
     x'.
Definition set_system_oper (new : option LinOp) (this : t) : t :=
  let '(mk a' b' c' d' e' f' g' h' i' j' k' l' m' n' _ p' q' r' s' t' u' v'
           w' x') := this in
  mk a' b' c' d' e' f' g' h' i' j' k' l' m' n' new p' q' r' s' t' u' v' w'
     x'.
Definition set_solver (new : option LinOp) (this : t) : t :=
  let '(mk a' b' c' d' e' f' g' h' i' j' k' l' m' n' o' _ q' r' s' t' u' v'
           w' x') := this in
  mk a' b' c' d' e' f' g' h' i' j' k' l' m' n' o' new q' r' s' t' u' v' w'
     x'.
Definition set_solver_loggers (new : list Logger) (this : t) : t :=
  let '(mk a' b' c' d' e' f' g' h' i' j' k' l' m' n' o' p' _ r' s' t' u' v'
           w' x') := this in
  mk a' b' c' d' e' f' g' h' i' j' k' l' m' n' o' p' new r' s' t' u' v' w'
     x'.
Definition set_convergence_logger (new : option ConvergenceLog) (this : t) : t :=
  let '(mk a' b' c' d' e' f' g' h' i' j' k' l' m' n' o' p' q' _ s' t' u' v'
           w' x') := this in
  mk a' b' c' d' e' f' g' h' i' j' k' l' m' n' o' p' q' new s' t' u' v' w'
     x'.
Definition set_residual_logger (new : option Vec) (this : t) : t :=
  let '(mk a' b' c' d' e' f' g' h' i' j' k' l' m' n' o' p' q' r' _ t' u' v'
           w' x') := this in
  mk a' b' c' d' e' f' g' h' i' j' k' l' m' n' o' p' q' r' new t' u' v' w'
     x'.
Definition set_needs_wrapped_vecs (new : bool) (this : t) : t :=
  let '(mk a' b' c' d' e' f' g' h' i' j' k' l' m' n' o' p' q' r' s' _ u' v'
           w' x') := this in
  mk a' b' c' d' e' f' g' h' i' j' k' l' m' n' o' p' q' r' s' new u' v' w'
     x'.
Definition set_sub_op_needs_wrapped_vecs (new : bool) (this : t) : t :=
  let '(mk a' b' c' d' e' f' g' h' i' j' k' l' m' n' o' p' q' r' s' t' _ v'
           w' x') := this in
  mk a' b' c' d' e' f' g' h' i' j' k' l' m' n' o' p' q' r' s' t' new v' w'
     x'.
Definition set_final_iter (new : option Z) (this : t) : t :=
  let '(mk a' b' c' d' e' f' g' h' i' j' k' l' m' n' o' p' q' r' s' t' u' _
           w' x') := this in
  mk a' b' c' d' e' f' g' h' i' j' k' l' m' n' o' p' q' r' s' t' u' new w'
     x'.
Definition set_converged (new : option Z) (this : t) : t :=
  let '(mk a' b' c' d' e' f' g' h' i' j' k' l' m' n' o' p' q' r' s' t' u' v'
           _ x') := this in
  mk a' b' c' d' e' f' g' h' i' j' k' l' m' n' o' p' q' r' s' t' u' v' new
     x'.
Definition set_m (new : option Z) (this : t) : t :=
  let '(mk a' b' c' d' e' f' g' h' i' j' k' l' m' n' o' p' q' r' s' t' u' v'
           w' _) := this in
  mk a' b' c' d' e' f' g' h' i' j' k' l' m' n' o' p' q' r' s' t' u' v' w'
     new.

(** [GinkgoIterativeSolver::update_stop_factory()] *)
Definition update_stop_factory (this : t) : t :=
  let iteration :=
    Some (Build Iteration
                [with_max_iters (to_unsigned_long (max_iter this))]
                (executor this)) in
  if use_implicit_res_norm this then
    let imp_rel :=
      Some (Build ImplicitResidualNorm
                  [with_reduction_factor (sqrt (rel_tol this));
                   with_baseline initial_resnorm] (executor this)) in
    let imp_abs :=
      Some (Build ImplicitResidualNorm
                  [with_reduction_factor (sqrt (abs_tol this));
                   with_baseline absolute] (executor this)) in
    let this := set_imp_rel_criterion imp_rel this in
    let this := set_imp_abs_criterion imp_abs this in
    let this :=
      set_combined_factory
        (Some (Build Combined [with_criteria [imp_rel; imp_abs; iteration]]
                     (executor this))) this in
    set_combined_factory_loggers [] this
  else
    let rel :=
      Some (Build ResidualNorm
                  [with_reduction_factor (rel_tol this);
                   with_baseline initial_resnorm] (executor this)) in
    let abs :=
      Some (Build ResidualNorm
                  [with_reduction_factor (abs_tol this);
                   with_baseline absolute] (executor this)) in
    let this := set_rel_criterion rel this in
    let this := set_abs_criterion abs this in
    let this :=
      set_combined_factory
        (Some (Build Combined [with_criteria [rel; abs; iteration]]
                     (executor this))) this in
    set_combined_factory_loggers [] this.

(** [GinkgoIterativeSolver::GinkgoIterativeSolver(exec,
    use_implicit_res_norm)] *)
Definition create (exec : GinkgoExecutor.t) (use_implicit_res_norm : bool)
  : t :=
  let this :=
    {| iterative_mode := false;
       executor := GinkgoExecutor.GetExecutor exec;
       print_level := -1;
       (* Build default stopping criterion factory *)
       max_iter := 10;
       rel_tol := 0;
       abs_tol := 0;
       use_implicit_res_norm := use_implicit_res_norm;
       rel_criterion := None; abs_criterion := None;
       imp_rel_criterion := None; imp_abs_criterion := None;
       combined_factory := None; combined_factory_loggers := [];
       solver_gen := None; system_oper := None;
       solver := None; solver_loggers := [];
       convergence_logger := None; residual_logger := None;
       needs_wrapped_vecs := false;
       sub_op_needs_wrapped_vecs := false;
       final_iter := None; converged := None; m := None |} in
  let this := update_stop_factory this in
  let this := set_needs_wrapped_vecs false this in
  set_sub_op_needs_wrapped_vecs false this.

(** [GinkgoIterativeSolver::initialize_ginkgo_log(b)]: a new convergence
    logger, which has recorded nothing, and a new residual logger. *)
Definition initialize_ginkgo_log (b : Vec) (this : t) : t :=
  let this :=
    set_convergence_logger
      (Some {| get_num_iterations := 0; get_residual_norm := None;
               get_implicit_sq_resnorm := None; has_converged := false |})
      this in
  set_residual_logger (Some b) this.

(** Modelled from the spec: [UsesVectorWrappers] and [GetFactory] of
    linalg/ginkgo.hpp, through which an outer solver inherits the inner
    solver's wrapping requirement (section 4.4). *)
Definition UsesVectorWrappers (this : t) : bool := needs_wrapped_vecs this.

Definition GetFactory (this : t) : option Factory := solver_gen this.

(** What [Mult] works on: the solver, the caller's [y], the streams. *)
Record Call : Type := {
  this : t;
  y : Vector;
  io : Streams
}.

Definition on_this (f : t -> t) : M Call unit :=
  modify (fun c => {| this := f (this c); y := y c; io := io c |}).

Definition on_y (f : Vector -> Vector) : M Call unit :=
  modify (fun c => {| this := this c; y := f (y c); io := io c |}).

Definition on_io (f : Streams -> Streams) : M Call unit :=
  modify (fun c => {| this := this c; y := y c; io := f (io c) |}).

(** Reading the residual norm a logger holds: convert to a dense matrix,
    copy it to the master executor, take the entry. *)
Definition read_norm (exec : Executor) (norm : option Dense) : M Call R :=
  norm_d <- as_Dense norm ;;
  let norm_d_master := copy_from (get_master exec) norm_d in
  at_0_0 norm_d_master.

(** Create x and y vectors in Ginkgo's format: wrap MFEM's data directly
    unless some operator of the chain is a wrapped MFEM operator. *)
Definition wrap (this : t) (exec : Executor) (v : Vector) : Vec :=
  let on_device := negb (Executor_eqb exec (get_master exec)) in
  if negb (needs_wrapped_vecs this)
  then DenseView exec (Size v) on_device v
  else VectorWrapper exec (Size v) v false.

(** [GinkgoIterativeSolver::Mult(const Vector &x, Vector &y)] *)
Definition Mult {backend : Backend} (x : Vector) : M Call unit :=
  c <- get ;;
  MFEM_VERIFY (is_some (system_oper (this c)))
              "System matrix or operator not initialized" ;;
  MFEM_VERIFY (is_some (executor (this c))) "executor is not initialized" ;;
  MFEM_VERIFY (Size (y c) =? Size x)
              "Mismatching sizes for rhs and solution" ;;
  when (negb (iterative_mode (this c))) (on_y (Vector_assign 0)) ;;
  exec <- deref (executor (this c)) ;;
  c <- get ;;
  let gko_x := wrap (this c) exec x in
  let gko_y := wrap (this c) exec (y c) in
  on_this (initialize_ginkgo_log gko_x) ;;
  c <- get ;;
  MFEM_VERIFY (is_some (convergence_logger (this c)))
              "convergence logger not initialized" ;;
  when (print_level (this c) =? 1)
       (MFEM_VERIFY (is_some (residual_logger (this c)))
                    "residual logger not initialized" ;;
        _ <- deref (solver (this c)) ;;
        on_this (set_solver_loggers []) ;;
        on_this (set_solver_loggers [ResidualLogger])) ;;
  _ <- deref (combined_factory (this c)) ;;
  on_this (set_combined_factory_loggers []) ;;
  on_this (set_combined_factory_loggers [ConvergenceLogger]) ;;
  (* Finally, apply the solver to x and get the solution in y. *)
  solver <- deref (solver (this c)) ;;
  let '(last_iterate, log) := solver_apply solver gko_x gko_y in
  on_y (fun _ => last_iterate) ;;
  on_this (set_convergence_logger (Some log)) ;;
  (* Get the number of iterations taken to converge to the solution. *)
  let final_iter := to_int (get_num_iterations log) in
  on_this (set_final_iter (Some final_iter)) ;;
  let residual_norm := get_residual_norm log in
  let imp_residual_norm := get_implicit_sq_resnorm log in
  final_res_norm <-
    (if use_implicit_res_norm (this c)
     then read_norm exec imp_residual_norm
     else read_norm exec residual_norm) ;;
  on_this (set_converged (Some 0)) ;;
  when (has_converged log) (on_this (set_converged (Some 1))) ;;
  let converged := if has_converged log then 1 else 0 in
  when (print_level (this c) =? 1) (on_io (to_out ResidualTrace)) ;;
  when (converged =? 0) (on_io (to_err (Text "No convergence!"))) ;;
  when ((2 <=? print_level (this c)) && (converged =? 1))
       (on_io (to_out (ConvergedIn final_iter final_res_norm))).

(** [GinkgoIterativeSolver::SetOperator(const Operator &op)] *)
Definition SetOperator (op : Operator) : M t unit :=
  this <- get ;;
  when (is_some (system_oper this))
       (when (needs_wrapped_vecs this && negb (sub_op_needs_wrapped_vecs this))
             (modify (set_needs_wrapped_vecs false)) ;;
        (* Reset the pointer *)
        modify (set_system_oper None) ;;
        (* Reset the solver generated for the previous operator *)
        modify (set_solver None) ;;
        modify (set_solver_loggers [])) ;;
  (* Check for SparseMatrix: *)
  system_oper <-
    match as_SparseMatrix op with
    | Some op_mat =>
        (* Needs to be a square matrix *)
        MFEM_VERIFY (Height op =? Width op) "System matrix is not square" ;;
        exec <- deref (executor this) ;;
        let on_device := negb (Executor_eqb exec (get_master exec)) in
        let nnz := Capacity op_mat in
        let system_oper :=
          Csr exec (Height op) (Width op) on_device nnz
              (GetData op_mat) (GetJ op_mat) (GetI op_mat) in
        modify (set_system_oper (Some system_oper)) ;;
        ret system_oper
    | None =>
        modify (set_needs_wrapped_vecs true) ;;
        let system_oper := OperatorWrapper (executor this) (Height op) op in
        modify (set_system_oper (Some system_oper)) ;;
        ret system_oper
    end ;;
  (* Generate the solver from the solver using the system matrix or operator. *)
  solver_gen <- deref (solver_gen this) ;;
  modify (set_solver (Some (Generated solver_gen system_oper))) ;;
  modify (set_solver_loggers []).

(** *** The derived solvers

    [EnableGinkgoSolver(exec, use_implicit_res_norm)] runs the base
    constructor.  A solver built without a preconditioner only sets
    [solver_gen]. *)
Definition plain (kind : Kind) (first rest : list Param) (this : t) : t :=
  set_solver_gen
    (Some (Build kind
                 (first ++ [with_criteria [combined_factory this]] ++ rest)
                 (executor this)))
    this.

(** The constructor body shared by the preconditioned solvers: reuse a
    previously generated preconditioner, or pass the factory on. *)
Definition preconditioned (kind : Kind) (first rest : list Param)
           (preconditioner : GinkgoPreconditioner.t) (this : t) : t :=
  (* Check for a previously-generated preconditioner (for a specific matrix) *)
  if GinkgoPreconditioner.HasGeneratedPreconditioner preconditioner then
    let generated :=
      GinkgoPreconditioner.GetGeneratedPreconditioner preconditioner in
    let this :=
      set_solver_gen
        (Some (Build kind
                     (first ++ [with_criteria [combined_factory this]] ++ rest
                            ++ [with_generated_preconditioner generated])
                     (executor this)))
        this in
    if is_OperatorWrapper generated then
      let this := set_sub_op_needs_wrapped_vecs true this in
      set_needs_wrapped_vecs true this
    else this
  else
    (* Pass a preconditioner factory (will use same matrix as the solver) *)
    set_solver_gen
      (Some (Build kind
                   (first ++ [with_criteria [combined_factory this]] ++ rest
                          ++ [with_preconditioner
                                (GinkgoPreconditioner.GetFactory preconditioner)])
                   (executor this)))
      this.

Definition CGSolver (exec : GinkgoExecutor.t) : t :=
  plain (Cg vt_double) [] [] (create exec true).

Definition CGSolver_preconditioned (exec : GinkgoExecutor.t)
           (preconditioner : GinkgoPreconditioner.t) : t :=
  preconditioned (Cg vt_double) [] [] preconditioner (create exec true).

Definition BICGSTABSolver (exec : GinkgoExecutor.t) : t :=
  plain Bicgstab [] [] (create exec true).

Definition BICGSTABSolver_preconditioned (exec : GinkgoExecutor.t)
           (preconditioner : GinkgoPreconditioner.t) : t :=
  preconditioned Bicgstab [] [] preconditioner (create exec true).

Definition CGSSolver (exec : GinkgoExecutor.t) : t :=
  plain Cgs [] [] (create exec true).

Definition CGSSolver_preconditioned (exec : GinkgoExecutor.t)
           (preconditioner : GinkgoPreconditioner.t) : t :=
  preconditioned Cgs [] [] preconditioner (create exec true).

Definition FCGSolver (exec : GinkgoExecutor.t) : t :=
  plain Fcg [] [] (create exec true).

Definition FCGSolver_preconditioned (exec : GinkgoExecutor.t)
           (preconditioner : GinkgoPreconditioner.t) : t :=
  preconditioned Fcg [] [] preconditioner (create exec true).

(** Don't set a dimension, but let Ginkgo use its default *)
Definition krylov_dim (dim : Z) : list Param :=
  if dim =? 0 then [] else [with_krylov_dim (to_unsigned_long dim)].

Definition GMRESSolver (exec : GinkgoExecutor.t) (dim : Z) : t :=
  plain Gmres (krylov_dim dim) [] (set_m (Some dim) (create exec false)).

Definition GMRESSolver_preconditioned (exec : GinkgoExecutor.t)
           (preconditioner : GinkgoPreconditioner.t) (dim : Z) : t :=
  preconditioned Gmres (krylov_dim dim) [] preconditioner
                 (set_m (Some dim) (create exec false)).

Definition CBGMRESSolver (exec : GinkgoExecutor.t) (dim : Z)
           (prec : storage_precision) : t :=
  plain CbGmres (krylov_dim dim) [with_storage_precision prec]
        (set_m (Some dim) (create exec false)).

Definition CBGMRESSolver_preconditioned (exec : GinkgoExecutor.t)
           (preconditioner : GinkgoPreconditioner.t) (dim : Z)
           (prec : storage_precision) : t :=
  preconditioned CbGmres (krylov_dim dim) [with_storage_precision prec]
                 preconditioner (set_m (Some dim) (create exec false)).

Definition IRSolver (exec : GinkgoExecutor.t) : t :=
  plain Ir [] [] (create exec false).

(** [IRSolver::IRSolver(exec, inner_solver)] *)
Definition IRSolver_inner (exec : GinkgoExecutor.t) (inner_solver : t) : t :=
  let this := create exec false in
  let this := plain Ir [] [with_solver (GetFactory inner_solver)] this in
  if UsesVectorWrappers inner_solver then
    let this := set_sub_op_needs_wrapped_vecs true this in
    set_needs_wrapped_vecs true this
  else this.

(** [GMRESSolver::SetKDim] and [CBGMRESSolver::SetKDim]: the stored
    parameter and, if a solver was generated, the live instance. *)
Definition set_krylov_dim (dim : Z) (f : Factory) : Factory :=
  match f with
  | Build k ps e => Build k (ps ++ [with_krylov_dim dim]) e
  | other => other
  end.

Definition SetKDim (dim : Z) : M t unit :=
  modify (set_m (Some dim)) ;;
  this <- get ;;
  solver_gen <- deref (solver_gen this) ;;
  modify (set_solver_gen (Some (set_krylov_dim (to_unsigned_long dim) solver_gen))) ;;
  match solver this with
  | Some (Generated f system) =>
      modify (set_solver
                (Some (Generated (set_krylov_dim (to_unsigned_long dim) f)
                                 system)))
  | _ => ret tt
  end.

End GinkgoIterativeSolver.

(** * Inputs and auxiliary notions used in the statements *)

Definition omp : GinkgoExecutor.t :=
  {| GinkgoExecutor.executor := Some gko.OmpExecutor;
     GinkgoExecutor.io := no_output |}.

Definition factory_of (p : GinkgoPreconditioner.t) : gko.Factory :=
  match GinkgoPreconditioner.precond_gen p with
  | Some f => f
  | None => gko.Build gko.Multigrid [] None
  end.

Definition one_by_one (e : gko.Executor) (v : R) : gko.Dense :=
  {| gko.d_executor := e; gko.d_rows := 1; gko.d_cols := 1;
     gko.d_values := [v] |}.


Definition identity_operator (n : Z) : Operator :=
  {| Height := n; Width := n; Mult := fun v => v; as_SparseMatrix := None |}.

Definition wrapped (v : Vector) : gko.Vec :=
  gko.VectorWrapper gko.OmpExecutor (Size v) v false.

Definition operands (v : Vector) : OperatorWrapper.Operands :=
  {| OperatorWrapper.x := wrapped v; OperatorWrapper.accesses := [] |}.


(** A backend to run the code with: every kernel hands back its right-hand
    side, and the logger reports three iterations, residual norm 2 and
    implicit squared norm 4. *)
Definition demo_log (converged : bool) : gko.ConvergenceLog :=
  {| gko.get_num_iterations := 3;
     gko.get_residual_norm := Some (one_by_one gko.OmpExecutor 2);
     gko.get_implicit_sq_resnorm := Some (one_by_one gko.OmpExecutor 4);
     gko.has_converged := converged |}.

Definition demo_backend (converged : bool) : Backend :=
  {| solver_apply := fun _ b _ =>
       (OperatorWrapper.mfem_vec_of b, demo_log converged);
     multigrid_cycle := fun _ _ b _ => b;
     linop_apply := fun _ b _ => b;
     residual := fun _ _ _ => 0%R |}.

Definition square_matrix : Operator :=
  {| Height := 1; Width := 1; Mult := fun v => v;
     as_SparseMatrix :=
       Some {| GetI := [0; 1]; GetJ := [0]; GetData := [1%R] |} |}.

Definition wide_matrix : Operator :=
  {| Height := 1; Width := 2; Mult := fun v => firstn 1 v;
     as_SparseMatrix :=
       Some {| GetI := [0; 2]; GetJ := [0; 1]; GetData := [1%R; 1%R] |} |}.

(** The vector the backend starts from. *)
Definition initial_guess (c : GinkgoIterativeSolver.Call) : Vector :=
  if GinkgoIterativeSolver.iterative_mode (GinkgoIterativeSolver.this c)
  then GinkgoIterativeSolver.y c
  else Vector_assign 0 (GinkgoIterativeSolver.y c).

(** The backend solve a call of [Mult] issues. *)
Definition backend_solve {backend : Backend} (c : GinkgoIterativeSolver.Call)
           (exec : gko.Executor) (s : gko.LinOp) (x : Vector)
  : Vector * gko.ConvergenceLog :=
  solver_apply s
    (GinkgoIterativeSolver.wrap (GinkgoIterativeSolver.this c) exec x)
    (GinkgoIterativeSolver.wrap (GinkgoIterativeSolver.this c) exec
                                (initial_guess c)).

(** The norm [Mult] reads back from the logger, by residual mode. *)
Definition logged_norm (c : GinkgoIterativeSolver.Call)
           (log : gko.ConvergenceLog) : option gko.Dense :=
  if GinkgoIterativeSolver.use_implicit_res_norm (GinkgoIterativeSolver.this c)
  then gko.get_implicit_sq_resnorm log
  else gko.get_residual_norm log.

(** A conjugate-gradient solver (implicit residual mode) on the host,
    bound to a 1 x 1 matrix. *)
Definition bound_CG : GinkgoIterativeSolver.t :=
  fst (GinkgoIterativeSolver.SetOperator square_matrix
         (GinkgoIterativeSolver.CGSolver omp)).

Definition call (st : GinkgoIterativeSolver.t) (y : Vector)
  : GinkgoIterativeSolver.Call :=
  {| GinkgoIterativeSolver.this := st;
     GinkgoIterativeSolver.y := y;
     GinkgoIterativeSolver.io := no_output |}.

Definition generic_operator : Operator := identity_operator 1.

(** The same on a CUDA device, with a backend whose logger keeps its norms
    on that device. *)
Definition cuda0 : GinkgoExecutor.t :=
  {| GinkgoExecutor.executor := Some (gko.CudaExecutor 0 gko.OmpExecutor);
     GinkgoExecutor.io := no_output |}.

Definition device_CG : GinkgoIterativeSolver.t :=
  fst (GinkgoIterativeSolver.SetOperator square_matrix
         (GinkgoIterativeSolver.CGSolver cuda0)).

Definition device_log : gko.ConvergenceLog :=
  {| gko.get_num_iterations := 3;
     gko.get_residual_norm :=
       Some (one_by_one (gko.CudaExecutor 0 gko.OmpExecutor) 2);
     gko.get_implicit_sq_resnorm :=
       Some (one_by_one (gko.CudaExecutor 0 gko.OmpExecutor) 4);
     gko.has_converged := true |}.

Definition device_backend : Backend :=
  {| solver_apply := fun _ b _ => (OperatorWrapper.mfem_vec_of b, device_log);
     multigrid_cycle := fun _ _ b _ => b;
     linop_apply := fun _ b _ => b;
     residual := fun _ _ _ => 0%R |}.

(** A multigrid preconditioner generated for the 1 x 1 matrix. *)
Definition bound_AMG : GinkgoPreconditioner.t :=
  fst (GinkgoPreconditioner.SetOperator square_matrix
         (AMGPreconditioner.create omp AMGPreconditioner.JACOBI 1 1
            AMGPreconditioner.JACOBI 4 false false)).

(** The solvers the constructors of the source file build. *)
Inductive constructed : GinkgoIterativeSolver.t -> Prop :=
| new_base exec use_implicit :
    constructed (GinkgoIterativeSolver.create exec use_implicit)
| new_CG exec : constructed (GinkgoIterativeSolver.CGSolver exec)
| new_CG_preconditioned exec p :
    constructed (GinkgoIterativeSolver.CGSolver_preconditioned exec p)
| new_BICGSTAB exec : constructed (GinkgoIterativeSolver.BICGSTABSolver exec)
| new_BICGSTAB_preconditioned exec p :
    constructed (GinkgoIterativeSolver.BICGSTABSolver_preconditioned exec p)
| new_CGS exec : constructed (GinkgoIterativeSolver.CGSSolver exec)
| new_CGS_preconditioned exec p :
    constructed (GinkgoIterativeSolver.CGSSolver_preconditioned exec p)
| new_FCG exec : constructed (GinkgoIterativeSolver.FCGSolver exec)
| new_FCG_preconditioned exec p :
    constructed (GinkgoIterativeSolver.FCGSolver_preconditioned exec p)
| new_GMRES exec dim : constructed (GinkgoIterativeSolver.GMRESSolver exec dim)
| new_GMRES_preconditioned exec p dim :
    constructed (GinkgoIterativeSolver.GMRESSolver_preconditioned exec p dim)
| new_CBGMRES exec dim prec :
    constructed (GinkgoIterativeSolver.CBGMRESSolver exec dim prec)
| new_CBGMRES_preconditioned exec p dim prec :
    constructed
      (GinkgoIterativeSolver.CBGMRESSolver_preconditioned exec p dim prec)
| new_IR exec : constructed (GinkgoIterativeSolver.IRSolver exec)
| new_IR_inner exec inner_solver :
    constructed (GinkgoIterativeSolver.IRSolver_inner exec inner_solver).

(** The states a solver goes through: it is constructed, and then any of
    the member functions runs on it, to completion or up to an abort. *)
Inductive reachable {backend : Backend} : GinkgoIterativeSolver.t -> Prop :=
| reach_constructed st : constructed st -> reachable st
| reach_SetOperator op st :
    reachable st -> reachable (fst (GinkgoIterativeSolver.SetOperator op st))
| reach_Mult x c :
    reachable (GinkgoIterativeSolver.this c) ->
    reachable (GinkgoIterativeSolver.this
                 (fst (GinkgoIterativeSolver.Mult x c)))
| reach_SetKDim dim st :
    reachable st -> reachable (fst (GinkgoIterativeSolver.SetKDim dim st))
| reach_update_stop_factory st :
    reachable st -> reachable (GinkgoIterativeSolver.update_stop_factory st).





(** Whether an executor is of the kind an explicit request names: the two
    host kinds, or a device executor whose master is the parallel host. *)
Definition requested_kind (exec_type : GinkgoExecutor.ExecType)
           (e : gko.Executor) : bool :=
  match exec_type, e with
  | GinkgoExecutor.REFERENCE, gko.ReferenceExecutor => true
  | GinkgoExecutor.OMP, gko.OmpExecutor => true
  | GinkgoExecutor.CUDA, gko.CudaExecutor _ gko.OmpExecutor => true
  | GinkgoExecutor.HIP, gko.HipExecutor _ gko.OmpExecutor => true
  | _, _ => false
  end.

(** A machine with two HIP devices and no CUDA device, built with both. *)
Definition hip_only : GinkgoExecutor.Runtime :=
  {| GinkgoExecutor.MFEM_USE_CUDA := true;
     GinkgoExecutor.MFEM_USE_HIP := true;
     GinkgoExecutor.Cuda_get_num_devices := 0;
     GinkgoExecutor.Hip_get_num_devices := 2;
     GinkgoExecutor.cudaGetDevice := None;
     GinkgoExecutor.hipGetDevice := Some 1 |}.

(** A machine with one CUDA device whose MFEM was built without CUDA. *)
Definition cuda_not_built : GinkgoExecutor.Runtime :=
  {| GinkgoExecutor.MFEM_USE_CUDA := false;
     GinkgoExecutor.MFEM_USE_HIP := false;
     GinkgoExecutor.Cuda_get_num_devices := 1;
     GinkgoExecutor.Hip_get_num_devices := 1;
     GinkgoExecutor.cudaGetDevice := Some 0;
     GinkgoExecutor.hipGetDevice := Some 0 |}.

(** The scaled apply as the source comment writes it, entry by entry:
    x = alpha * op (b) + beta * x. *)
Fixpoint spec_axpby (alpha beta : R) (opb x : Vector) : Vector :=
  match opb, x with
  | t :: opb', xi :: x' =>
      (alpha * t + beta * xi)%R :: spec_axpby alpha beta opb' x'
  | _, _ => []
  end.

(** How the scaled apply gets at a scalar operand: in place when the
    operand's executor is its own master, else by a copy to the host issued
    from the wrapper's executor. *)
Definition scalar_access (this_executor : gko.Executor) (name : string)
           (alpha : OperatorWrapper.Scalar) : OperatorWrapper.Access :=
  if gko.Executor_eqb (OperatorWrapper.get_executor alpha)
                      (gko.get_master (OperatorWrapper.get_executor alpha))
  then OperatorWrapper.DirectAccess name
  else OperatorWrapper.CopyToHost name this_executor.

(** A scalar operand holding [v]: a 1 x 1 dense matrix of doubles on [e]. *)
Definition scalar (e : gko.Executor) (v : R) : OperatorWrapper.Scalar :=
  OperatorWrapper.DenseDouble (one_by_one e v).

(** A 1 x 1 scalar operand of single precision: not a dense matrix of
    doubles. *)
Definition float_scalar (e : gko.Executor) : OperatorWrapper.Scalar :=
  OperatorWrapper.OtherLinOp e 1 1.


(** The value array of a scalar operand is memory the hook can read: host
    memory for an operand on a host executor, otherwise the memory of the
    executor of the wrapper. *)
Definition readable_from (this_executor : gko.Executor)
           (alpha : OperatorWrapper.Scalar) : bool :=
  gko.Executor_eqb (OperatorWrapper.get_executor alpha)
                   (gko.get_master (OperatorWrapper.get_executor alpha)) ||
  gko.memory_space_eqb (gko.get_mem_space this_executor)
                       (gko.get_mem_space (OperatorWrapper.get_executor alpha)).

(** An MFEM vector wrapped for the backend on executor [e]. *)
Definition wrapped_on (e : gko.Executor) (v : Vector) : gko.Vec :=
  gko.VectorWrapper e (Size v) v false.

Definition operands_on (e : gko.Executor) (v : Vector)
           (trace : list OperatorWrapper.Access) : OperatorWrapper.Operands :=
  {| OperatorWrapper.x := wrapped_on e v; OperatorWrapper.accesses := trace |}.


(** Everything in a solver that [Mult] is not meant to write: the binding,
    the factories, the configuration, the two wrapping flags and the four
    stopping criteria.  What is left are the two logger lists, the two
    logger objects, [final_iter] and [converged]. *)
Definition frame (st : GinkgoIterativeSolver.t) :=
  (GinkgoIterativeSolver.system_oper st,
   GinkgoIterativeSolver.solver st,
   GinkgoIterativeSolver.solver_gen st,
   GinkgoIterativeSolver.combined_factory st,
   (GinkgoIterativeSolver.executor st,
    GinkgoIterativeSolver.iterative_mode st,
    GinkgoIterativeSolver.print_level st,
    GinkgoIterativeSolver.use_implicit_res_norm st),
   (GinkgoIterativeSolver.max_iter st,
    GinkgoIterativeSolver.rel_tol st,
    GinkgoIterativeSolver.abs_tol st),
   (GinkgoIterativeSolver.needs_wrapped_vecs st,
    GinkgoIterativeSolver.sub_op_needs_wrapped_vecs st,
    GinkgoIterativeSolver.m st),
   (GinkgoIterativeSolver.rel_criterion st,
    GinkgoIterativeSolver.abs_criterion st,
    GinkgoIterativeSolver.imp_rel_criterion st,
    GinkgoIterativeSolver.imp_abs_criterion st)).

(** A step of [Mult] under which a projection of the solver is constant,
    however the step ends. *)
Definition preserves {A B} (proj : GinkgoIterativeSolver.t -> B)
           (step : M GinkgoIterativeSolver.Call A) : Prop :=
  forall c,
    proj (GinkgoIterativeSolver.this (fst (step c))) =
    proj (GinkgoIterativeSolver.this c).

(** A CG solver that has not been given an operator. *)
Definition unbound_CG : GinkgoIterativeSolver.t :=
  GinkgoIterativeSolver.CGSolver omp.

(** The binding discipline of a solver: wrapped vectors are in use exactly
    when a sub-operator or the system operator is a wrapped MFEM operator;
    a generated solver was generated for the operator now bound; and an
    unbound solver carries no solver loggers. *)
Definition well_bound (st : GinkgoIterativeSolver.t) : Prop :=
  GinkgoIterativeSolver.needs_wrapped_vecs st =
    GinkgoIterativeSolver.sub_op_needs_wrapped_vecs st
    || gko.is_OperatorWrapper (GinkgoIterativeSolver.system_oper st) /\
  match GinkgoIterativeSolver.solver st with
  | Some (gko.Generated _ system) =>
      GinkgoIterativeSolver.system_oper st = Some system
  | Some _ => False
  | None => True
  end /\
  (GinkgoIterativeSolver.system_oper st = None ->
   GinkgoIterativeSolver.solver_loggers st = []).

(** The Krylov dimension a builder's parameters hold; 0 stands for the
    default of the backend. *)
Fixpoint get_krylov_dim (ps : list gko.Param) (default : Z) : Z :=
  match ps with
  | [] => default
  | gko.with_krylov_dim n :: ps' => get_krylov_dim ps' n
  | _ :: ps' => get_krylov_dim ps' default
  end.

(** The generated preconditioners and the preconditioner factories a
    builder was given, in order. *)
Fixpoint generated_preconditioners (ps : list gko.Param)
  : list (option gko.LinOp) :=
  match ps with
  | [] => []
  | gko.with_generated_preconditioner p :: ps' =>
      p :: generated_preconditioners ps'
  | _ :: ps' => generated_preconditioners ps'
  end.

Fixpoint preconditioner_factories (ps : list gko.Param)
  : list (option gko.Factory) :=
  match ps with
  | [] => []
  | gko.with_preconditioner f :: ps' => f :: preconditioner_factories ps'
  | _ :: ps' => preconditioner_factories ps'
  end.

(** The solvers built by the constructors that take a preconditioner. *)
Inductive preconditioned_solver (exec : GinkgoExecutor.t)
          (p : GinkgoPreconditioner.t) : GinkgoIterativeSolver.t -> Prop :=
| pre_CG :
    preconditioned_solver exec p
      (GinkgoIterativeSolver.CGSolver_preconditioned exec p)
| pre_BICGSTAB :
    preconditioned_solver exec p
      (GinkgoIterativeSolver.BICGSTABSolver_preconditioned exec p)
| pre_CGS :
    preconditioned_solver exec p
      (GinkgoIterativeSolver.CGSSolver_preconditioned exec p)
| pre_FCG :
    preconditioned_solver exec p
      (GinkgoIterativeSolver.FCGSolver_preconditioned exec p)
| pre_GMRES dim :
    preconditioned_solver exec p
      (GinkgoIterativeSolver.GMRESSolver_preconditioned exec p dim)
| pre_CBGMRES dim prec :
    preconditioned_solver exec p
      (GinkgoIterativeSolver.CBGMRESSolver_preconditioned exec p dim prec).

(** The parameters of a solver's factory; none if there is no factory. *)
Definition solver_params (st : GinkgoIterativeSolver.t) : list gko.Param :=
  match GinkgoIterativeSolver.solver_gen st with
  | Some f => gko.params_of f
  | None => []
  end.

(** A GMRES solver with the default dimension, bound to the 1 x 1 matrix. *)
Definition bound_GMRES : GinkgoIterativeSolver.t :=
  fst (GinkgoIterativeSolver.SetOperator square_matrix
         (GinkgoIterativeSolver.GMRESSolver omp 0)).

(** A wrapped MFEM preconditioner. *)
Definition wrapped_preconditioner : GinkgoPreconditioner.t :=
  MFEMPreconditioner.create omp generic_operator.

(** The preconditioner objects the source file can produce: the three
    constructors modelled here, and [SetOperator] on any of them, to
    completion or up to an abort. *)
Inductive reachable_preconditioner : GinkgoPreconditioner.t -> Prop :=
| pre_new exec : reachable_preconditioner (GinkgoPreconditioner.create exec)
| pre_new_AMG exec smoother pre_sweeps post_sweeps coarse_solver
              coarse_solve_its use_mixed_prec skip_sort :
    reachable_preconditioner
      (AMGPreconditioner.create exec smoother pre_sweeps post_sweeps
         coarse_solver coarse_solve_its use_mixed_prec skip_sort)
| pre_new_MFEM exec mfem_precond :
    reachable_preconditioner (MFEMPreconditioner.create exec mfem_precond)
| pre_SetOperator op p :
    reachable_preconditioner p ->
    reachable_preconditioner (fst (GinkgoPreconditioner.SetOperator op p)).

(** Two more parameters of a coarsening factory, and the coarsest solvers
    of a multigrid factory. *)
Fixpoint get_deterministic (ps : list gko.Param) (default : bool) : bool :=
  match ps with
  | [] => default
  | gko.with_deterministic b :: ps' => get_deterministic ps' b
  | _ :: ps' => get_deterministic ps' default
  end.

Fixpoint get_skip_sorting (ps : list gko.Param) (default : bool) : bool :=
  match ps with
  | [] => default
  | gko.with_skip_sorting b :: ps' => get_skip_sorting ps' b
  | _ :: ps' => get_skip_sorting ps' default
  end.

Fixpoint get_coarsest_solver (ps : list gko.Param)
         (default : list (option gko.Factory)) : list (option gko.Factory) :=
  match ps with
  | [] => default
  | gko.with_coarsest_solver fs :: ps' => get_coarsest_solver ps' fs
  | _ :: ps' => get_coarsest_solver ps' default
  end.

(** A multigrid preconditioner that has not been given a matrix. *)
Definition unbound_AMG : GinkgoPreconditioner.t :=
  AMGPreconditioner.create omp AMGPreconditioner.JACOBI 1 1
    AMGPreconditioner.JACOBI 4 false false.

(** * Properties *)


(** ** Inputs used to run the code *)

(** ** Choosing an executor *)

(** The CUDA case of the explicit request aborts when no device answers. *)
Lemma from_ExecType_CUDA_no_device (rt : GinkgoExecutor.Runtime)
      (this : GinkgoExecutor.t) :
  GinkgoExecutor.Cuda_get_num_devices rt <= 0 ->
  GinkgoExecutor.from_ExecType rt GinkgoExecutor.CUDA this =
  (this, Stop (Aborted
     "gko::CudaExecutor::get_num_devices() did not report any valid devices.")).
Proof.
  intros Hn. unfold GinkgoExecutor.from_ExecType.
  destruct (Z.ltb_spec 0 (GinkgoExecutor.Cuda_get_num_devices rt)); [lia|].
  reflexivity.
Qed.

(** So does the HIP case of the best-match constructor. *)
Lemma from_Device_HIP_no_device (rt : GinkgoExecutor.Runtime)
      (this : GinkgoExecutor.t) :
  GinkgoExecutor.Hip_get_num_devices rt <= 0 ->
  GinkgoExecutor.from_Device rt
    {| GinkgoExecutor.Allows_CUDA_MASK := false;
       GinkgoExecutor.Allows_HIP_MASK := true |} this =
  (this, Stop (Aborted
     "gko::HipExecutor::get_num_devices() did not report any valid devices.")).
Proof.
  intros Hn. unfold GinkgoExecutor.from_Device. cbn.
  destruct (Z.ltb_spec 0 (GinkgoExecutor.Hip_get_num_devices rt)); [lia|].
  reflexivity.
Qed.

(** C1. An explicit request for the HIP backend on a machine that reports
    zero HIP devices does not fail: the constructor writes one line to
    [mfem::err] and returns normally, leaving the executor empty.  (The
    claim asks for a fatal error here, as the CUDA case raises.) *)
Theorem C1_HIP_without_devices_returns_normally :
  forall (use_cuda use_hip : bool) (cuda_devices : Z)
         (cuda_answer hip_answer : option Z) (io0 : Streams),
    GinkgoExecutor.from_ExecType
      {| GinkgoExecutor.MFEM_USE_CUDA := use_cuda;
         GinkgoExecutor.MFEM_USE_HIP := use_hip;
         GinkgoExecutor.Cuda_get_num_devices := cuda_devices;
         GinkgoExecutor.Hip_get_num_devices := 0;
         GinkgoExecutor.cudaGetDevice := cuda_answer;
         GinkgoExecutor.hipGetDevice := hip_answer |}
      GinkgoExecutor.HIP (GinkgoExecutor.fresh io0)
    = ({| GinkgoExecutor.executor := None;
          GinkgoExecutor.io :=
            to_err (Text
              "gko::HipExecutor::get_num_devices() did not report any valid devices")
              io0 |},
       Val tt).
Proof. intros. reflexivity. Qed.

(** ** The levels of the multigrid preconditioner *)

(** With any smoother but CG, a mixed-precision hierarchy takes the
    double-precision smoother and coarsening at level 0 and the
    single-precision ones at every other level. *)
Lemma AMG_mixed_levels exec smoother pre_sweeps post_sweeps coarse_solver
      coarse_solve_its skip_sort level :
  smoother <> AMGPreconditioner.CG ->
  let f := factory_of (AMGPreconditioner.create exec smoother pre_sweeps
                         post_sweeps coarse_solver coarse_solve_its true
                         skip_sort) in
  let vt := if level =? 0 then gko.vt_double else gko.vt_float in
  AMGPreconditioner.has_precision vt (AMGPreconditioner.level_smoother f level)
  = true /\
  AMGPreconditioner.has_precision vt (AMGPreconditioner.level_coarsening f level)
  = true.
Proof.
  intros Hs f vt. subst f vt.
  unfold AMGPreconditioner.level_smoother, AMGPreconditioner.level_coarsening,
    AMGPreconditioner.level_index.
  destruct smoother; try congruence; destruct skip_sort; cbn;
    unfold AMGPreconditioner.selector;
    destruct (level =? 0); split; reflexivity.
Qed.

(** C4. With the CG smoother and mixed precision the constructor assigns the
    single-precision CG factory to [smoother_gen] and leaves
    [smoother_gen_s] empty: level 0 smooths in single precision and every
    other level has no smoother at all.  (The claim asks for double
    precision at level 0 and single precision elsewhere for every smoother
    kind; the four other kinds do that, see [AMG_mixed_levels].) *)
Theorem C4_CG_smoother_mixed_precision_levels :
  forall exec pre_sweeps post_sweeps coarse_solver coarse_solve_its skip_sort
         level,
    let p := AMGPreconditioner.create exec AMGPreconditioner.CG pre_sweeps
               post_sweeps coarse_solver coarse_solve_its true skip_sort in
    AMGPreconditioner.level_smoother (factory_of p) level =
    (if level =? 0
     then Some (AMGPreconditioner.cg (GinkgoExecutor.GetExecutor exec)
                                     gko.vt_float pre_sweeps)
     else None)
    /\ AMGPreconditioner.has_precision gko.vt_double
         (AMGPreconditioner.level_smoother (factory_of p) 0) = false
    /\ AMGPreconditioner.has_precision gko.vt_float
         (AMGPreconditioner.level_smoother (factory_of p) 1) = false.
Proof.
  intros. subst p.
  unfold AMGPreconditioner.level_smoother, AMGPreconditioner.level_index.
  cbn. unfold AMGPreconditioner.selector.
  destruct (level =? 0); repeat split; reflexivity.
Qed.

(** ** Executors and memory *)

Lemma Executor_eqb_refl e : gko.Executor_eqb e e = true.
Proof.
  induction e as [| |i m IH|i m IH]; cbn;
    rewrite ?Z.eqb_refl, ?IH; reflexivity.
Qed.


(** The master of an executor is a host executor: it is its own master. *)
Lemma get_master_idempotent e :
  gko.get_master (gko.get_master e) = gko.get_master e.
Proof. induction e; cbn; auto. Qed.

Lemma get_master_on_host e :
  gko.Executor_eqb (gko.get_master e) (gko.get_master (gko.get_master e))
  = true.
Proof. rewrite get_master_idempotent. apply Executor_eqb_refl. Qed.


(** Entry (0,0) of a dense matrix on a device executor cannot be read in
    place. *)
Lemma at_0_0_on_device S (d : gko.Dense) (s : S) :
  gko.Executor_eqb (gko.d_executor d) (gko.get_master (gko.d_executor d))
  = false ->
  gko.at_0_0 d s = (s, Stop UndefinedRead).
Proof. intros H. unfold gko.at_0_0. rewrite H. reflexivity. Qed.

(** A copy made on the master executor can. *)
Lemma at_0_0_on_master S exec (d : gko.Dense) v vs (s : S) :
  gko.d_values d = v :: vs ->
  gko.at_0_0 (gko.copy_from (gko.get_master exec) d) s = (s, Val v).
Proof.
  intros H. unfold gko.at_0_0. cbn.
  rewrite get_master_on_host, H. reflexivity.
Qed.

(** ** The scaled apply of a wrapped operator *)


(** It lets through every operand without a dimension above one. *)
Lemma check_scalar_accepts name (alpha : OperatorWrapper.Scalar) s :
  OperatorWrapper.get_size_0 alpha <= 1 ->
  OperatorWrapper.get_size_1 alpha <= 1 ->
  OperatorWrapper.check_scalar name alpha s = (s, Val tt).
Proof.
  intros Hr Hc. unfold OperatorWrapper.check_scalar.
  destruct (Z.ltb_spec 1 (OperatorWrapper.get_size_0 alpha)),
           (Z.ltb_spec 1 (OperatorWrapper.get_size_1 alpha));
    try reflexivity; lia.
Qed.

(** Reading a dense scalar whose value array the hook can reach: in place
    on a host executor, through the copy to the host otherwise. *)
Lemma read_scalar_defined exec name (d : gko.Dense) v vs s :
  gko.d_values d = v :: vs ->
  readable_from exec (OperatorWrapper.DenseDouble d) = true ->
  OperatorWrapper.read_scalar (Some exec) name (OperatorWrapper.DenseDouble d) s
  = ({| OperatorWrapper.x := OperatorWrapper.x s;
        OperatorWrapper.accesses :=
          OperatorWrapper.accesses s ++
          [scalar_access exec name (OperatorWrapper.DenseDouble d)] |},
     Val v).
Proof.
  intros Hv Hr.
  unfold OperatorWrapper.read_scalar, scalar_access, readable_from in *.
  cbn in *.
  destruct (gko.Executor_eqb (gko.d_executor d)
                             (gko.get_master (gko.d_executor d))) eqn:Hh.
  - unfold bind, ret, OperatorWrapper.log_access, modify, gko.at_0_0. cbn.
    rewrite Hh, Hv. reflexivity.
  - cbn in Hr.
    unfold bind, ret, deref, OperatorWrapper.log_access, modify,
      gko.copy_one_from. cbn.
    rewrite Hr, Hv. reflexivity.
Qed.

(** A dense scalar on a device other than the one of the wrapper: the copy
    reads its value array as memory of the wrapper's executor. *)
Lemma read_scalar_foreign_device exec name (d : gko.Dense) s :
  readable_from exec (OperatorWrapper.DenseDouble d) = false ->
  snd (OperatorWrapper.read_scalar (Some exec) name
         (OperatorWrapper.DenseDouble d) s) = Stop UndefinedRead.
Proof.
  unfold readable_from, OperatorWrapper.read_scalar. cbn. intros Hr.
  apply orb_false_elim in Hr as [Hh Hm]. rewrite Hh.
  unfold bind, ret, deref, OperatorWrapper.log_access, modify,
    gko.copy_one_from. cbn.
  rewrite Hm. reflexivity.
Qed.

(** What the hook does with two dense scalars it can read. *)
Lemma apply_impl_scaled_runs exec op (da db : gko.Dense) a av bt btv
      e n bv own xe xn xv xown trace :
  gko.d_rows da <= 1 -> gko.d_cols da <= 1 ->
  gko.d_rows db <= 1 -> gko.d_cols db <= 1 ->
  gko.d_values da = a :: av -> gko.d_values db = bt :: btv ->
  readable_from exec (OperatorWrapper.DenseDouble da) = true ->
  readable_from exec (OperatorWrapper.DenseDouble db) = true ->
  OperatorWrapper.apply_impl_scaled (Some exec) op
    (OperatorWrapper.DenseDouble da) (gko.VectorWrapper e n bv own)
    (OperatorWrapper.DenseDouble db)
    {| OperatorWrapper.x := gko.VectorWrapper xe xn xv xown;
       OperatorWrapper.accesses := trace |} =
  ({| OperatorWrapper.x :=
        gko.VectorWrapper xe xn
          (Vector_Add a (Mult op bv) (Vector_scale bt xv)) xown;
      OperatorWrapper.accesses :=
        trace ++ [scalar_access exec "alpha" (OperatorWrapper.DenseDouble da);
                  scalar_access exec "beta" (OperatorWrapper.DenseDouble db)] |},
   Val tt).
Proof.
  intros Har Hac Hbr Hbc Ha Hb Ra Rb.
  unfold OperatorWrapper.apply_impl_scaled.
  unfold bind at 1. cbn [get].
  unfold bind at 1. cbn [OperatorWrapper.as_VectorWrapper ret].
  unfold bind at 1. cbn [OperatorWrapper.as_VectorWrapper ret OperatorWrapper.x].
  unfold bind at 1. rewrite check_scalar_accepts by assumption.
  unfold bind at 1. rewrite check_scalar_accepts by assumption.
  unfold bind at 1.
  rewrite read_scalar_defined with (v := a) (vs := av) by assumption.
  unfold bind at 1.
  rewrite read_scalar_defined with (v := bt) (vs := btv) by assumption.
  unfold bind, OperatorWrapper.set_mfem_vec, modify. cbn.
  rewrite <- app_assoc. reflexivity.
Qed.












(** ** Applying the multigrid preconditioner *)

Lemma Vector_assign_twice (c : R) (y : Vector) :
  Vector_assign c (Vector_assign c y) = Vector_assign c y.
Proof. unfold Vector_assign. rewrite map_map. reflexivity. Qed.

(** A multigrid factory with an iteration cap of one and a forced zero
    guess runs one cycle from the zero vector. *)
Lemma multigrid_apply_one_cycle {backend : Backend} (n : nat) ps e system b x0 :
  gko.get_zero_guess ps false = true ->
  gko.get_criteria ps [] =
    [Some (gko.Build gko.Iteration [gko.with_max_iters 1] e)] ->
  multigrid_apply (S (S n)) (gko.Build gko.Multigrid ps e) system b x0 =
  Val (multigrid_cycle (gko.Build gko.Multigrid ps e) system b
                       (Vector_assign 0 x0)).
Proof.
  intros Hz Hc. unfold multigrid_apply. cbn [gko.params_of].
  rewrite Hz, Hc. reflexivity.
Qed.

Lemma AMG_factory exec smoother pre_sweeps post_sweeps coarse_solver
      coarse_solve_its use_mixed_prec skip_sort :
  exists ps,
    AMGPreconditioner.create exec smoother pre_sweeps post_sweeps
      coarse_solver coarse_solve_its use_mixed_prec skip_sort =
    GinkgoPreconditioner.set_precond_gen
      (Some (gko.Build gko.Multigrid ps (GinkgoExecutor.GetExecutor exec)))
      (GinkgoPreconditioner.create exec) /\
    gko.get_criteria ps [] =
      [Some (gko.Build gko.Iteration [gko.with_max_iters 1]
                       (GinkgoExecutor.GetExecutor exec))] /\
    gko.get_zero_guess ps false = true.
Proof.
  unfold AMGPreconditioner.create.
  destruct (AMGPreconditioner.smoother_gens _ _ _ _) as [sg sgs].
  destruct use_mixed_prec; [|destruct skip_sort];
    eexists; cbn; repeat split; reflexivity.
Qed.

(** C7. Whatever its arguments, the AMG constructor builds a multigrid
    factory whose only criterion is an iteration cap of one and whose zero
    guess is forced.  Once bound to a matrix, applying the preconditioner
    runs one cycle from the zero vector, whether or not warm starts
    ([iterative_mode]) are on: what [y] held before the call is not used. *)
Theorem C7_AMG_runs_one_cycle_from_zero :
  forall (backend : Backend) exec smoother pre_sweeps post_sweeps
         coarse_solver coarse_solve_its use_mixed_prec skip_sort,
    let p := AMGPreconditioner.create exec smoother pre_sweeps post_sweeps
               coarse_solver coarse_solve_its use_mixed_prec skip_sort in
    let ps := gko.params_of (factory_of p) in
    gko.get_criteria ps [] =
      [Some (gko.Build gko.Iteration [gko.with_max_iters 1]
                       (GinkgoExecutor.GetExecutor exec))] /\
    gko.get_zero_guess ps false = true /\
    (forall system b x (n : nat),
        LinOp_apply (S (S n)) (gko.Generated (factory_of p) system) b x =
        Val (multigrid_cycle (factory_of p) system
               (OperatorWrapper.mfem_vec_of b)
               (Vector_assign 0 (OperatorWrapper.mfem_vec_of x)))) /\
    forall op p' warm_start x y (n : nat),
      GinkgoPreconditioner.SetOperator op p = (p', Val tt) ->
      exists system,
        GinkgoPreconditioner.generated_precond p' =
          Some (gko.Generated (factory_of p) system) /\
        GinkgoPreconditioner.Mult (S (S n))
          (GinkgoPreconditioner.set_iterative_mode warm_start p') x y =
        (multigrid_cycle (factory_of p) system x (Vector_assign 0 y), Val tt).
Proof.
  intros backend exec smoother pre_sweeps post_sweeps coarse_solver
         coarse_solve_its use_mixed_prec skip_sort p ps.
  destruct (AMG_factory exec smoother pre_sweeps post_sweeps coarse_solver
              coarse_solve_its use_mixed_prec skip_sort)
    as (ps' & Hp & Hcrit & Hzero).
  fold p in Hp. subst ps. rewrite Hp. cbn [factory_of gko.params_of
    GinkgoPreconditioner.set_precond_gen GinkgoPreconditioner.precond_gen].
  split; [exact Hcrit|]. split; [exact Hzero|].
  split.
  { intros system b x n. cbn -[multigrid_apply].
    apply multigrid_apply_one_cycle; assumption. }
  intros op p' warm_start x y n Hset.
  unfold GinkgoPreconditioner.SetOperator in Hset. cbn in Hset.
  destruct (as_SparseMatrix op) as [A|]; [|discriminate].
  cbn in Hset.
  destruct (GinkgoExecutor.GetExecutor exec) as [e|] eqn:He; [|discriminate].
  cbn in Hset. injection Hset as <-.
  eexists. split; [reflexivity|].
  unfold GinkgoPreconditioner.Mult.
  destruct warm_start; cbn -[multigrid_apply];
    rewrite He; cbn -[multigrid_apply];
    rewrite multigrid_apply_one_cycle by assumption;
    rewrite ?Vector_assign_twice; reflexivity.
Qed.

Lemma C7_witness :
  let p := AMGPreconditioner.create omp AMGPreconditioner.JACOBI 1 1
             AMGPreconditioner.JACOBI 4 false false in
  let p' := fst (GinkgoPreconditioner.SetOperator square_matrix p) in
  fst (GinkgoPreconditioner.Mult (backend := demo_backend true) 2
         (GinkgoPreconditioner.set_iterative_mode true p') [5%R] [7%R])
  = [5%R].
Proof.
  intros p p'.
  destruct (C7_AMG_runs_one_cycle_from_zero (demo_backend true) omp
              AMGPreconditioner.JACOBI 1 1 AMGPreconditioner.JACOBI 4
              false false) as (_ & _ & _ & Happly).
  destruct (Happly square_matrix p' true [5%R] [7%R] 0%nat eq_refl)
    as (system & _ & Hmult).
  rewrite Hmult. reflexivity.
Defined.

(** ** Solving *)

(** What a call of [Mult] does once its three checks pass and the logger
    holds a readable norm. *)
Lemma Mult_returns {backend : Backend} (c : GinkgoIterativeSolver.Call)
      (x : Vector) A exec s cf d v vs :
  GinkgoIterativeSolver.system_oper (GinkgoIterativeSolver.this c) = Some A ->
  GinkgoIterativeSolver.executor (GinkgoIterativeSolver.this c) = Some exec ->
  GinkgoIterativeSolver.solver (GinkgoIterativeSolver.this c) = Some s ->
  GinkgoIterativeSolver.combined_factory (GinkgoIterativeSolver.this c)
    = Some cf ->
  Size (GinkgoIterativeSolver.y c) = Size x ->
  let run := backend_solve c exec s x in
  logged_norm c (snd run) = Some d ->
  gko.d_values d = v :: vs ->
  let c' := fst (GinkgoIterativeSolver.Mult x c) in
  let this := GinkgoIterativeSolver.this c in
  let stopped := gko.has_converged (snd run) in
  snd (GinkgoIterativeSolver.Mult x c) = Val tt /\
  GinkgoIterativeSolver.y c' = fst run /\
  GinkgoIterativeSolver.converged (GinkgoIterativeSolver.this c') =
    Some (if stopped then 1 else 0) /\
  GinkgoIterativeSolver.final_iter (GinkgoIterativeSolver.this c') =
    Some (to_int (gko.get_num_iterations (snd run))) /\
  mfem_err (GinkgoIterativeSolver.io c') =
    mfem_err (GinkgoIterativeSolver.io c)
      ++ (if stopped then [] else [Text "No convergence!"]) /\
  mfem_out (GinkgoIterativeSolver.io c') =
    mfem_out (GinkgoIterativeSolver.io c)
      ++ (if GinkgoIterativeSolver.print_level this =? 1
          then [ResidualTrace] else [])
      ++ (if (2 <=? GinkgoIterativeSolver.print_level this) && stopped
          then [ConvergedIn (to_int (gko.get_num_iterations (snd run))) v]
          else []).
Proof.
  intros HA He Hs Hcf Hsize run Hnorm Hd c' this stopped.
  subst run c' this stopped.
  unfold backend_solve, initial_guess, logged_norm in *.
  destruct c as [st y0 io0]. destruct st. cbn in *. subst.
  unfold GinkgoIterativeSolver.Mult. cbn. rewrite Hsize, Z.eqb_refl. cbn.
  destruct iterative_mode; cbn in *;
    destruct (print_level =? 1); cbn;
    destruct (solver_apply _ _ _) as [last log]; cbn in *;
    destruct use_implicit_res_norm; cbn in *; rewrite Hnorm;
    unfold GinkgoIterativeSolver.read_norm, gko.at_0_0, bind, ret; cbn;
    rewrite Hd, get_master_on_host; cbn;
    destruct (gko.has_converged log); cbn;
    destruct (2 <=? print_level); cbn;
    rewrite <- ?app_assoc, ?app_nil_r; repeat split; reflexivity.
Qed.

Lemma sqrt_4 : sqrt 4 = 2%R.
Proof.
  replace 4%R with (2 * 2)%R by ring. apply sqrt_square. lra.
Qed.

(** C2, as stated, fails: in implicit residual mode, with a logged implicit
    squared norm of 4, the solver reports 4 as the final residual norm and
    not the square root 2. *)
Lemma C2_counterexample :
  let st := GinkgoIterativeSolver.set_print_level 2 bound_CG in
  let run :=
    GinkgoIterativeSolver.Mult (backend := demo_backend true) [5%R]
                               (call st [7%R]) in
  GinkgoIterativeSolver.use_implicit_res_norm st = true /\
  gko.get_implicit_sq_resnorm (demo_log true) =
    Some (one_by_one gko.OmpExecutor 4) /\
  snd run = Val tt /\
  mfem_out (GinkgoIterativeSolver.io (fst run)) = [ConvergedIn 3 4] /\
  ConvergedIn 3 4 <> ConvergedIn 3 (sqrt 4).
Proof.
  cbv zeta. repeat split; try reflexivity.
  intros H. injection H as H. rewrite sqrt_4 in H. lra.
Qed.

(** C2, amended.  The final residual norm a converged solve reports (at
    print level 2 or above) is read by residual mode: the logger's residual
    norm in explicit mode, the logger's implicit squared norm in implicit
    mode.  The logged value may be on any executor, a device included:
    [Mult] copies it to the master executor and reports entry (0, 0) of the
    copy as it stands, next to the iteration count converted to the [int]
    member [final_iter].  Entry (0, 0) of a device-resident value could not
    be read in place.  No square root is taken on the reported value: in
    implicit mode it is the tolerances whose square root
    [update_stop_factory] puts into the criteria. *)
Theorem C2_reported_norm_is_the_logged_one :
  (forall (backend : Backend) (c : GinkgoIterativeSolver.Call) (x : Vector)
          A exec s cf d v vs,
      let this := GinkgoIterativeSolver.this c in
      GinkgoIterativeSolver.system_oper this = Some A ->
      GinkgoIterativeSolver.executor this = Some exec ->
      GinkgoIterativeSolver.solver this = Some s ->
      GinkgoIterativeSolver.combined_factory this = Some cf ->
      Size (GinkgoIterativeSolver.y c) = Size x ->
      let log := snd (backend_solve c exec s x) in
      (if GinkgoIterativeSolver.use_implicit_res_norm this
       then gko.get_implicit_sq_resnorm log
       else gko.get_residual_norm log) = Some d ->
      gko.d_values d = v :: vs ->
      gko.has_converged log = true ->
      2 <= GinkgoIterativeSolver.print_level this ->
      let run := GinkgoIterativeSolver.Mult x c in
      let final_iter := to_int (gko.get_num_iterations log) in
      snd run = Val tt /\
      GinkgoIterativeSolver.final_iter (GinkgoIterativeSolver.this (fst run)) =
        Some final_iter /\
      mfem_out (GinkgoIterativeSolver.io (fst run)) =
        mfem_out (GinkgoIterativeSolver.io c) ++ [ConvergedIn final_iter v])
  /\
  (forall (c : GinkgoIterativeSolver.Call) (d : gko.Dense),
      gko.Executor_eqb (gko.d_executor d) (gko.get_master (gko.d_executor d))
      = false ->
      gko.at_0_0 d c = (c, Stop UndefinedRead))
  /\
  (forall st : GinkgoIterativeSolver.t,
      GinkgoIterativeSolver.use_implicit_res_norm st = true ->
      let st' := GinkgoIterativeSolver.update_stop_factory st in
      let exec := GinkgoIterativeSolver.executor st in
      let imp_rel :=
        Some (gko.Build gko.ImplicitResidualNorm
                [gko.with_reduction_factor
                   (sqrt (GinkgoIterativeSolver.rel_tol st));
                 gko.with_baseline gko.initial_resnorm] exec) in
      let imp_abs :=
        Some (gko.Build gko.ImplicitResidualNorm
                [gko.with_reduction_factor
                   (sqrt (GinkgoIterativeSolver.abs_tol st));
                 gko.with_baseline gko.absolute] exec) in
      GinkgoIterativeSolver.imp_rel_criterion st' = imp_rel /\
      GinkgoIterativeSolver.imp_abs_criterion st' = imp_abs /\
      GinkgoIterativeSolver.combined_factory st' =
        Some (gko.Build gko.Combined
                [gko.with_criteria
                   [imp_rel; imp_abs;
                    Some (gko.Build gko.Iteration
                            [gko.with_max_iters
                               (to_unsigned_long
                                  (GinkgoIterativeSolver.max_iter st))]
                            exec)]]
                exec)).
Proof.
  split; [|split].
  - intros backend c x A exec s cf d v vs this HA He Hs Hcf Hsize log Hnorm Hd
           Hconv Hlevel run final_iter.
    destruct (Mult_returns c x HA He Hs Hcf Hsize Hnorm Hd)
      as (Hret & _ & _ & Hiter & _ & Hout).
    fold this in Hout. fold log in Hout, Hiter. rewrite Hconv in Hout.
    destruct (Z.leb_spec 2 (GinkgoIterativeSolver.print_level this)); [|lia].
    destruct (Z.eqb_spec (GinkgoIterativeSolver.print_level this) 1); [lia|].
    repeat split; [exact Hret | exact Hiter | exact Hout].
  - intros c d Hd. apply at_0_0_on_device, Hd.
  - intros st Himp st' exec imp_rel imp_abs. subst st' exec imp_rel imp_abs.
    unfold GinkgoIterativeSolver.update_stop_factory. rewrite Himp.
    destruct st. repeat split; reflexivity.
Qed.

Lemma C2_witness :
  let dev := gko.CudaExecutor 0 gko.OmpExecutor in
  let st := GinkgoIterativeSolver.set_print_level 2 device_CG in
  let run :=
    GinkgoIterativeSolver.Mult (backend := device_backend) [5%R]
                               (call st [7%R]) in
  GinkgoIterativeSolver.executor st = Some dev /\
  GinkgoIterativeSolver.use_implicit_res_norm st = true /\
  gko.get_implicit_sq_resnorm device_log = Some (one_by_one dev 4) /\
  mfem_out (GinkgoIterativeSolver.io (fst run)) = [ConvergedIn 3 4].
Proof.
  intros dev st run. repeat (split; [reflexivity|]).
  destruct C2_reported_norm_is_the_logged_one as [H _].
  eapply (H device_backend (call st [7%R]) [5%R]);
    try reflexivity; cbn; lia.
Defined.

(** C8. A solve that stops without convergence returns normally: [y] holds
    the backend's last iterate, [converged] is 0, and the only trace of the
    failure is one line on [mfem::err]. *)
Theorem C8_no_convergence_is_reported_not_raised :
  forall (backend : Backend) (c : GinkgoIterativeSolver.Call) (x : Vector)
         A exec s cf d v vs,
    GinkgoIterativeSolver.system_oper (GinkgoIterativeSolver.this c) = Some A ->
    GinkgoIterativeSolver.executor (GinkgoIterativeSolver.this c) = Some exec ->
    GinkgoIterativeSolver.solver (GinkgoIterativeSolver.this c) = Some s ->
    GinkgoIterativeSolver.combined_factory (GinkgoIterativeSolver.this c)
      = Some cf ->
    Size (GinkgoIterativeSolver.y c) = Size x ->
    let run := backend_solve c exec s x in
    logged_norm c (snd run) = Some d ->
    gko.d_values d = v :: vs ->
    gko.has_converged (snd run) = false ->
    let c' := fst (GinkgoIterativeSolver.Mult x c) in
    snd (GinkgoIterativeSolver.Mult x c) = Val tt /\
    GinkgoIterativeSolver.y c' = fst run /\
    GinkgoIterativeSolver.converged (GinkgoIterativeSolver.this c') = Some 0 /\
    mfem_err (GinkgoIterativeSolver.io c') =
      mfem_err (GinkgoIterativeSolver.io c) ++ [Text "No convergence!"] /\
    mfem_out (GinkgoIterativeSolver.io c') =
      mfem_out (GinkgoIterativeSolver.io c)
        ++ (if GinkgoIterativeSolver.print_level (GinkgoIterativeSolver.this c)
               =? 1
            then [ResidualTrace] else []).
Proof.
  intros backend c x A exec s cf d v vs HA He Hs Hcf Hsize run Hnorm Hd Hconv c'.
  destruct (Mult_returns c x HA He Hs Hcf Hsize Hnorm Hd)
    as (Hret & Hy & Hc & _ & Herr & Hout).
  fold run in Hy, Hc, Herr, Hout. fold c' in Hy, Hc, Herr, Hout.
  rewrite Hconv in Hc, Herr, Hout.
  rewrite andb_false_r, app_nil_r in Hout.
  repeat split; assumption.
Qed.

Lemma C8_witness :
  let c := call bound_CG [7%R] in
  let run := GinkgoIterativeSolver.Mult (backend := demo_backend false)
               [5%R] c in
  gko.has_converged (demo_log false) = false /\
  snd run = Val tt /\
  GinkgoIterativeSolver.y (fst run) = [5%R] /\
  GinkgoIterativeSolver.converged (GinkgoIterativeSolver.this (fst run))
    = Some 0 /\
  mfem_err (GinkgoIterativeSolver.io (fst run)) = [Text "No convergence!"].
Proof.
  intros c run.
  destruct (C8_no_convergence_is_reported_not_raised
              (demo_backend false) c [5%R]
              (A := gko.Csr gko.OmpExecutor 1 1 false 1 [1%R] [0] [0; 1])
              (exec := gko.OmpExecutor)
              (s := gko.Generated
                      (gko.Build (gko.Cg gko.vt_double)
                         [gko.with_criteria
                            [GinkgoIterativeSolver.combined_factory bound_CG]]
                         (Some gko.OmpExecutor))
                      (gko.Csr gko.OmpExecutor 1 1 false 1 [1%R] [0] [0; 1]))
              (cf := gko.Build gko.Combined
                       [gko.with_criteria
                          [GinkgoIterativeSolver.imp_rel_criterion bound_CG;
                           GinkgoIterativeSolver.imp_abs_criterion bound_CG;
                           Some (gko.Build gko.Iteration [gko.with_max_iters 10]
                                           (Some gko.OmpExecutor))]]
                       (Some gko.OmpExecutor))
              (d := one_by_one gko.OmpExecutor 4) (v := 4%R) (vs := [])
              eq_refl eq_refl eq_refl eq_refl eq_refl eq_refl eq_refl eq_refl)
    as (Hret & Hy & Hc & Herr & _).
  repeat split; assumption.
Defined.

(** ** Binding an operator *)

(** C3, as stated, fails: binding a non-square matrix to a bound solver
    aborts after the old operator and solver have been dropped, and binding
    a generic operator to a generated preconditioner aborts after the
    generated instance has been dropped. *)
Lemma C3_counterexample :
  (snd (GinkgoIterativeSolver.SetOperator wide_matrix bound_CG) =
     Stop (Aborted "System matrix is not square") /\
   fst (GinkgoIterativeSolver.SetOperator wide_matrix bound_CG) <> bound_CG) /\
  (snd (GinkgoPreconditioner.SetOperator generic_operator bound_AMG) =
     Stop (Aborted "GinkgoPreconditioner::SetOperator : not a SparseMatrix!") /\
   fst (GinkgoPreconditioner.SetOperator generic_operator bound_AMG)
     <> bound_AMG).
Proof.
  split; split; try reflexivity.
  - intros H. apply (f_equal GinkgoIterativeSolver.system_oper) in H.
    discriminate H.
  - intros H.
    apply (f_equal GinkgoPreconditioner.has_generated_precond) in H.
    discriminate H.
Qed.

(** C3, amended.  When [SetOperator] aborts (a non-square matrix for the
    solver, an operator that is no [SparseMatrix] for the preconditioner),
    no new operator is bound and the configuration is as before, but the
    previous binding is gone: the solver has neither system operator nor
    generated solver nor solver loggers, and [needs_wrapped_vecs] survives
    only where a sub-operator asked for it; the preconditioner has no
    generated instance.  Every other member of either object, the iterative
    mode and the print level included, is what it was.  An object that had
    nothing bound is unchanged. *)
Theorem C3_failed_SetOperator_releases_the_old_binding :
  (forall op st st' msg,
      GinkgoIterativeSolver.SetOperator op st = (st', Stop (Aborted msg)) ->
      let was_bound := is_some (GinkgoIterativeSolver.system_oper st) in
      msg = "System matrix is not square" /\
      GinkgoIterativeSolver.system_oper st' = None /\
      GinkgoIterativeSolver.solver st' =
        (if was_bound then None else GinkgoIterativeSolver.solver st) /\
      GinkgoIterativeSolver.needs_wrapped_vecs st' =
        (if was_bound
         then GinkgoIterativeSolver.needs_wrapped_vecs st
              && GinkgoIterativeSolver.sub_op_needs_wrapped_vecs st
         else GinkgoIterativeSolver.needs_wrapped_vecs st) /\
      GinkgoIterativeSolver.sub_op_needs_wrapped_vecs st' =
        GinkgoIterativeSolver.sub_op_needs_wrapped_vecs st /\
      GinkgoIterativeSolver.solver_gen st' = GinkgoIterativeSolver.solver_gen st /\
      GinkgoIterativeSolver.combined_factory st' =
        GinkgoIterativeSolver.combined_factory st /\
      GinkgoIterativeSolver.executor st' = GinkgoIterativeSolver.executor st /\
      GinkgoIterativeSolver.max_iter st' = GinkgoIterativeSolver.max_iter st /\
      GinkgoIterativeSolver.rel_tol st' = GinkgoIterativeSolver.rel_tol st /\
      GinkgoIterativeSolver.abs_tol st' = GinkgoIterativeSolver.abs_tol st /\
      GinkgoIterativeSolver.iterative_mode st' =
        GinkgoIterativeSolver.iterative_mode st /\
      GinkgoIterativeSolver.print_level st' =
        GinkgoIterativeSolver.print_level st /\
      GinkgoIterativeSolver.use_implicit_res_norm st' =
        GinkgoIterativeSolver.use_implicit_res_norm st /\
      GinkgoIterativeSolver.rel_criterion st' =
        GinkgoIterativeSolver.rel_criterion st /\
      GinkgoIterativeSolver.abs_criterion st' =
        GinkgoIterativeSolver.abs_criterion st /\
      GinkgoIterativeSolver.imp_rel_criterion st' =
        GinkgoIterativeSolver.imp_rel_criterion st /\
      GinkgoIterativeSolver.imp_abs_criterion st' =
        GinkgoIterativeSolver.imp_abs_criterion st /\
      GinkgoIterativeSolver.combined_factory_loggers st' =
        GinkgoIterativeSolver.combined_factory_loggers st /\
      GinkgoIterativeSolver.solver_loggers st' =
        (if was_bound then [] else GinkgoIterativeSolver.solver_loggers st) /\
      GinkgoIterativeSolver.convergence_logger st' =
        GinkgoIterativeSolver.convergence_logger st /\
      GinkgoIterativeSolver.residual_logger st' =
        GinkgoIterativeSolver.residual_logger st /\
      GinkgoIterativeSolver.final_iter st' =
        GinkgoIterativeSolver.final_iter st /\
      GinkgoIterativeSolver.converged st' =
        GinkgoIterativeSolver.converged st /\
      GinkgoIterativeSolver.m st' = GinkgoIterativeSolver.m st /\
      (was_bound = false -> st' = st))
  /\
  (forall op p p' msg,
      GinkgoPreconditioner.SetOperator op p = (p', Stop (Aborted msg)) ->
      msg = "GinkgoPreconditioner::SetOperator : not a SparseMatrix!" /\
      GinkgoPreconditioner.has_generated_precond p' = false /\
      GinkgoPreconditioner.generated_precond p' =
        (if GinkgoPreconditioner.has_generated_precond p
         then None else GinkgoPreconditioner.generated_precond p) /\
      GinkgoPreconditioner.precond_gen p' = GinkgoPreconditioner.precond_gen p /\
      GinkgoPreconditioner.executor p' = GinkgoPreconditioner.executor p /\
      GinkgoPreconditioner.iterative_mode p' =
        GinkgoPreconditioner.iterative_mode p /\
      (GinkgoPreconditioner.has_generated_precond p = false -> p' = p)).
Proof.
  split.
  - intros op st st' msg. destruct st.
    unfold GinkgoIterativeSolver.SetOperator. cbn.
    destruct system_oper as [A|], needs_wrapped_vecs,
      sub_op_needs_wrapped_vecs; cbn;
      (destruct (as_SparseMatrix op) as [op_mat|]; cbn;
       [ destruct (Height op =? Width op); cbn;
         [ destruct executor; cbn; [destruct solver_gen; cbn|] |] 
       | destruct solver_gen; cbn ]);
      intros H; try discriminate H;
      injection H as <- <-; cbn; repeat split; 
      try reflexivity; try discriminate.
  - intros op p p' msg. destruct p.
    unfold GinkgoPreconditioner.SetOperator. cbn.
    destruct has_generated_precond; cbn;
      (destruct (as_SparseMatrix op) as [op_mat|]; cbn;
       [ destruct executor; cbn; [destruct precond_gen; cbn|] |]);
      intros H; try discriminate H;
      injection H as <- <-; cbn; repeat split;
      try reflexivity; try discriminate.
Qed.

Lemma C3_witness :
  GinkgoIterativeSolver.system_oper
    (fst (GinkgoIterativeSolver.SetOperator wide_matrix bound_CG)) = None /\
  GinkgoPreconditioner.has_generated_precond
    (fst (GinkgoPreconditioner.SetOperator generic_operator bound_AMG)) = false.
Proof.
  destruct C3_failed_SetOperator_releases_the_old_binding as [Hs Hp].
  split.
  - apply (Hs wide_matrix bound_CG _ "System matrix is not square" eq_refl).
  - apply (Hp generic_operator bound_AMG _
              "GinkgoPreconditioner::SetOperator : not a SparseMatrix!"
              eq_refl).
Defined.

(** ** The default stopping criteria *)

(** A loop whose criterion holds from iteration [cap] on stops by then. *)
Lemma iterate_until_cap {X} (stops : Z -> X -> bool) (step : X -> X) (cap : Z) :
  (forall k x, cap <= k -> stops k x = true) ->
  forall (fuel : nat) (k : Z) (x : X),
    (Z.to_nat (cap - k) < fuel)%nat ->
    exists k' x',
      iterate_until fuel stops step k x = Some (k', x') /\
      k <= k' <= Z.max k cap.
Proof.
  intros Hcap. induction fuel as [|fuel IH]; intros k x Hfuel; [lia|].
  cbn. destruct (stops k x) eqn:Hstop.
  - exists k, x. split; [reflexivity | lia].
  - assert (k < cap) as Hlt.
    { destruct (Z.lt_ge_cases k cap) as [H|H]; [exact H|].
      rewrite (Hcap k x H) in Hstop. discriminate. }
    destruct (IH (k + 1) (step x)) as (k' & x' & Hrun & Hk); [lia|].
    exists k', x'. split; [exact Hrun | lia].
Qed.

(** The combined criterion of a new solver holds from iteration 10 on,
    whatever the residual tests say. *)
Lemma default_criteria_cap exec use_implicit (p : Progress) :
  10 <= num_iterations p ->
  check (GinkgoIterativeSolver.combined_factory
           (GinkgoIterativeSolver.create exec use_implicit)) p = true.
Proof.
  intros Hk. destruct use_implicit; cbn;
    rewrite !orb_true_iff; right; right; left;
    apply Z.leb_le; exact Hk.
Qed.

(** C9. A new solver has relative tolerance 0, absolute tolerance 0 and an
    iteration cap of 10, and a backend loop run under its combined
    criterion stops at some iteration k <= 10, whatever the residuals
    are. *)
Theorem C9_default_criteria_stop_within_ten_iterations :
  forall (exec : GinkgoExecutor.t) (use_implicit : bool),
    let st := GinkgoIterativeSolver.create exec use_implicit in
    GinkgoIterativeSolver.rel_tol st = 0%R /\
    GinkgoIterativeSolver.abs_tol st = 0%R /\
    GinkgoIterativeSolver.max_iter st = 10 /\
    forall (X : Type) (step : X -> X) (norm sq_norm : X -> R) (r0 : R)
           (x0 : X) (n : nat),
      exists k xk,
        iterate_until (11 + n)
          (fun k x =>
             check (GinkgoIterativeSolver.combined_factory st)
                   {| num_iterations := k; residual_norm := norm x;
                      implicit_sq_resnorm := sq_norm x;
                      initial_residual_norm := r0 |})
          step 0 x0 = Some (k, xk)
        /\ 0 <= k <= 10.
Proof.
  intros exec use_implicit st.
  split; [destruct use_implicit; reflexivity|].
  split; [destruct use_implicit; reflexivity|].
  split; [destruct use_implicit; reflexivity|].
  intros X step norm sq_norm r0 x0 n.
  destruct (@iterate_until_cap X
              (fun k x =>
                 check (GinkgoIterativeSolver.combined_factory st)
                       {| num_iterations := k; residual_norm := norm x;
                          implicit_sq_resnorm := sq_norm x;
                          initial_residual_norm := r0 |})
              step 10
              (fun k x Hk =>
                 default_criteria_cap exec use_implicit
                   {| num_iterations := k; residual_norm := norm x;
                      implicit_sq_resnorm := sq_norm x;
                      initial_residual_norm := r0 |} Hk)
              (11 + n) 0 x0) as (k & xk & Hrun & Hk).
  - cbn. lia.
  - exists k, xk. split; [exact Hrun | lia].
Qed.

(** ** The two wrapping flags *)

Ltac split_cases :=
  repeat match goal with
         | |- context [match ?e with _ => _ end] => destruct e eqn:?; cbn
         | |- context [if ?e then _ else _] => destruct e eqn:?; cbn
         end.



















(** * Further properties of the code *)

(** ** Executors *)

(** X1. An explicit request never ends with an executor of another kind:
    whatever the runtime answers, the constructor either leaves the
    executor empty or sets one of the requested kind, and in that case it
    returns normally and writes nothing to the streams. *)
Theorem X1_explicit_request_never_substitutes :
  forall (rt : GinkgoExecutor.Runtime) (exec_type : GinkgoExecutor.ExecType)
         (io0 : Streams),
    let r := GinkgoExecutor.from_ExecType rt exec_type
               (GinkgoExecutor.fresh io0) in
    match GinkgoExecutor.executor (fst r) with
    | None => True
    | Some e =>
        requested_kind exec_type e = true /\ snd r = Val tt /\
        GinkgoExecutor.io (fst r) = io0
    end.
Proof.
  intros rt exec_type io0.
  destruct rt as [use_cuda use_hip ncuda nhip cuda_answer hip_answer].
  destruct exec_type; cbn; auto.
  - destruct (0 <? ncuda); cbn; [|exact I].
    destruct use_cuda; cbn; [|exact I].
    destruct cuda_answer; cbn; auto.
  - destruct (0 <? nhip); cbn; [|exact I].
    destruct use_hip; cbn; [|exact I].
    destruct hip_answer; cbn; auto.
Qed.

(** X2. When devices are present but MFEM was built without the backend,
    an explicit CUDA or HIP request returns normally with the executor
    still empty and without a word on either stream. *)
Theorem X2_request_for_a_backend_not_built_in_is_silent :
  forall (rt : GinkgoExecutor.Runtime) (this : GinkgoExecutor.t),
    (0 < GinkgoExecutor.Cuda_get_num_devices rt ->
     GinkgoExecutor.MFEM_USE_CUDA rt = false ->
     GinkgoExecutor.from_ExecType rt GinkgoExecutor.CUDA this =
     (this, Val tt)) /\
    (0 < GinkgoExecutor.Hip_get_num_devices rt ->
     GinkgoExecutor.MFEM_USE_HIP rt = false ->
     GinkgoExecutor.from_ExecType rt GinkgoExecutor.HIP this =
     (this, Val tt)).
Proof.
  intros rt this. split; intros Hn Hbuild; cbn;
    apply Z.ltb_lt in Hn; rewrite Hn;
    [unfold GinkgoExecutor.create_cuda | unfold GinkgoExecutor.create_hip];
    rewrite Hbuild; reflexivity.
Qed.

Lemma X2_witness :
  GinkgoExecutor.from_ExecType cuda_not_built GinkgoExecutor.CUDA
    (GinkgoExecutor.fresh no_output) = (GinkgoExecutor.fresh no_output, Val tt)
  /\
  GinkgoExecutor.from_ExecType cuda_not_built GinkgoExecutor.HIP
    (GinkgoExecutor.fresh no_output) = (GinkgoExecutor.fresh no_output, Val tt).
Proof.
  destruct (X2_request_for_a_backend_not_built_in_is_silent
              cuda_not_built (GinkgoExecutor.fresh no_output)) as [Hc Hh].
  split; [apply Hc | apply Hh]; reflexivity.
Defined.

(** X3. The best-match constructor looks at CUDA first and does not fall
    through: if the device allows CUDA and no CUDA device answers, it
    aborts, whether or not HIP is allowed and HIP devices are there. *)
Theorem X3_best_match_aborts_on_CUDA_before_trying_HIP :
  forall (rt : GinkgoExecutor.Runtime) (allows_hip : bool)
         (this : GinkgoExecutor.t),
    GinkgoExecutor.Cuda_get_num_devices rt <= 0 ->
    GinkgoExecutor.from_Device rt
      {| GinkgoExecutor.Allows_CUDA_MASK := true;
         GinkgoExecutor.Allows_HIP_MASK := allows_hip |} this =
    (this, Stop (Aborted
       "gko::CudaExecutor::get_num_devices() did not report any valid devices.")).
Proof.
  intros rt allows_hip this Hn. unfold GinkgoExecutor.from_Device. cbn.
  destruct (Z.ltb_spec 0 (GinkgoExecutor.Cuda_get_num_devices rt)); [lia|].
  reflexivity.
Qed.

Lemma X3_witness :
  GinkgoExecutor.Hip_get_num_devices hip_only = 2 /\
  snd (GinkgoExecutor.from_Device hip_only
         {| GinkgoExecutor.Allows_CUDA_MASK := true;
            GinkgoExecutor.Allows_HIP_MASK := true |}
         (GinkgoExecutor.fresh no_output)) =
  Stop (Aborted
    "gko::CudaExecutor::get_num_devices() did not report any valid devices.").
Proof.
  split; [reflexivity|].
  rewrite (X3_best_match_aborts_on_CUDA_before_trying_HIP hip_only true
             (GinkgoExecutor.fresh no_output)); [reflexivity | cbn; lia].
Defined.

(** X4. What the best-match constructor can end with: a CUDA executor only
    if the device allows CUDA, a HIP executor only if it allows HIP and not
    CUDA, the parallel host only if it allows neither, and never the
    reference executor.  A call that returns normally has written nothing
    to the streams. *)
Theorem X4_best_match_outcomes :
  forall (rt : GinkgoExecutor.Runtime) (mfem_device : GinkgoExecutor.Device)
         (io0 : Streams),
    let r := GinkgoExecutor.from_Device rt mfem_device
               (GinkgoExecutor.fresh io0) in
    let cuda := GinkgoExecutor.Allows_CUDA_MASK mfem_device in
    let hip := GinkgoExecutor.Allows_HIP_MASK mfem_device in
    (snd r = Val tt -> GinkgoExecutor.io (fst r) = io0) /\
    match GinkgoExecutor.executor (fst r) with
    | Some (gko.CudaExecutor _ master) =>
        cuda = true /\ master = gko.OmpExecutor
    | Some (gko.HipExecutor _ master) =>
        cuda = false /\ hip = true /\ master = gko.OmpExecutor
    | Some gko.OmpExecutor => cuda = false /\ hip = false
    | Some gko.ReferenceExecutor => False
    | None => cuda = true \/ hip = true
    end.
Proof.
  intros rt [cuda hip] io0.
  destruct rt as [use_cuda use_hip ncuda nhip cuda_answer hip_answer].
  unfold GinkgoExecutor.from_Device. cbn.
  destruct cuda; cbn.
  - destruct (0 <? ncuda); cbn; [|auto].
    destruct use_cuda; cbn; [|auto].
    destruct cuda_answer; cbn; auto.
  - destruct hip; cbn; [|auto].
    destruct (0 <? nhip); cbn; [|auto].
    destruct use_hip; cbn; [|auto].
    destruct hip_answer; cbn; auto.
Qed.

Lemma X4_witness :
  let r := GinkgoExecutor.from_Device hip_only
             {| GinkgoExecutor.Allows_CUDA_MASK := false;
                GinkgoExecutor.Allows_HIP_MASK := false |}
             (GinkgoExecutor.fresh no_output) in
  snd r = Val tt /\ GinkgoExecutor.io (fst r) = no_output.
Proof.
  intros r. split; [reflexivity|].
  destruct (X4_best_match_outcomes hip_only
              {| GinkgoExecutor.Allows_CUDA_MASK := false;
                 GinkgoExecutor.Allows_HIP_MASK := false |} no_output)
    as [H _].
  apply H. reflexivity.
Defined.

(** ** More on the scaled apply *)

Lemma scale_add_axpby (a beta : R) (t y : Vector) :
  List.length t = List.length y ->
  Vector_Add a t (Vector_scale beta y) = spec_axpby a beta t y.
Proof.
  revert t. induction y as [|yi y IH]; intros [|ti t] Hlen;
    try discriminate; [reflexivity|].
  cbn. f_equal; [ring | apply IH; now injection Hlen].
Qed.

(** A read of a scalar that yields a value has left [x] alone and made one
    access to a dense matrix of doubles. *)
Lemma read_scalar_value this_executor name alpha s s' v :
  OperatorWrapper.read_scalar this_executor name alpha s = (s', Val v) ->
  exists d,
    alpha = OperatorWrapper.DenseDouble d /\
    OperatorWrapper.x s' = OperatorWrapper.x s /\
    exists a, OperatorWrapper.accesses s' = OperatorWrapper.accesses s ++ [a].
Proof.
  unfold OperatorWrapper.read_scalar.
  destruct alpha as [d|oe rows cols]; cbn.
  - destruct (gko.Executor_eqb (gko.d_executor d)
                               (gko.get_master (gko.d_executor d))) eqn:Hh.
    + unfold bind, ret, OperatorWrapper.log_access, modify, gko.at_0_0. cbn.
      rewrite Hh. destruct (gko.d_values d); cbn; [discriminate|].
      intros Heq. injection Heq as <- <-. exists d. cbn.
      repeat split. eexists. reflexivity.
    + destruct this_executor as [exec|]; cbn; [|discriminate].
      unfold bind, ret, OperatorWrapper.log_access, modify,
        gko.copy_one_from. cbn.
      destruct (gko.memory_space_eqb _ _); [|discriminate].
      destruct (gko.d_values d); cbn; [discriminate|].
      intros Heq. injection Heq as <- <-. exists d. cbn.
      repeat split. eexists. reflexivity.
  - destruct (gko.Executor_eqb oe (gko.get_master oe)); cbn;
      [discriminate|].
    destruct this_executor; cbn; discriminate.
Qed.

(** A read of a scalar throws only at the cast, before anything is done. *)
Lemma read_scalar_throws this_executor name alpha s s' e :
  OperatorWrapper.read_scalar this_executor name alpha s =
    (s', Stop (Thrown e)) ->
  s' = s /\ e = NotSupported /\
  forall d, alpha <> OperatorWrapper.DenseDouble d.
Proof.
  unfold OperatorWrapper.read_scalar.
  destruct alpha as [d|oe rows cols]; cbn.
  - destruct (gko.Executor_eqb (gko.d_executor d)
                               (gko.get_master (gko.d_executor d))) eqn:Hh.
    + unfold bind, ret, OperatorWrapper.log_access, modify, gko.at_0_0. cbn.
      rewrite Hh. destruct (gko.d_values d); cbn; discriminate.
    + destruct this_executor as [exec|]; cbn; [|discriminate].
      unfold bind, ret, OperatorWrapper.log_access, modify,
        gko.copy_one_from. cbn.
      destruct (gko.memory_space_eqb _ _); [|discriminate].
      destruct (gko.d_values d); cbn; discriminate.
  - destruct (gko.Executor_eqb oe (gko.get_master oe)); cbn.
    + intros Heq. injection Heq as <- <-. repeat split. discriminate.
    + destruct this_executor; cbn; [|discriminate].
      intros Heq. injection Heq as <- <-. repeat split. discriminate.
Qed.

(** X5. For 1 x 1 dense scalars alpha and beta, each on a host executor or
    on the device of the wrapper, the scaled apply returns normally and
    leaves alpha * Op(b) + beta * x in [x], entry by entry. *)
Theorem X5_scaled_apply_computes_axpby :
  forall exec op (da db : gko.Dense) a av bt btv e n bv own xe xn xv xown
         trace,
    gko.d_rows da = 1 -> gko.d_cols da = 1 ->
    gko.d_values da = a :: av ->
    gko.d_rows db = 1 -> gko.d_cols db = 1 ->
    gko.d_values db = bt :: btv ->
    readable_from exec (OperatorWrapper.DenseDouble da) = true ->
    readable_from exec (OperatorWrapper.DenseDouble db) = true ->
    List.length (Mult op bv) = List.length xv ->
    let r := OperatorWrapper.apply_impl_scaled (Some exec) op
               (OperatorWrapper.DenseDouble da)
               (gko.VectorWrapper e n bv own)
               (OperatorWrapper.DenseDouble db)
               {| OperatorWrapper.x := gko.VectorWrapper xe xn xv xown;
                  OperatorWrapper.accesses := trace |} in
    snd r = Val tt /\
    OperatorWrapper.mfem_vec_of (OperatorWrapper.x (fst r)) =
    spec_axpby a bt (Mult op bv) xv.
Proof.
  intros exec op da db a av bt btv e n bv own xe xn xv xown trace
         Har Hac Hav Hbr Hbc Hbv Ra Rb Hlen r.
  subst r.
  rewrite (apply_impl_scaled_runs exec op da db (a := a) (av := av)
             (bt := bt) (btv := btv) e n bv own xe xn xv xown trace);
    try lia; try assumption.
  cbn. split; [reflexivity | apply scale_add_axpby, Hlen].
Qed.

Lemma X5_witness :
  let dev := gko.CudaExecutor 0 gko.OmpExecutor in
  OperatorWrapper.mfem_vec_of
    (OperatorWrapper.x
       (fst (OperatorWrapper.apply_impl_scaled (Some dev)
               (identity_operator 2) (scalar dev 2)
               (wrapped_on dev [2%R; 3%R])
               (scalar gko.OmpExecutor 10)
               (operands_on dev [5%R; 7%R] [])))) =
  [(2 * 2 + 10 * 5)%R; (2 * 3 + 10 * 7)%R].
Proof.
  intros dev.
  apply (X5_scaled_apply_computes_axpby dev (identity_operator 2)
           (one_by_one dev 2) (one_by_one gko.OmpExecutor 10)
           (a := 2%R) (av := []) (bt := 10%R) (btv := [])
           dev 2 [2%R; 3%R] false dev 2 [5%R; 7%R] false []
           eq_refl eq_refl eq_refl eq_refl eq_refl eq_refl eq_refl eq_refl
           eq_refl).
Defined.

(** X6. Whenever the hook's read of a scalar operand yields a value, the
    operand is a dense matrix of doubles and the value is its first entry;
    [x] is untouched and exactly one access has been made.  For an operand
    on a host executor it is the read in place.  For an operand on a device
    executor it is the copy to the host issued from the executor of the
    wrapper, and the operand lives in the memory of that executor: a
    device-resident scalar never yields a value through a read in place. *)
Theorem X6_scalar_read_outcomes :
  forall this_executor name alpha s s' v,
    OperatorWrapper.read_scalar this_executor name alpha s = (s', Val v) ->
    exists d vs,
      alpha = OperatorWrapper.DenseDouble d /\
      gko.d_values d = v :: vs /\
      OperatorWrapper.x s' = OperatorWrapper.x s /\
      if gko.Executor_eqb (gko.d_executor d)
                          (gko.get_master (gko.d_executor d))
      then OperatorWrapper.accesses s' =
           OperatorWrapper.accesses s ++ [OperatorWrapper.DirectAccess name]
      else exists exec,
          this_executor = Some exec /\
          gko.memory_space_eqb (gko.get_mem_space exec)
                               (gko.get_mem_space (gko.d_executor d)) = true /\
          OperatorWrapper.accesses s' =
          OperatorWrapper.accesses s ++ [OperatorWrapper.CopyToHost name exec].
Proof.
  intros this_executor name alpha s s' v.
  unfold OperatorWrapper.read_scalar.
  destruct alpha as [d|oe rows cols]; cbn.
  - destruct (gko.Executor_eqb (gko.d_executor d)
                               (gko.get_master (gko.d_executor d))) eqn:Hh.
    + unfold bind, ret, OperatorWrapper.log_access, modify, gko.at_0_0. cbn.
      rewrite Hh. destruct (gko.d_values d) as [|v0 vs] eqn:Hv; cbn;
        [discriminate|].
      intros Heq. injection Heq as <- <-.
      exists d, vs. rewrite Hh. repeat split; auto.
    + destruct this_executor as [exec|]; cbn; [|discriminate].
      unfold bind, ret, OperatorWrapper.log_access, modify,
        gko.copy_one_from. cbn.
      destruct (gko.memory_space_eqb (gko.get_mem_space exec)
                  (gko.get_mem_space (gko.d_executor d))) eqn:Hm;
        [|discriminate].
      destruct (gko.d_values d) as [|v0 vs] eqn:Hv; cbn; [discriminate|].
      intros Heq. injection Heq as <- <-.
      exists d, vs. rewrite Hh. repeat split; auto.
      exists exec. repeat split; auto.
  - destruct (gko.Executor_eqb oe (gko.get_master oe)); cbn;
      [discriminate|].
    destruct this_executor; cbn; discriminate.
Qed.

Lemma X6_witness :
  let dev := gko.CudaExecutor 0 gko.OmpExecutor in
  let r := OperatorWrapper.read_scalar (Some dev) "alpha" (scalar dev 2)
             (operands_on dev [5%R; 7%R] []) in
  snd r = Val 2%R /\
  OperatorWrapper.accesses (fst r) = [OperatorWrapper.CopyToHost "alpha" dev].
Proof.
  intros dev r. split; [reflexivity|].
  destruct (X6_scalar_read_outcomes (Some dev) "alpha" (scalar dev 2)
              (operands_on dev [5%R; 7%R] []) (s' := fst r) (v := 2%R)
              eq_refl)
    as (d & vs & Hd & _ & _ & Hacc).
  injection Hd as <-. cbn in Hacc.
  destruct Hacc as (exec & He & _ & Hacc).
  injection He as <-. exact Hacc.
Defined.

(** X7. When the scaled apply throws, [x] has not been written.  The
    exception is the failed cast of a vector operand that is no wrapped
    vector or of a scalar operand that is no dense matrix of doubles, or the
    dimension error of the first scalar with a dimension above one, alpha
    before beta.  The state is the one the call started from, except when
    the cast of beta fails: alpha has been read by then. *)
Theorem X7_scaled_apply_throws_before_it_writes :
  forall this_executor op (alpha beta : OperatorWrapper.Scalar) b s s' e,
    OperatorWrapper.apply_impl_scaled this_executor op alpha b beta s =
      (s', Stop (Thrown e)) ->
    OperatorWrapper.x s' = OperatorWrapper.x s /\
    ((s' = s /\
      (e = NotSupported \/
       (e = BadDimension "alpha" (OperatorWrapper.get_size_0 alpha)
                         (OperatorWrapper.get_size_1 alpha) /\
        (1 < OperatorWrapper.get_size_0 alpha \/
         1 < OperatorWrapper.get_size_1 alpha)) \/
       (e = BadDimension "beta" (OperatorWrapper.get_size_0 beta)
                         (OperatorWrapper.get_size_1 beta) /\
        OperatorWrapper.get_size_0 alpha <= 1 /\
        OperatorWrapper.get_size_1 alpha <= 1 /\
        (1 < OperatorWrapper.get_size_0 beta \/
         1 < OperatorWrapper.get_size_1 beta)))) \/
     (e = NotSupported /\
      (exists d, alpha = OperatorWrapper.DenseDouble d) /\
      (forall d, beta <> OperatorWrapper.DenseDouble d) /\
      exists a, OperatorWrapper.accesses s' =
                OperatorWrapper.accesses s ++ [a])).
Proof.
  intros this_executor op alpha beta b [x0 trace] s' e.
  unfold OperatorWrapper.apply_impl_scaled, OperatorWrapper.check_scalar.
  unfold bind at 1. cbn [get].
  destruct b as [? ? ? ?|be bn bv bown];
    [cbn; intros Heq; injection Heq as <- <-; auto|].
  unfold bind at 1. cbn [OperatorWrapper.as_VectorWrapper ret].
  destruct x0 as [? ? ? ?|xe xn xv xown];
    [cbn; intros Heq; injection Heq as <- <-; auto|].
  unfold bind at 1. cbn [OperatorWrapper.as_VectorWrapper ret OperatorWrapper.x].
  unfold bind at 1.
  destruct (Z.ltb_spec 1 (OperatorWrapper.get_size_0 alpha)); cbn [orb];
    [cbn; intros Heq; injection Heq as <- <-; split;
       [reflexivity|left; split; [reflexivity|right; left; auto]]|].
  destruct (Z.ltb_spec 1 (OperatorWrapper.get_size_1 alpha)); cbn [orb ret];
    [cbn; intros Heq; injection Heq as <- <-; split;
       [reflexivity|left; split; [reflexivity|right; left; auto]]|].
  unfold bind at 1.
  destruct (Z.ltb_spec 1 (OperatorWrapper.get_size_0 beta)); cbn [orb];
    [cbn; intros Heq; injection Heq as <- <-; split;
       [reflexivity|left; split; [reflexivity|right; right; repeat split; auto]]|].
  destruct (Z.ltb_spec 1 (OperatorWrapper.get_size_1 beta)); cbn [orb ret];
    [cbn; intros Heq; injection Heq as <- <-; split;
       [reflexivity|left; split; [reflexivity|right; right; repeat split; auto]]|].
  unfold bind at 1.
  destruct (OperatorWrapper.read_scalar this_executor "alpha" alpha _)
    as [s1 [alpha_f|why]] eqn:Hra.
  - apply read_scalar_value in Hra. destruct Hra as (d & Hd & Hx1 & a & Ha1).
    unfold bind at 1.
    destruct (OperatorWrapper.read_scalar this_executor "beta" beta s1)
      as [s2 [beta_f|why]] eqn:Hrb.
    + unfold bind, OperatorWrapper.set_mfem_vec, modify. cbn. discriminate.
    + intros Heq. injection Heq as <- ->.
      apply read_scalar_throws in Hrb. destruct Hrb as (-> & -> & Hnd).
      split; [exact Hx1|]. right.
      repeat split; eauto.
  - intros Heq. injection Heq as <- ->.
    apply read_scalar_throws in Hra. destruct Hra as (-> & -> & _).
    split; [reflexivity|]. left. split; [reflexivity|left; reflexivity].
Qed.

Lemma X7_witness :
  let s := operands [5%R; 7%R] in
  let r := OperatorWrapper.apply_impl_scaled (Some gko.OmpExecutor)
             (identity_operator 2) (scalar gko.OmpExecutor 2)
             (wrapped [2%R; 3%R]) (float_scalar gko.OmpExecutor) s in
  snd r = Stop (Thrown NotSupported) /\
  OperatorWrapper.accesses (fst r) = [OperatorWrapper.DirectAccess "alpha"] /\
  OperatorWrapper.x (fst r) = OperatorWrapper.x s.
Proof.
  intros s r. split; [reflexivity|]. split; [reflexivity|].
  apply (X7_scaled_apply_throws_before_it_writes
           (Some gko.OmpExecutor) (identity_operator 2)
           (scalar gko.OmpExecutor 2) (float_scalar gko.OmpExecutor)
           (wrapped [2%R; 3%R]) s (s' := fst r) (e := NotSupported) eq_refl).
Defined.

(** ** More on solving *)

Lemma preserves_bind {A B C} (proj : GinkgoIterativeSolver.t -> C)
      (step : M GinkgoIterativeSolver.Call A)
      (k : A -> M GinkgoIterativeSolver.Call B) :
  preserves proj step -> (forall a, preserves proj (k a)) ->
  preserves proj (bind step k).
Proof.
  intros Hstep Hk c. unfold bind. specialize (Hstep c).
  destruct (step c) as [c1 [a|why]]; cbn in *; [rewrite Hk|]; exact Hstep.
Qed.

Lemma preserves_get {C} (proj : GinkgoIterativeSolver.t -> C) :
  preserves proj get.
Proof. intros c. reflexivity. Qed.

Lemma preserves_verify {C} (proj : GinkgoIterativeSolver.t -> C) cond msg :
  preserves proj (MFEM_VERIFY cond msg).
Proof. intros c. destruct cond; reflexivity. Qed.

Lemma preserves_deref {A C} (proj : GinkgoIterativeSolver.t -> C)
      (p : option A) :
  preserves proj (deref p).
Proof. intros c. destruct p; reflexivity. Qed.

Lemma preserves_when {C} (proj : GinkgoIterativeSolver.t -> C) cond step :
  preserves proj step -> preserves proj (when cond step).
Proof. intros H c. destruct cond; [apply H | reflexivity]. Qed.

Lemma preserves_on_y {C} (proj : GinkgoIterativeSolver.t -> C) f :
  preserves proj (GinkgoIterativeSolver.on_y f).
Proof. intros c. reflexivity. Qed.

Lemma preserves_on_io {C} (proj : GinkgoIterativeSolver.t -> C) f :
  preserves proj (GinkgoIterativeSolver.on_io f).
Proof. intros c. reflexivity. Qed.

Lemma preserves_on_this {C} (proj : GinkgoIterativeSolver.t -> C) f :
  (forall st, proj (f st) = proj st) ->
  preserves proj (GinkgoIterativeSolver.on_this f).
Proof. intros H c. apply H. Qed.

Lemma preserves_read_norm {C} (proj : GinkgoIterativeSolver.t -> C) exec norm :
  preserves proj (GinkgoIterativeSolver.read_norm exec norm).
Proof.
  intros c. unfold GinkgoIterativeSolver.read_norm, gko.as_Dense, gko.at_0_0.
  destruct norm as [d|]; [|reflexivity].
  cbn. rewrite get_master_on_host. destruct (gko.d_values d); reflexivity.
Qed.

Ltac preserves_step :=
  first
    [ apply preserves_read_norm
    | apply preserves_bind; [|intros ?]
    | apply preserves_get
    | apply preserves_verify
    | apply preserves_deref
    | apply preserves_when
    | apply preserves_on_y
    | apply preserves_on_io
    | apply preserves_on_this; intros []; reflexivity
    | match goal with
      | |- preserves _ (let '(_, _) := ?e in _) => destruct e
      | |- preserves _ (if ?b then _ else _) => destruct b
      end ].

Lemma Mult_frame {backend : Backend} x c :
  frame (GinkgoIterativeSolver.this (fst (GinkgoIterativeSolver.Mult x c))) =
  frame (GinkgoIterativeSolver.this c).
Proof.
  revert c. change (preserves frame (GinkgoIterativeSolver.Mult x)).
  unfold GinkgoIterativeSolver.Mult. repeat preserves_step.
Qed.

(** X8. [Mult] writes only its logging and report members: the two logger
    lists, the two logger objects, [final_iter] and [converged].  However
    the call ends (normal return, abort, exception), every other member of
    the solver is what it was: the bound operator, the generated solver, the
    solver factory, the combined criterion factory and the four criteria it
    was built from, the executor, the tolerances and the iteration cap, the
    modes, the print level, the wrapping flags and the Krylov dimension. *)
Theorem X8_Mult_keeps_binding_and_configuration :
  forall (backend : Backend) (x : Vector) (c : GinkgoIterativeSolver.Call),
    frame (GinkgoIterativeSolver.this (fst (GinkgoIterativeSolver.Mult x c))) =
    frame (GinkgoIterativeSolver.this c).
Proof.
  intros backend x c. apply Mult_frame.
Qed.

(** X9. A failed check of [Mult] is raised before anything is written: when
    [Mult] aborts, the solver and [y] are unchanged and nothing has been
    sent to [mfem::out]; the message of the abort report tells which of the
    three checks failed. *)
Theorem X9_Mult_aborts_before_it_writes :
  forall (backend : Backend) (x : Vector) (c c' : GinkgoIterativeSolver.Call)
         (msg : string),
    GinkgoIterativeSolver.Mult x c = (c', Stop (Aborted msg)) ->
    let this := GinkgoIterativeSolver.this c in
    GinkgoIterativeSolver.this c' = this /\
    GinkgoIterativeSolver.y c' = GinkgoIterativeSolver.y c /\
    mfem_out (GinkgoIterativeSolver.io c') =
      mfem_out (GinkgoIterativeSolver.io c) /\
    ((msg = "System matrix or operator not initialized" /\
      GinkgoIterativeSolver.system_oper this = None) \/
     (msg = "executor is not initialized" /\
      GinkgoIterativeSolver.executor this = None) \/
     (msg = "Mismatching sizes for rhs and solution" /\
      Size (GinkgoIterativeSolver.y c) <> Size x)).
Proof.
  intros backend x [st y0 io0] c' msg. destruct st.
  unfold GinkgoIterativeSolver.Mult. cbn.
  destruct system_oper; cbn;
    [|intros Heq; injection Heq as <- <-; repeat split; left; auto].
  destruct executor; cbn;
    [|intros Heq; injection Heq as <- <-; repeat split; right; left; auto].
  destruct (Z.eqb_spec (Size y0) (Size x)); cbn;
    [|intros Heq; injection Heq as <- <-; repeat split; right; right; auto].
  unfold GinkgoIterativeSolver.read_norm, gko.as_Dense, gko.at_0_0.
  destruct iterative_mode; cbn;
    destruct (print_level =? 1); cbn;
    destruct solver; cbn; try discriminate;
    destruct combined_factory; cbn; try discriminate;
    destruct (solver_apply _ _ _) as [last log]; cbn;
    destruct use_implicit_res_norm; cbn;
    unfold bind, ret, stop; cbn;
    lazymatch goal with
    | |- context [gko.get_implicit_sq_resnorm log] =>
        destruct (gko.get_implicit_sq_resnorm log) as [d|]
    | |- _ => destruct (gko.get_residual_norm log) as [d|]
    end;
    cbn; try discriminate;
    rewrite get_master_on_host;
    match goal with d : gko.Dense |- _ => destruct (gko.d_values d) end;
    cbn; try discriminate;
    destruct (gko.has_converged log); cbn;
    destruct (2 <=? print_level); cbn; discriminate.
Qed.

Lemma X9_witness :
  let r := GinkgoIterativeSolver.Mult (backend := demo_backend true) [5%R]
             (call unbound_CG [7%R]) in
  snd r = Stop (Aborted "System matrix or operator not initialized") /\
  GinkgoIterativeSolver.this (fst r) = unbound_CG /\
  GinkgoIterativeSolver.y (fst r) = [7%R].
Proof.
  intros r. split; [reflexivity|].
  destruct (X9_Mult_aborts_before_it_writes (demo_backend true) [5%R]
              (call unbound_CG [7%R]) (c' := fst r)
              (msg := "System matrix or operator not initialized") eq_refl)
    as (Hthis & Hy & _).
  split; assumption.
Defined.

Lemma Vector_assign_length (c : R) (y1 y2 : Vector) :
  List.length y1 = List.length y2 -> Vector_assign c y1 = Vector_assign c y2.
Proof.
  revert y2. induction y1 as [|a y1 IH]; intros [|b y2] Hlen;
    try discriminate; [reflexivity|].
  cbn. f_equal. apply IH. now injection Hlen.
Qed.

(** X10. Without warm starts ([iterative_mode] off) a solve does not look
    at what [y] holds on entry: once the three checks pass, two calls that
    differ only in the content of [y], not in its length, end in the same
    state with the same outcome. *)
Theorem X10_cold_start_ignores_the_content_of_y :
  forall (backend : Backend) (x : Vector) (st : GinkgoIterativeSolver.t)
         (y1 y2 : Vector) (io0 : Streams) A exec,
    GinkgoIterativeSolver.iterative_mode st = false ->
    GinkgoIterativeSolver.system_oper st = Some A ->
    GinkgoIterativeSolver.executor st = Some exec ->
    Size y1 = Size x ->
    List.length y1 = List.length y2 ->
    GinkgoIterativeSolver.Mult x
      {| GinkgoIterativeSolver.this := st; GinkgoIterativeSolver.y := y1;
         GinkgoIterativeSolver.io := io0 |} =
    GinkgoIterativeSolver.Mult x
      {| GinkgoIterativeSolver.this := st; GinkgoIterativeSolver.y := y2;
         GinkgoIterativeSolver.io := io0 |}.
Proof.
  intros backend x st y1 y2 io0 A exec Hmode HA He Hsize1 Hlen.
  destruct st. cbn in Hmode, HA, He. subst.
  assert (Size y2 = Size x) as Hsize2
      by (rewrite <- Hsize1; unfold Size; now rewrite Hlen).
  unfold GinkgoIterativeSolver.Mult. cbn -[Vector_assign Size].
  rewrite Hsize1, Hsize2, Z.eqb_refl. cbn -[Vector_assign Size].
  rewrite (Vector_assign_length 0 y1 y2 Hlen). reflexivity.
Qed.

Lemma X10_witness :
  GinkgoIterativeSolver.Mult (backend := demo_backend true) [5%R]
                             (call bound_CG [7%R]) =
  GinkgoIterativeSolver.Mult (backend := demo_backend true) [5%R]
                             (call bound_CG [8%R]).
Proof.
  apply (X10_cold_start_ignores_the_content_of_y (demo_backend true) [5%R]
           bound_CG [7%R] [8%R] no_output
           (A := gko.Csr gko.OmpExecutor 1 1 false 1 [1%R] [0] [0; 1])
           (exec := gko.OmpExecutor)
           eq_refl eq_refl eq_refl eq_refl eq_refl).
Defined.

(** ** The binding of a solver *)

Lemma constructed_well_bound st : constructed st -> well_bound st.
Proof.
  intros H. unfold well_bound.
  destruct H;
    unfold GinkgoIterativeSolver.CGSolver_preconditioned,
      GinkgoIterativeSolver.BICGSTABSolver_preconditioned,
      GinkgoIterativeSolver.CGSSolver_preconditioned,
      GinkgoIterativeSolver.FCGSolver_preconditioned,
      GinkgoIterativeSolver.GMRESSolver_preconditioned,
      GinkgoIterativeSolver.CBGMRESSolver_preconditioned,
      GinkgoIterativeSolver.IRSolver_inner,
      GinkgoIterativeSolver.preconditioned,
      GinkgoIterativeSolver.create,
      GinkgoIterativeSolver.update_stop_factory;
    cbn; split_cases; repeat split; reflexivity.
Qed.

Lemma SetOperator_well_bound op st :
  well_bound st -> well_bound (fst (GinkgoIterativeSolver.SetOperator op st)).
Proof.
  unfold well_bound. destruct st.
  unfold GinkgoIterativeSolver.SetOperator. cbn.
  intros (Hflags & Hsolver & Hloggers).
  destruct system_oper as [[| |]|], needs_wrapped_vecs,
    sub_op_needs_wrapped_vecs; cbn in *; try discriminate Hflags;
    destruct solver as [[| |]|]; try contradiction; try discriminate Hsolver;
    (destruct (as_SparseMatrix op); cbn;
     [ destruct (Height op =? Width op); cbn;
       [ destruct executor; cbn; [destruct solver_gen; cbn|] |]
     | destruct solver_gen; cbn ]);
    repeat split; auto; try discriminate.
Qed.

Lemma Mult_unbound {backend : Backend} x c :
  GinkgoIterativeSolver.system_oper (GinkgoIterativeSolver.this c) = None ->
  fst (GinkgoIterativeSolver.Mult x c) = c.
Proof.
  destruct c as [st y0 io0]. destruct st. cbn. intros ->. reflexivity.
Qed.

Lemma Mult_well_bound {backend : Backend} x c :
  well_bound (GinkgoIterativeSolver.this c) ->
  well_bound (GinkgoIterativeSolver.this (fst (GinkgoIterativeSolver.Mult x c))).
Proof.
  intros (Hflags & Hsolver & Hloggers).
  pose proof (Mult_frame x c) as Hframe.
  unfold frame in Hframe. injection Hframe. intros.
  unfold well_bound.
  repeat match goal with
         | H : ?field (GinkgoIterativeSolver.this (fst _)) = _ |- _ =>
             rewrite ?H; clear H
         end.
  split; [exact Hflags|]. split; [exact Hsolver|].
  intros Hnone. rewrite (Mult_unbound x c Hnone). auto.
Qed.

Lemma SetKDim_well_bound dim st :
  well_bound st -> well_bound (fst (GinkgoIterativeSolver.SetKDim dim st)).
Proof.
  unfold well_bound. destruct st.
  unfold GinkgoIterativeSolver.SetKDim. cbn.
  intros (Hflags & Hsolver & Hloggers).
  destruct solver_gen as [gen|]; cbn; [|auto].
  destruct solver as [[| |]|]; cbn in *; auto.
Qed.

Lemma update_stop_factory_well_bound st :
  well_bound st -> well_bound (GinkgoIterativeSolver.update_stop_factory st).
Proof.
  unfold well_bound. destruct st.
  unfold GinkgoIterativeSolver.update_stop_factory. cbn.
  destruct use_implicit_res_norm; cbn; auto.
Qed.

Lemma reachable_well_bound {backend : Backend} st :
  reachable st -> well_bound st.
Proof.
  induction 1 as [st Hnew | op st _ IH | x c _ IH | dim st _ IH | st _ IH].
  - exact (constructed_well_bound Hnew).
  - exact (SetOperator_well_bound op IH).
  - exact (Mult_well_bound x c IH).
  - exact (SetKDim_well_bound dim IH).
  - exact (update_stop_factory_well_bound IH).
Qed.

(** X11. In every state a solver can reach, [needs_wrapped_vecs] is set
    exactly when a sub-operator asked for wrapped vectors or the system
    operator now bound is a wrapped MFEM operator: rebinding a solver from
    a generic operator to a [SparseMatrix] switches back to plain views,
    unless a wrapped preconditioner or inner solver is in the chain. *)
Theorem X11_wrapped_vectors_exactly_when_an_operator_is_wrapped :
  forall (backend : Backend) (st : GinkgoIterativeSolver.t),
    reachable st ->
    GinkgoIterativeSolver.needs_wrapped_vecs st =
    GinkgoIterativeSolver.sub_op_needs_wrapped_vecs st
    || gko.is_OperatorWrapper (GinkgoIterativeSolver.system_oper st).
Proof.
  intros backend st Hreach. apply (reachable_well_bound Hreach).
Qed.

(** X12. In every state a solver can reach, a generated solver is one that a
    factory generated for the system operator bound now: there is never a
    solver left over from an earlier operator, nor a solver without an
    operator. *)
Theorem X12_generated_solver_is_bound_to_the_current_operator :
  forall (backend : Backend) (st : GinkgoIterativeSolver.t) (s : gko.LinOp),
    reachable st ->
    GinkgoIterativeSolver.solver st = Some s ->
    exists factory system,
      s = gko.Generated factory system /\
      GinkgoIterativeSolver.system_oper st = Some system.
Proof.
  intros backend st s Hreach Hs.
  destruct (reachable_well_bound Hreach) as (_ & Hsolver & _).
  rewrite Hs in Hsolver. destruct s as [| |factory system]; try contradiction.
  exists factory, system. auto.
Qed.

Lemma SetOperator_after_SetOperator op1 op2 st :
  well_bound st ->
  GinkgoIterativeSolver.SetOperator op2
    (fst (GinkgoIterativeSolver.SetOperator op1 st)) =
  GinkgoIterativeSolver.SetOperator op2 st.
Proof.
  unfold well_bound. destruct st.
  unfold GinkgoIterativeSolver.SetOperator. cbn.
  intros (Hflags & Hsolver & Hloggers).
  destruct system_oper as [[| |]|], needs_wrapped_vecs,
    sub_op_needs_wrapped_vecs; cbn in *; try discriminate Hflags;
    try (destruct solver as [[| |]|]; try contradiction;
         rewrite (Hloggers eq_refl));
    (destruct (as_SparseMatrix op1); cbn;
     [ destruct (Height op1 =? Width op1); cbn;
       [ destruct executor; cbn; [destruct solver_gen; cbn|] |]
     | destruct solver_gen; cbn ]);
    try reflexivity; try discriminate.
Qed.

(** X13. Rebinding forgets the operator bound before: on every reachable
    solver, [SetOperator] of a second operator after [SetOperator] of a
    first one ends in the same state, with the same outcome, as
    [SetOperator] of the second operator alone, whether or not the first
    call succeeded. *)
Theorem X13_rebinding_forgets_the_previous_operator :
  forall (backend : Backend) (st : GinkgoIterativeSolver.t)
         (op1 op2 : Operator),
    reachable st ->
    GinkgoIterativeSolver.SetOperator op2
      (fst (GinkgoIterativeSolver.SetOperator op1 st)) =
    GinkgoIterativeSolver.SetOperator op2 st.
Proof.
  intros backend st op1 op2 Hreach.
  apply SetOperator_after_SetOperator, (reachable_well_bound Hreach).
Qed.

Lemma X11_witness :
  let generic := fst (GinkgoIterativeSolver.SetOperator generic_operator
                        unbound_CG) in
  let rebound := fst (GinkgoIterativeSolver.SetOperator square_matrix
                        generic) in
  GinkgoIterativeSolver.needs_wrapped_vecs generic = true /\
  GinkgoIterativeSolver.needs_wrapped_vecs rebound = false.
Proof.
  intros generic rebound.
  assert (reachable (backend := demo_backend true) generic) as Hgeneric
      by apply reach_SetOperator, reach_constructed, new_CG.
  split.
  - rewrite (X11_wrapped_vectors_exactly_when_an_operator_is_wrapped
               Hgeneric).
    reflexivity.
  - unfold rebound.
    rewrite (X11_wrapped_vectors_exactly_when_an_operator_is_wrapped
               (reach_SetOperator square_matrix Hgeneric)).
    reflexivity.
Defined.

Lemma X12_witness :
  exists factory system,
    GinkgoIterativeSolver.solver bound_CG = Some (gko.Generated factory system)
    /\ GinkgoIterativeSolver.system_oper bound_CG = Some system.
Proof.
  destruct (X12_generated_solver_is_bound_to_the_current_operator
              (backend := demo_backend true) (st := bound_CG)
              (reach_SetOperator square_matrix
                 (reach_constructed (new_CG omp)))
              eq_refl) as (factory & system & Hs & Hsys).
  exists factory, system. split; [rewrite <- Hs; reflexivity | exact Hsys].
Defined.

Lemma X13_witness :
  GinkgoIterativeSolver.SetOperator square_matrix
    (fst (GinkgoIterativeSolver.SetOperator generic_operator unbound_CG)) =
  GinkgoIterativeSolver.SetOperator square_matrix unbound_CG.
Proof.
  apply (X13_rebinding_forgets_the_previous_operator
           (backend := demo_backend true)).
  apply reach_constructed, new_CG.
Defined.

(** ** Construction and configuration of solvers *)

(** The combined criterion [update_stop_factory] builds holds from the
    iteration cap on, whatever the residual tests say. *)
Lemma rebuilt_criteria_cap st (p : Progress) :
  to_unsigned_long (GinkgoIterativeSolver.max_iter st) <= num_iterations p ->
  check (GinkgoIterativeSolver.combined_factory
           (GinkgoIterativeSolver.update_stop_factory st)) p = true.
Proof.
  intros Hk. destruct st.
  unfold GinkgoIterativeSolver.update_stop_factory.
  cbn -[to_unsigned_long] in *.
  destruct use_implicit_res_norm; cbn -[to_unsigned_long];
    rewrite !orb_true_iff; right; right; left;
    apply Z.leb_le; exact Hk.
Qed.

(** X14. After [update_stop_factory], for any iteration cap [max_iter]
    that fits an unsigned long, a backend loop run under the combined
    criterion stops at some iteration k <= [max_iter], whatever the
    tolerances and the residuals are. *)
Theorem X14_rebuilt_criteria_stop_within_max_iter :
  forall (st : GinkgoIterativeSolver.t) (X : Type) (step : X -> X)
         (norm sq_norm : X -> R) (r0 : R) (x0 : X) (n : nat),
    0 <= GinkgoIterativeSolver.max_iter st < 2 ^ 64 ->
    exists k xk,
      iterate_until (Z.to_nat (GinkgoIterativeSolver.max_iter st) + 1 + n)
        (fun k x =>
           check (GinkgoIterativeSolver.combined_factory
                    (GinkgoIterativeSolver.update_stop_factory st))
                 {| num_iterations := k; residual_norm := norm x;
                    implicit_sq_resnorm := sq_norm x;
                    initial_residual_norm := r0 |})
        step 0 x0 = Some (k, xk)
      /\ 0 <= k <= GinkgoIterativeSolver.max_iter st.
Proof.
  intros st X step norm sq_norm r0 x0 n Hrange.
  destruct (@iterate_until_cap X
              (fun k x =>
                 check (GinkgoIterativeSolver.combined_factory
                          (GinkgoIterativeSolver.update_stop_factory st))
                       {| num_iterations := k; residual_norm := norm x;
                          implicit_sq_resnorm := sq_norm x;
                          initial_residual_norm := r0 |})
              step (GinkgoIterativeSolver.max_iter st))
    with (fuel := (Z.to_nat (GinkgoIterativeSolver.max_iter st) + 1 + n)%nat)
         (k := 0) (x := x0) as (k & xk & Hrun & Hk).
  - intros k x Hk. apply rebuilt_criteria_cap. cbn [num_iterations].
    unfold to_unsigned_long. rewrite Z.mod_small by exact Hrange. exact Hk.
  - rewrite Z.sub_0_r. lia.
  - exists k, xk. split; [exact Hrun | lia].
Qed.

Lemma X14_witness :
  exists k xk,
    iterate_until 4
      (fun k (x : nat) =>
         check (GinkgoIterativeSolver.combined_factory
                  (GinkgoIterativeSolver.update_stop_factory
                     (GinkgoIterativeSolver.set_max_iter 3 unbound_CG)))
               {| num_iterations := k; residual_norm := 1;
                  implicit_sq_resnorm := 1; initial_residual_norm := 1 |})
      S 0 0%nat = Some (k, xk)
    /\ 0 <= k <= 3.
Proof.
  apply (X14_rebuilt_criteria_stop_within_max_iter
           (GinkgoIterativeSolver.set_max_iter 3 unbound_CG)
           S (fun _ => 1%R) (fun _ => 1%R) 1%R 0%nat 0%nat).
  cbn. lia.
Defined.

Lemma get_krylov_dim_last ps n default :
  get_krylov_dim (ps ++ [gko.with_krylov_dim n]) default = n.
Proof.
  revert default. induction ps as [|p ps IH]; intros default; [reflexivity|].
  destruct p; cbn; apply IH.
Qed.

(** X15. [SetKDim] on a GMRES solver returns normally and stores the new
    dimension, converted to an unsigned long, in three places: the member
    [m], the parameters of the factory, and, if a solver was already
    generated, the parameters of the live solver, which stays bound to the
    same operator. *)
Theorem X15_SetKDim_updates_factory_and_live_solver :
  forall (st : GinkgoIterativeSolver.t) (dim : Z) kind ps e,
    kind = gko.Gmres \/ kind = gko.CbGmres ->
    GinkgoIterativeSolver.solver_gen st = Some (gko.Build kind ps e) ->
    let r := GinkgoIterativeSolver.SetKDim dim st in
    snd r = Val tt /\
    GinkgoIterativeSolver.m (fst r) = Some dim /\
    get_krylov_dim (solver_params (fst r)) 0 = to_unsigned_long dim /\
    GinkgoIterativeSolver.system_oper (fst r) =
      GinkgoIterativeSolver.system_oper st /\
    match GinkgoIterativeSolver.solver st with
    | Some (gko.Generated (gko.Build kind' ps' e') system) =>
        exists ps'',
          GinkgoIterativeSolver.solver (fst r) =
            Some (gko.Generated (gko.Build kind' ps'' e') system) /\
          get_krylov_dim ps'' 0 = to_unsigned_long dim
    | _ =>
        GinkgoIterativeSolver.solver (fst r) = GinkgoIterativeSolver.solver st
    end.
Proof.
  intros st dim kind ps e _ Hgen r. subst r. destruct st. cbn in Hgen. subst.
  unfold GinkgoIterativeSolver.SetKDim, solver_params.
  cbn -[to_unsigned_long].
  destruct solver as [[| |[kind' ps' e'|]]|]; cbn -[to_unsigned_long];
    repeat split; try apply get_krylov_dim_last.
  eexists. split; [reflexivity | apply get_krylov_dim_last].
Qed.

Lemma X15_witness :
  let r := GinkgoIterativeSolver.SetKDim 30 bound_GMRES in
  get_krylov_dim (solver_params bound_GMRES) 0 = 0 /\
  snd r = Val tt /\
  get_krylov_dim (solver_params (fst r)) 0 = 30.
Proof.
  intros r. split; [reflexivity|].
  destruct (X15_SetKDim_updates_factory_and_live_solver bound_GMRES 30
              (kind := gko.Gmres)
              (ps := [gko.with_criteria
                        [GinkgoIterativeSolver.combined_factory bound_GMRES]])
              (e := Some gko.OmpExecutor) (or_introl eq_refl) eq_refl)
    as (Hret & _ & Hdim & _).
  split; [exact Hret | exact Hdim].
Defined.

(** X16. Every constructor leaves its solver unbound and with the same
    defaults: no system operator and no generated solver, print level -1,
    tolerances 0, an iteration cap of 10, and, for every solver class, a
    factory on the solver's executor whose criteria are the solver's own
    combined criterion. *)
Theorem X16_constructors_leave_an_unbound_solver_with_defaults :
  forall (st : GinkgoIterativeSolver.t),
    constructed st ->
    GinkgoIterativeSolver.system_oper st = None /\
    GinkgoIterativeSolver.solver st = None /\
    GinkgoIterativeSolver.print_level st = -1 /\
    GinkgoIterativeSolver.max_iter st = 10 /\
    GinkgoIterativeSolver.rel_tol st = 0%R /\
    GinkgoIterativeSolver.abs_tol st = 0%R /\
    match GinkgoIterativeSolver.solver_gen st with
    | Some (gko.Build _ ps e) =>
        e = GinkgoIterativeSolver.executor st /\
        gko.get_criteria ps [] = [GinkgoIterativeSolver.combined_factory st]
    | Some _ => False
    | None => exists exec use_implicit,
        st = GinkgoIterativeSolver.create exec use_implicit
    end.
Proof.
  intros st H.
  destruct H as [exec use_implicit| | | | | | | | | | | | | |];
    [ destruct use_implicit; repeat split; try reflexivity;
      first [ exists exec, true; reflexivity
            | exists exec, false; reflexivity ] | .. ];
    unfold GinkgoIterativeSolver.CGSolver_preconditioned,
      GinkgoIterativeSolver.BICGSTABSolver_preconditioned,
      GinkgoIterativeSolver.CGSSolver_preconditioned,
      GinkgoIterativeSolver.FCGSolver_preconditioned,
      GinkgoIterativeSolver.GMRESSolver,
      GinkgoIterativeSolver.GMRESSolver_preconditioned,
      GinkgoIterativeSolver.CBGMRESSolver,
      GinkgoIterativeSolver.CBGMRESSolver_preconditioned,
      GinkgoIterativeSolver.IRSolver_inner,
      GinkgoIterativeSolver.preconditioned,
      GinkgoIterativeSolver.krylov_dim;
    cbn -[to_unsigned_long];
    repeat match goal with
           | |- context [if ?b then _ else _] =>
               destruct b; cbn -[to_unsigned_long]
           end;
    repeat split; reflexivity.
Qed.

Lemma X16_witness :
  GinkgoIterativeSolver.max_iter
    (GinkgoIterativeSolver.GMRESSolver_preconditioned omp
       wrapped_preconditioner 30) = 10 /\
  GinkgoIterativeSolver.system_oper
    (GinkgoIterativeSolver.GMRESSolver_preconditioned omp
       wrapped_preconditioner 30) = None.
Proof.
  destruct (X16_constructors_leave_an_unbound_solver_with_defaults
              (new_GMRES_preconditioned omp wrapped_preconditioner 30))
    as (Hsys & _ & _ & Hmax & _).
  split; [exact Hmax | exact Hsys].
Defined.

Lemma preconditioned_binding kind first rest p this :
  generated_preconditioners (first ++ rest) = [] ->
  preconditioner_factories (first ++ rest) = [] ->
  let st := GinkgoIterativeSolver.preconditioned kind first rest p this in
  generated_preconditioners (solver_params st) =
    (if GinkgoPreconditioner.HasGeneratedPreconditioner p
     then [GinkgoPreconditioner.GetGeneratedPreconditioner p] else []) /\
  preconditioner_factories (solver_params st) =
    (if GinkgoPreconditioner.HasGeneratedPreconditioner p
     then [] else [GinkgoPreconditioner.GetFactory p]).
Proof.
  assert (forall l1 l2,
             generated_preconditioners (l1 ++ l2) =
             generated_preconditioners l1 ++ generated_preconditioners l2)
    as Hg by (induction l1 as [|[] l1 IH]; intros l2; cbn; rewrite ?IH; auto).
  assert (forall l1 l2,
             preconditioner_factories (l1 ++ l2) =
             preconditioner_factories l1 ++ preconditioner_factories l2)
    as Hf by (induction l1 as [|[] l1 IH]; intros l2; cbn; rewrite ?IH; auto).
  rewrite Hg, Hf. intros Hng Hnf.
  apply app_eq_nil in Hng as [Hg1 Hg2]. apply app_eq_nil in Hnf as [Hf1 Hf2].
  destruct this. unfold GinkgoIterativeSolver.preconditioned, solver_params.
  cbn.
  destruct (GinkgoPreconditioner.HasGeneratedPreconditioner p); cbn;
    [destruct (gko.is_OperatorWrapper _); cbn|];
    split;
    repeat (rewrite ?Hg, ?Hf, ?Hg1, ?Hg2, ?Hf1, ?Hf2; cbn); reflexivity.
Qed.

(** X17. A solver constructed with a preconditioner uses exactly one of the
    two binding modes: its factory holds the preconditioner's generated
    instance and no preconditioner factory when the preconditioner has a
    generated instance, and the preconditioner's factory and no generated
    instance otherwise. *)
Theorem X17_exactly_one_preconditioner_binding_mode :
  forall (exec : GinkgoExecutor.t) (p : GinkgoPreconditioner.t)
         (st : GinkgoIterativeSolver.t),
    preconditioned_solver exec p st ->
    generated_preconditioners (solver_params st) =
      (if GinkgoPreconditioner.HasGeneratedPreconditioner p
       then [GinkgoPreconditioner.GetGeneratedPreconditioner p] else []) /\
    preconditioner_factories (solver_params st) =
      (if GinkgoPreconditioner.HasGeneratedPreconditioner p
       then [] else [GinkgoPreconditioner.GetFactory p]).
Proof.
  intros exec p st H.
  destruct H;
    unfold GinkgoIterativeSolver.CGSolver_preconditioned,
      GinkgoIterativeSolver.BICGSTABSolver_preconditioned,
      GinkgoIterativeSolver.CGSSolver_preconditioned,
      GinkgoIterativeSolver.FCGSolver_preconditioned,
      GinkgoIterativeSolver.GMRESSolver_preconditioned,
      GinkgoIterativeSolver.CBGMRESSolver_preconditioned;
    apply preconditioned_binding;
    unfold GinkgoIterativeSolver.krylov_dim;
    try destruct (dim =? 0); reflexivity.
Qed.

Lemma X17_witness :
  generated_preconditioners
    (solver_params
       (GinkgoIterativeSolver.CGSolver_preconditioned omp bound_AMG)) =
    [GinkgoPreconditioner.generated_precond bound_AMG] /\
  preconditioner_factories
    (solver_params
       (GinkgoIterativeSolver.CGSolver_preconditioned omp bound_AMG)) = [].
Proof.
  apply (X17_exactly_one_preconditioner_binding_mode (pre_CG omp bound_AMG)).
Defined.

(** X18. The wrapping requirement travels up a chain of solvers: a solver
    constructed with a preconditioner asks for wrapped vectors exactly when
    the preconditioner has a generated instance that is a wrapped MFEM
    operator, and a stationary solver built around an inner solver asks for
    them exactly when the inner solver does. *)
Theorem X18_wrapping_requirement_propagates_upward :
  forall (exec : GinkgoExecutor.t),
    (forall (p : GinkgoPreconditioner.t) (st : GinkgoIterativeSolver.t),
        preconditioned_solver exec p st ->
        GinkgoIterativeSolver.UsesVectorWrappers st =
        GinkgoPreconditioner.HasGeneratedPreconditioner p
        && gko.is_OperatorWrapper
             (GinkgoPreconditioner.GetGeneratedPreconditioner p)) /\
    (forall inner_solver : GinkgoIterativeSolver.t,
        GinkgoIterativeSolver.UsesVectorWrappers
          (GinkgoIterativeSolver.IRSolver_inner exec inner_solver) =
        GinkgoIterativeSolver.UsesVectorWrappers inner_solver).
Proof.
  intros exec. split.
  - intros p st H.
    destruct H;
      unfold GinkgoIterativeSolver.CGSolver_preconditioned,
        GinkgoIterativeSolver.BICGSTABSolver_preconditioned,
        GinkgoIterativeSolver.CGSSolver_preconditioned,
        GinkgoIterativeSolver.FCGSolver_preconditioned,
        GinkgoIterativeSolver.GMRESSolver_preconditioned,
        GinkgoIterativeSolver.CBGMRESSolver_preconditioned,
        GinkgoIterativeSolver.preconditioned,
        GinkgoIterativeSolver.UsesVectorWrappers;
      destruct (GinkgoPreconditioner.HasGeneratedPreconditioner p); cbn;
      try destruct (gko.is_OperatorWrapper _); cbn;
      try destruct use_implicit; reflexivity.
  - intros inner_solver.
    unfold GinkgoIterativeSolver.IRSolver_inner,
      GinkgoIterativeSolver.UsesVectorWrappers.
    destruct (GinkgoIterativeSolver.needs_wrapped_vecs inner_solver);
      reflexivity.
Qed.

Lemma X18_witness :
  GinkgoIterativeSolver.UsesVectorWrappers
    (GinkgoIterativeSolver.IRSolver_inner omp
       (GinkgoIterativeSolver.CGSolver_preconditioned omp
          wrapped_preconditioner)) = true.
Proof.
  destruct (X18_wrapping_requirement_propagates_upward omp) as [Hpre Hir].
  rewrite Hir.
  rewrite (Hpre wrapped_preconditioner _ (pre_CG omp wrapped_preconditioner)).
  reflexivity.
Defined.

(** ** Loggers and repeated solves *)

Lemma frame_fields st st' :
  frame st' = frame st ->
  GinkgoIterativeSolver.system_oper st' = GinkgoIterativeSolver.system_oper st /\
  GinkgoIterativeSolver.solver st' = GinkgoIterativeSolver.solver st /\
  GinkgoIterativeSolver.combined_factory st' =
    GinkgoIterativeSolver.combined_factory st /\
  GinkgoIterativeSolver.executor st' = GinkgoIterativeSolver.executor st /\
  GinkgoIterativeSolver.iterative_mode st' =
    GinkgoIterativeSolver.iterative_mode st /\
  GinkgoIterativeSolver.use_implicit_res_norm st' =
    GinkgoIterativeSolver.use_implicit_res_norm st /\
  GinkgoIterativeSolver.needs_wrapped_vecs st' =
    GinkgoIterativeSolver.needs_wrapped_vecs st.
Proof.
  unfold frame. intros H. injection H. intros. repeat split; assumption.
Qed.

(** X19. A solve that returns leaves exactly one convergence logger on the
    combined criterion, whatever was attached before, and the solver holds
    the record of this solve.  The loggers of the generated solver are
    replaced by one residual logger at print level 1 and left as they were
    at any other level. *)
Theorem X19_each_solve_attaches_one_fresh_convergence_logger :
  forall (backend : Backend) (c : GinkgoIterativeSolver.Call) (x : Vector)
         A exec s cf d v vs,
    let this := GinkgoIterativeSolver.this c in
    GinkgoIterativeSolver.system_oper this = Some A ->
    GinkgoIterativeSolver.executor this = Some exec ->
    GinkgoIterativeSolver.solver this = Some s ->
    GinkgoIterativeSolver.combined_factory this = Some cf ->
    Size (GinkgoIterativeSolver.y c) = Size x ->
    let log := snd (backend_solve c exec s x) in
    logged_norm c log = Some d ->
    gko.d_values d = v :: vs ->
    let this' :=
      GinkgoIterativeSolver.this (fst (GinkgoIterativeSolver.Mult x c)) in
    GinkgoIterativeSolver.combined_factory_loggers this' =
      [gko.ConvergenceLogger] /\
    GinkgoIterativeSolver.convergence_logger this' = Some log /\
    GinkgoIterativeSolver.solver_loggers this' =
      (if GinkgoIterativeSolver.print_level this =? 1
       then [gko.ResidualLogger]
       else GinkgoIterativeSolver.solver_loggers this).
Proof.
  intros backend c x A exec s cf d v vs this HA He Hs Hcf Hsize log Hnorm Hd
         this'.
  subst this this' log.
  unfold backend_solve, initial_guess, logged_norm in *.
  destruct c as [st y0 io0]. destruct st. cbn in *. subst.
  unfold GinkgoIterativeSolver.Mult. cbn. rewrite Hsize, Z.eqb_refl. cbn.
  destruct iterative_mode; cbn in *;
    destruct (print_level =? 1); cbn;
    destruct (solver_apply _ _ _) as [last log]; cbn in *;
    destruct use_implicit_res_norm; cbn in *; rewrite Hnorm;
    unfold GinkgoIterativeSolver.read_norm, gko.at_0_0, bind, ret; cbn;
    rewrite Hd, get_master_on_host; cbn;
    destruct (gko.has_converged log); cbn;
    destruct (2 <=? print_level); cbn;
    repeat split; reflexivity.
Qed.

Lemma X19_witness :
  let st := GinkgoIterativeSolver.set_combined_factory_loggers
              [gko.ConvergenceLogger; gko.ConvergenceLogger] bound_CG in
  GinkgoIterativeSolver.combined_factory_loggers
    (GinkgoIterativeSolver.this
       (fst (GinkgoIterativeSolver.Mult (backend := demo_backend true)
               [5%R] (call st [7%R])))) =
  [gko.ConvergenceLogger].
Proof.
  intros st.
  apply (X19_each_solve_attaches_one_fresh_convergence_logger
           (demo_backend true) (call st [7%R]) [5%R]
           (A := gko.Csr gko.OmpExecutor 1 1 false 1 [1%R] [0] [0; 1])
           (exec := gko.OmpExecutor)
           (s := gko.Generated
                   (gko.Build (gko.Cg gko.vt_double)
                      [gko.with_criteria
                         [GinkgoIterativeSolver.combined_factory bound_CG]]
                      (Some gko.OmpExecutor))
                   (gko.Csr gko.OmpExecutor 1 1 false 1 [1%R] [0] [0; 1]))
           (cf := gko.Build gko.Combined
                    [gko.with_criteria
                       [GinkgoIterativeSolver.imp_rel_criterion bound_CG;
                        GinkgoIterativeSolver.imp_abs_criterion bound_CG;
                        Some (gko.Build gko.Iteration [gko.with_max_iters 10]
                                        (Some gko.OmpExecutor))]]
                    (Some gko.OmpExecutor))
           (d := one_by_one gko.OmpExecutor 4) (v := 4%R) (vs := [])
           eq_refl eq_refl eq_refl eq_refl eq_refl eq_refl eq_refl).
Defined.

Lemma Size_length (u v : Vector) : Size u = Size v -> List.length u = List.length v.
Proof. unfold Size. lia. Qed.

(** X20. A cold-start solve is repeatable.  With [iterative_mode] off and a
    backend that fills [y] without resizing it, solving the same right-hand
    side again right after a solve returns normally again, and gives the
    same [y], the same iteration count and the same converged flag: nothing
    the first solve left in the solver or in [y] reaches the second. *)
Theorem X20_cold_start_solve_is_repeatable :
  forall (backend : Backend) (c : GinkgoIterativeSolver.Call) (x : Vector)
         A exec s cf d v vs,
    let this := GinkgoIterativeSolver.this c in
    GinkgoIterativeSolver.iterative_mode this = false ->
    GinkgoIterativeSolver.system_oper this = Some A ->
    GinkgoIterativeSolver.executor this = Some exec ->
    GinkgoIterativeSolver.solver this = Some s ->
    GinkgoIterativeSolver.combined_factory this = Some cf ->
    Size (GinkgoIterativeSolver.y c) = Size x ->
    let run := backend_solve c exec s x in
    Size (fst run) = Size x ->
    logged_norm c (snd run) = Some d ->
    gko.d_values d = v :: vs ->
    let c1 := fst (GinkgoIterativeSolver.Mult x c) in
    let c2 := fst (GinkgoIterativeSolver.Mult x c1) in
    snd (GinkgoIterativeSolver.Mult x c1) = Val tt /\
    GinkgoIterativeSolver.y c2 = GinkgoIterativeSolver.y c1 /\
    GinkgoIterativeSolver.final_iter (GinkgoIterativeSolver.this c2) =
      GinkgoIterativeSolver.final_iter (GinkgoIterativeSolver.this c1) /\
    GinkgoIterativeSolver.converged (GinkgoIterativeSolver.this c2) =
      GinkgoIterativeSolver.converged (GinkgoIterativeSolver.this c1).
Proof.
  intros backend c x A exec s cf d v vs this Hmode HA He Hs Hcf Hsize run
         Hsize' Hnorm Hd c1 c2.
  destruct (Mult_returns c x HA He Hs Hcf Hsize Hnorm Hd)
    as (_ & Hy1 & Hconv1 & Hiter1 & _).
  fold run in Hy1, Hconv1, Hiter1. fold c1 in Hy1, Hconv1, Hiter1.
  destruct (frame_fields (Mult_frame x c))
    as (Fsys & Fsol & Fcf & Fexec & Fmode & Fimp & Fneeds).
  fold c1 in Fsys, Fsol, Fcf, Fexec, Fmode, Fimp, Fneeds.
  fold this in Fsys, Fsol, Fcf, Fexec, Fmode, Fimp, Fneeds.
  assert (backend_solve c1 exec s x = run) as Hrun.
  { unfold run, backend_solve, initial_guess, GinkgoIterativeSolver.wrap.
    fold this. rewrite Fmode, Fneeds, Hmode.
    rewrite (Vector_assign_length 0 (GinkgoIterativeSolver.y c1)
               (GinkgoIterativeSolver.y c)); [reflexivity|].
    apply Size_length. rewrite Hy1, Hsize', Hsize. reflexivity. }
  assert (logged_norm c1 (snd (backend_solve c1 exec s x)) = Some d) as Hnorm1.
  { rewrite Hrun. unfold logged_norm in *. rewrite Fimp. exact Hnorm. }
  assert (Size (GinkgoIterativeSolver.y c1) = Size x) as Hsize1
      by (rewrite Hy1; exact Hsize').
  destruct (Mult_returns c1 x
              (eq_trans Fsys HA) (eq_trans Fexec He) (eq_trans Fsol Hs)
              (eq_trans Fcf Hcf) Hsize1 Hnorm1 Hd)
    as (Hret2 & Hy2 & Hconv2 & Hiter2 & _).
  fold c2 in Hy2, Hconv2, Hiter2. rewrite Hrun in Hy2, Hconv2, Hiter2.
  repeat split; [exact Hret2 | congruence | congruence | congruence].
Qed.

Lemma X20_witness :
  let c1 := fst (GinkgoIterativeSolver.Mult (backend := demo_backend true)
                   [5%R] (call bound_CG [7%R])) in
  GinkgoIterativeSolver.y
    (fst (GinkgoIterativeSolver.Mult (backend := demo_backend true) [5%R] c1))
  = GinkgoIterativeSolver.y c1.
Proof.
  intros c1.
  apply (X20_cold_start_solve_is_repeatable
           (demo_backend true) (call bound_CG [7%R]) [5%R]
           (A := gko.Csr gko.OmpExecutor 1 1 false 1 [1%R] [0] [0; 1])
           (exec := gko.OmpExecutor)
           (s := gko.Generated
                   (gko.Build (gko.Cg gko.vt_double)
                      [gko.with_criteria
                         [GinkgoIterativeSolver.combined_factory bound_CG]]
                      (Some gko.OmpExecutor))
                   (gko.Csr gko.OmpExecutor 1 1 false 1 [1%R] [0] [0; 1]))
           (cf := gko.Build gko.Combined
                    [gko.with_criteria
                       [GinkgoIterativeSolver.imp_rel_criterion bound_CG;
                        GinkgoIterativeSolver.imp_abs_criterion bound_CG;
                        Some (gko.Build gko.Iteration [gko.with_max_iters 10]
                                        (Some gko.OmpExecutor))]]
                    (Some gko.OmpExecutor))
           (d := one_by_one gko.OmpExecutor 4) (v := 4%R) (vs := [])
           eq_refl eq_refl eq_refl eq_refl eq_refl eq_refl eq_refl eq_refl
           eq_refl).
Defined.

(** ** Preconditioners *)

Lemma reachable_preconditioner_consistent p :
  reachable_preconditioner p ->
  GinkgoPreconditioner.has_generated_precond p =
  is_some (GinkgoPreconditioner.generated_precond p).
Proof.
  induction 1 as [exec | exec smoother pre_sweeps post_sweeps coarse_solver
                         coarse_solve_its use_mixed_prec skip_sort
                  | exec mfem_precond | op p _ IH].
  - reflexivity.
  - destruct (AMG_factory exec smoother pre_sweeps post_sweeps coarse_solver
                coarse_solve_its use_mixed_prec skip_sort) as (ps & -> & _).
    reflexivity.
  - reflexivity.
  - destruct p. unfold GinkgoPreconditioner.SetOperator. cbn in *.
    destruct has_generated_precond; cbn;
      (destruct (as_SparseMatrix op); cbn;
       [ destruct executor; cbn; [destruct precond_gen; cbn|] |]);
      auto.
Qed.

(** X22. On every preconditioner the constructors and [SetOperator] can
    produce, the flag [has_generated_precond] is set exactly when a
    generated instance is held. *)
Theorem X22_generated_flag_matches_the_instance :
  forall p : GinkgoPreconditioner.t,
    reachable_preconditioner p ->
    GinkgoPreconditioner.has_generated_precond p =
    is_some (GinkgoPreconditioner.generated_precond p).
Proof. exact reachable_preconditioner_consistent. Qed.

Lemma X22_witness :
  GinkgoPreconditioner.has_generated_precond
    (fst (GinkgoPreconditioner.SetOperator generic_operator bound_AMG)) =
  false.
Proof.
  unfold bound_AMG.
  rewrite (X22_generated_flag_matches_the_instance
             (pre_SetOperator generic_operator
                (pre_SetOperator square_matrix
                   (pre_new_AMG omp AMGPreconditioner.JACOBI 1 1
                      AMGPreconditioner.JACOBI 4 false false)))).
  reflexivity.
Defined.

(** X23. Rebinding a preconditioner forgets the matrix bound before:
    [SetOperator] of a second operator after [SetOperator] of a first one
    ends in the same state, with the same outcome, as [SetOperator] of the
    second operator alone. *)
Theorem X23_preconditioner_rebinding_forgets_the_previous_matrix :
  forall (p : GinkgoPreconditioner.t) (op1 op2 : Operator),
    reachable_preconditioner p ->
    GinkgoPreconditioner.SetOperator op2
      (fst (GinkgoPreconditioner.SetOperator op1 p)) =
    GinkgoPreconditioner.SetOperator op2 p.
Proof.
  intros p op1 op2 Hreach.
  pose proof (reachable_preconditioner_consistent Hreach) as Hflag.
  destruct p. unfold GinkgoPreconditioner.SetOperator. cbn in *.
  destruct has_generated_precond, generated_precond; cbn in *;
    try discriminate Hflag;
    (destruct (as_SparseMatrix op1); cbn;
     [ destruct executor; cbn; [destruct precond_gen; cbn|] |]);
    reflexivity.
Qed.

Lemma X23_witness :
  GinkgoPreconditioner.SetOperator square_matrix
    (fst (GinkgoPreconditioner.SetOperator wide_matrix unbound_AMG)) =
  GinkgoPreconditioner.SetOperator square_matrix unbound_AMG.
Proof.
  apply X23_preconditioner_rebinding_forgets_the_previous_matrix.
  apply pre_new_AMG.
Defined.

Lemma LinOp_apply_never_aborts {backend : Backend} fuel op b x msg :
  LinOp_apply fuel op b x <> Stop (Aborted msg).
Proof.
  destruct op as [| exec size wrapped_oper | factory system]; cbn;
    try discriminate.
  - unfold OperatorWrapper.apply_impl. cbn.
    destruct b, x; cbn; discriminate.
  - destruct factory as [kind ps e|]; [destruct kind|]; cbn;
      try discriminate.
    unfold multigrid_apply. destruct (iterate_until _ _ _ _ _) as [[k xk]|];
      discriminate.
Qed.

(** X24. Applying a preconditioner aborts only on its two checks, and then
    before [y] is touched: an abort means that no instance was generated
    or that the executor is missing, and [y] is what it was. *)
Theorem X24_preconditioner_Mult_aborts_before_it_writes :
  forall (backend : Backend) (fuel : nat) (p : GinkgoPreconditioner.t)
         (x y y' : Vector) (msg : string),
    GinkgoPreconditioner.Mult fuel p x y = (y', Stop (Aborted msg)) ->
    y' = y /\
    ((msg = "Preconditioner not initialized" /\
      GinkgoPreconditioner.generated_precond p = None) \/
     (msg = "executor is not initialized" /\
      GinkgoPreconditioner.executor p = None)).
Proof.
  intros backend fuel p x y y' msg. destruct p.
  unfold GinkgoPreconditioner.Mult. cbn.
  destruct generated_precond as [precond|]; cbn;
    [|intros Heq; injection Heq as <- <-; auto].
  destruct executor as [e|]; cbn;
    [|intros Heq; injection Heq as <- <-; auto].
  destruct iterative_mode; cbn; unfold bind, lift;
    destruct (LinOp_apply _ _ _ _) as [v|why] eqn:Happly; cbn;
    try discriminate;
    intros Heq; injection Heq as _ ->;
    exfalso; exact (LinOp_apply_never_aborts _ _ _ _ Happly).
Qed.

Lemma X24_witness :
  GinkgoPreconditioner.Mult (backend := demo_backend true) 2 unbound_AMG
    [5%R] [7%R] =
  ([7%R], Stop (Aborted "Preconditioner not initialized")).
Proof.
  assert (GinkgoPreconditioner.Mult (backend := demo_backend true) 2
            unbound_AMG [5%R] [7%R] =
          (fst (GinkgoPreconditioner.Mult (backend := demo_backend true) 2
                  unbound_AMG [5%R] [7%R]),
           Stop (Aborted "Preconditioner not initialized")))
    as Hrun by reflexivity.
  destruct (X24_preconditioner_Mult_aborts_before_it_writes
              (demo_backend true) 2 unbound_AMG [5%R] [7%R] Hrun)
    as [Hsame _].
  rewrite Hrun, Hsame. reflexivity.
Defined.

(** ** More on the multigrid hierarchy *)

(** X25. Whatever the constructor's arguments, every level of the hierarchy
    coarsens deterministically; the finest level sorts its matrix unless
    [skip_sort] is given, and every other level skips the sort. *)
Theorem X25_AMG_levels_are_deterministic_and_sort_only_on_top :
  forall exec smoother pre_sweeps post_sweeps coarse_solver coarse_solve_its
         use_mixed_prec skip_sort level,
    let f := factory_of (AMGPreconditioner.create exec smoother pre_sweeps
                           post_sweeps coarse_solver coarse_solve_its
                           use_mixed_prec skip_sort) in
    exists vt ps,
      AMGPreconditioner.level_coarsening f level =
        Some (gko.Build (gko.AmgxPgm vt) ps
                        (GinkgoExecutor.GetExecutor exec)) /\
      get_deterministic ps false = true /\
      get_skip_sorting ps false = (if level =? 0 then skip_sort else true).
Proof.
  intros exec smoother pre_sweeps post_sweeps coarse_solver coarse_solve_its
         use_mixed_prec skip_sort level f.
  subst f. unfold AMGPreconditioner.create.
  destruct (AMGPreconditioner.smoother_gens _ _ _ _) as [sg sgs].
  unfold AMGPreconditioner.level_coarsening, AMGPreconditioner.level_index.
  destruct use_mixed_prec, skip_sort; cbn;
    unfold AMGPreconditioner.selector;
    destruct (level =? 0); cbn; eexists _, _; repeat split; reflexivity.
Qed.

(** X26. Without mixed precision every level smooths and coarsens in
    double precision, for each of the five smoother kinds; and the coarsest
    solver, for each of its five kinds, is built in single precision
    exactly when mixed precision is on. *)
Theorem X26_AMG_precisions :
  forall exec smoother pre_sweeps post_sweeps coarse_solver coarse_solve_its
         skip_sort,
    (forall level,
        let f := factory_of (AMGPreconditioner.create exec smoother
                               pre_sweeps post_sweeps coarse_solver
                               coarse_solve_its false skip_sort) in
        AMGPreconditioner.has_precision gko.vt_double
          (AMGPreconditioner.level_smoother f level) = true /\
        AMGPreconditioner.has_precision gko.vt_double
          (AMGPreconditioner.level_coarsening f level) = true) /\
    (forall use_mixed_prec,
        let f := factory_of (AMGPreconditioner.create exec smoother
                               pre_sweeps post_sweeps coarse_solver
                               coarse_solve_its use_mixed_prec skip_sort) in
        exists c,
          get_coarsest_solver (gko.params_of f) [] = [c] /\
          AMGPreconditioner.has_precision
            (if use_mixed_prec then gko.vt_float else gko.vt_double) c = true).
Proof.
  intros exec smoother pre_sweeps post_sweeps coarse_solver coarse_solve_its
         skip_sort.
  split.
  - intros level f. subst f.
    unfold AMGPreconditioner.level_smoother,
      AMGPreconditioner.level_coarsening, AMGPreconditioner.level_index.
    destruct smoother, skip_sort; cbn;
      unfold AMGPreconditioner.selector;
      destruct (level =? 0); split; reflexivity.
  - intros use_mixed_prec f. subst f. unfold AMGPreconditioner.create.
    destruct (AMGPreconditioner.smoother_gens _ _ _ _) as [sg sgs].
    destruct use_mixed_prec, skip_sort, coarse_solver; cbn;
      eexists; split; reflexivity.
Qed.
